(** * Reliability metrics of the maintenance application

    A shallow embedding of [src/mantenimiento/utils/kpi_calculator.py]
    (class [KPICalculator]) and of the record shapes it reads
    ([models/falla.py], [models/orden_trabajo.py]), followed by the
    properties of the specification stated and proved on that embedding.

    Conventions of the embedding

    - A naive [datetime] is the number of microseconds since the epoch, a
      [Z]; a [timedelta] is a number of microseconds.
    - Python floats are read in two ways.  The definitions of the first
      part take the arithmetic of the source exactly, over the rationals
      ([Q]); equalities of computed values are stated with [==] where the
      two sides are not syntactically the same fraction.  Module [Binary64]
      reads the same lines over IEEE 754 binary64 numbers, with the
      rounding, the infinities and the exceptions of Python's [float]; it
      serves the properties on which these bear.
    - A Python exception is a value of [exc]; code that may raise returns a
      [result].
    - A record arrives as a dictionary.  Each key the calculator reads is a
      [slot]: the key may be absent, bound to [None], or bound to a value of
      the type the dataclass declares for it.
    - [datetime.fromisoformat] belongs to Python's standard library; the
      engine is parameterised by its action on strings ([parse_iso]), and a
      concrete reader for the two layouts the application stores is given
      for the worked examples. *)

From Stdlib Require Import List ZArith QArith Lia Lqa Bool String Ascii Floats.
From Stdlib Require Import Permutation Sorting.Sorted.
Import ListNotations.
Open Scope Z_scope.

Set Implicit Arguments.

(** ** Exceptions and results *)

Inductive exc : Type :=
| ValueError
| TypeError
| ZeroDivisionError
| OverflowError.

Inductive result (A : Type) : Type :=
| Ok (a : A)
| Raise (e : exc).

Arguments Ok {A} a.
Arguments Raise {A} e.

Definition bind {A B : Type} (m : result A) (k : A -> result B) : result B :=
  match m with
  | Ok a => k a
  | Raise e => Raise e
  end.

Notation "x <- m ;; k" := (bind m (fun x => k))
  (at level 61, m at next level, right associativity).

(** [[g(x) for x in l]] where [g] may raise: elements are evaluated from
    left to right and the first exception aborts the comprehension. *)
Fixpoint mapM {A B : Type} (g : A -> result B) (l : list A) : result (list B) :=
  match l with
  | [] => Ok []
  | x :: l' => y <- g x ;; ys <- mapM g l' ;; Ok (y :: ys)
  end.

(** [[sum(1 for x in l if g(x))]] where the test [g] may raise. *)
Fixpoint countM {A : Type} (g : A -> result bool) (l : list A) : result Z :=
  match l with
  | [] => Ok 0
  | x :: l' => b <- g x ;; n <- countM g l' ;; Ok (if b then 1 + n else n)
  end.

(** ** Dictionaries as records of slots *)

Inductive slot (A : Type) : Type :=
| Absent
| PyNone
| Val (a : A).

Arguments Absent {A}.
Arguments PyNone {A}.
Arguments Val {A} a.

(** [[k in d]] *)
Definition has_key {A : Type} (s : slot A) : bool :=
  match s with
  | Absent => false
  | _ => true
  end.

(** [[d.get(k)]]: [None] stands for Python's [None]. *)
Definition get {A : Type} (s : slot A) : option A :=
  match s with
  | Val a => Some a
  | _ => None
  end.

(** [[d.get(k, default)]]: the default replaces a missing key only. *)
Definition get_default {A : Type} (s : slot A) (default : A) : option A :=
  match s with
  | Absent => Some default
  | PyNone => None
  | Val a => Some a
  end.

(** [[d[k]]], used by the source only after [[k in d]] or a truthy
    [[d.get(k)]]. *)
Definition getitem {A : Type} (s : slot A) : option A := get s.

(** [[v in [s1, s2, ...]]] for a value that is a string or [None]. *)
Definition in_strings (v : option string) (l : list string) : bool :=
  match v with
  | Some s => existsb (String.eqb s) l
  | None => false
  end.

(** Truth value of a string-or-[None]: [None] and the empty string are
    false. *)
Definition truthy_str (v : option string) : bool :=
  match v with
  | Some s => negb (String.eqb s EmptyString)
  | None => false
  end.

(** The keys of a failure dictionary that the calculator reads
    (see [Falla.to_dict]). *)
Record falla : Type := mk_falla {
  f_estado : slot string;
  f_fecha_reporte : slot string;
  f_tiempo_fuera_servicio_h : slot Q;
  f_causa_raiz : slot string;
  f_costo_reparacion : slot Q
}.

(** The keys of a work-order dictionary that the calculator reads
    (see [OrdenTrabajo.to_dict]). *)
Record orden : Type := mk_orden {
  ot_tipo : slot string;
  ot_estado : slot string;
  ot_fecha_programada : slot string;
  ot_fecha_fin : slot string;
  ot_costo_real : slot Q
}.

(** ** Time *)

Definition datetime : Type := Z.
Definition timedelta : Type := Z.

Definition timedelta_days (d : Z) : timedelta := d * 86400 * 1000000.

(** The range of [datetime]: [datetime.min] is 0001-01-01T00:00:00 and
    [datetime.max] is 9999-12-31T23:59:59.999999. *)
Definition datetime_min : datetime := -62135596800000000.
Definition datetime_max : datetime := 253402300799999999.

(** [[t + delta]] on a [datetime]: [OverflowError] when the sum leaves the
    range of [datetime]. *)
Definition add_timedelta (t : datetime) (delta : timedelta) : result datetime :=
  let r := t + delta in
  if (r <? datetime_min) || (datetime_max <? r) then Raise OverflowError
  else Ok r.

(** [[delta.total_seconds()]] *)
Definition total_seconds (delta : timedelta) : Q := inject_Z delta / 1000000.

(** ** Built-ins *)

(** [[sum(l)]] on numbers: accumulates from 0, left to right.  (Exact
    arithmetic; [Binary64.sum] rounds each partial sum.) *)
Definition sum (l : list Q) : Q := fold_left Qplus l 0%Q.

(** [[len(l)]] *)
Definition len {A : Type} (l : list A) : Z := Z.of_nat (List.length l).

(** [[sorted(l, key=key, reverse=reverse)]].  Python's sort is stable, also
    with [reverse=True]: elements whose keys are equal keep the order they
    had in [l].  The model is the insertion sort built from the right, in
    which an element passes only the elements that must strictly precede
    it. *)
Section Sorted.
Variable A : Type.
Variable key : A -> Z.
Variable reverse : bool.

Definition strictly_before (y x : A) : bool :=
  if reverse then key x <? key y else key y <? key x.

Fixpoint insert (x : A) (l : list A) : list A :=
  match l with
  | [] => [x]
  | y :: l' => if strictly_before y x then y :: insert x l' else x :: l
  end.

Definition sorted (l : list A) : list A := fold_right insert [] l.
End Sorted.

(** ** The primitives of [KPICalculator] *)

(** The [for i in range(1, len(fechas_ordenadas))] loop of [calcular_mtbf]:
    the hours between each element and its predecessor. *)
Definition diferencias_de (fechas_ordenadas : list datetime) : list Q :=
  map (fun i : nat =>
         let delta := nth i fechas_ordenadas 0 - nth (i - 1) fechas_ordenadas 0 in
         (total_seconds delta / 3600)%Q)
      (seq 1 (List.length fechas_ordenadas - 1)).

Definition calcular_mtbf (fechas_fallas : list datetime) : Q * Z :=
  if len fechas_fallas <? 2 then (0%Q, 0)
  else
    let fechas_ordenadas := sorted (fun t => t) false fechas_fallas in
    let diferencias := diferencias_de fechas_ordenadas in
    match diferencias with
    | [] => (0%Q, 0)
    | _ => ((sum diferencias / inject_Z (len diferencias))%Q, len diferencias)
    end.

(** The mean of the repair times, in exact arithmetic;
    [Binary64.calcular_mttr] is the same mean with every operation
    rounded. *)
Definition calcular_mttr (tiempos_reparacion : list Q) : Q :=
  match tiempos_reparacion with
  | [] => 0%Q
  | _ => (sum tiempos_reparacion / inject_Z (len tiempos_reparacion))%Q
  end.

(** [[a > b]] on numbers. *)
Definition Qgt_bool (a b : Q) : bool := negb (Qle_bool a b).

(** Float division raises [ZeroDivisionError] on a zero divisor. *)
Definition truediv (a b : Q) : result Q :=
  if Qeq_bool b 0 then Raise ZeroDivisionError else Ok (a / b)%Q.

(** The availability in exact arithmetic;
    [Binary64.calcular_disponibilidad] is the same quotient with the sum
    and the division rounded. *)
Definition calcular_disponibilidad (mtbf mttr : Q) : result Q :=
  if Qle_bool mtbf 0 then Ok 0%Q
  else truediv mtbf (mtbf + mttr).

(** ** The composite operations *)

(** The result dictionary of [calcular_kpis_activo]. *)
Record kpis : Type := mk_kpis {
  mtbf_horas : Q;
  mttr_horas : Q;
  disponibilidad : Q;
  num_fallas : Z;
  num_intervalos_mtbf : Z;
  cumplimiento_preventivo : option Q;
  costo_total_mantenimiento : Q;
  ultima_actualizacion : string
}.

(** The non-empty result dictionary of [generar_reporte_estadistico].  The
    key [distribucion_por_estado], which the source delegates to
    [pandas.Series.value_counts], is not part of the embedding. *)
Record reporte : Type := mk_reporte {
  periodo_inicio : option datetime;
  periodo_fin : option datetime;
  total_fallas : Z;
  tiempo_promedio_reparacion : Q;
  tiempo_total_fuera_servicio : Q;
  costo_total_reparaciones : Q;
  causas_raiz : list (option string * Z)
}.

(** The values of [EstadoFalla] ([models/falla.py]). *)
Definition ESTADO_FALLA : list string :=
  ["Reportada"; "En Revisión"; "En Reparación"; "Resuelta"; "Cerrada";
   "Inválida"]%string.

(** The literals of [kpi_calculator.py]. *)
Definition ESTADOS_RESUELTA : list string :=
  ["Resuelta"; "Cerrada"; "COMPLETADA"]%string.
Definition TIPOS_PREVENTIVO : list string :=
  ["Preventivo"; "PREVENTIVO"; "preventivo"]%string.
Definition ESTADOS_COMPLETADA : list string :=
  ["Completada"; "COMPLETADA"]%string.
Definition NO_ESPECIFICADA : string := "No especificada"%string.

(** A dictionary that remembers insertion order, as Python's [dict] does:
    [[d[k] = d.get(k, 0) + 1]] updates an existing entry in place and
    appends a new one at the end. *)
Section Counting.
Variable K : Type.
Variable eqb : K -> K -> bool.

Fixpoint incrementar (k : K) (d : list (K * Z)) : list (K * Z) :=
  match d with
  | [] => [(k, 0 + 1)]
  | (k', n) :: d' =>
      if eqb k' k then (k', n + 1) :: d' else (k', n) :: incrementar k d'
  end.

Definition contar (l : list K) : list (K * Z) :=
  fold_left (fun d k => incrementar k d) l [].
End Counting.

Definition causa_eqb (a b : option string) : bool :=
  match a, b with
  | Some x, Some y => String.eqb x y
  | None, None => true
  | _, _ => false
  end.

Section Engine.
(** [datetime.fromisoformat] on a string: [None] when it raises
    [ValueError]. *)
Variable parse_iso : string -> option datetime.

(** [datetime.fromisoformat(v)] on a slot's content: [None] is not a
    string. *)
Definition fromisoformat (v : option string) : result datetime :=
  match v with
  | None => Raise TypeError
  | Some s =>
      match parse_iso s with
      | Some t => Ok t
      | None => Raise ValueError
      end
  end.

Definition es_resuelta (f : falla) : bool :=
  in_strings (get (f_estado f)) ESTADOS_RESUELTA.

Definition es_preventivo (ot : orden) : bool :=
  in_strings (get (ot_tipo ot)) TIPOS_PREVENTIVO.

(** The condition of the generator that counts the preventive orders
    completed on time; [and] evaluates from left to right and stops at
    the first false operand, and the comparison evaluates its left operand
    first. *)
Definition completado_a_tiempo (ot : orden) : result bool :=
  if in_strings (get (ot_estado ot)) ESTADOS_COMPLETADA then
    if truthy_str (get (ot_fecha_fin ot)) then
      if truthy_str (get (ot_fecha_programada ot)) then
        fin <- fromisoformat (getitem (ot_fecha_fin ot)) ;;
        programada <- fromisoformat (getitem (ot_fecha_programada ot)) ;;
        limite <- add_timedelta programada (timedelta_days 1) ;;
        Ok (fin <=? limite)
      else Ok false
    else Ok false
  else Ok false.

(** [[x or 0]] on a number. *)
Definition or_zero (x : Q) : Q := if Qeq_bool x 0 then 0%Q else x.

(** The comprehension of [calcular_kpis_activo] that builds
    [tiempos_reparacion]. *)
Definition tiempos_de (fallas : list falla) : list Q :=
  flat_map (fun f =>
              if has_key (f_tiempo_fuera_servicio_h f) then
                match get (f_tiempo_fuera_servicio_h f) with
                | Some h => [h]
                | None => []
                end
              else [])
           fallas.

(** The block of [calcular_kpis_activo] that computes
    [cumplimiento_preventivo]: [None] unless some order is preventive. *)
Definition cumplimiento_de (ordenes_trabajo : option (list orden))
    : result (option Q) :=
  match ordenes_trabajo with
  | None | Some [] => Ok None
  | Some ordenes =>
      let preventivos := filter es_preventivo ordenes in
      match preventivos with
      | [] => Ok None
      | _ =>
          completados_a_tiempo <- countM completado_a_tiempo preventivos ;;
          Ok (Some ((inject_Z completados_a_tiempo
                     / inject_Z (len preventivos)) * 100)%Q)
      end
  end.

(** The block of [calcular_kpis_activo] that computes [costo_total]. *)
Definition costo_de (ordenes_trabajo : option (list orden)) : Q :=
  match ordenes_trabajo with
  | None | Some [] => 0%Q
  | Some ordenes =>
      sum (flat_map (fun ot =>
                       match get (ot_costo_real ot) with
                       | Some c => [or_zero c]
                       | None => []
                       end)
                    ordenes)
  end.

(** The comprehension of [calcular_kpis_activo] that builds
    [fechas_fallas]. *)
Definition fechas_de (fallas_resueltas : list falla) : result (list datetime) :=
  mapM (fun f => fromisoformat (getitem (f_fecha_reporte f)))
       (filter (fun f => has_key (f_fecha_reporte f)) fallas_resueltas).

Definition calcular_kpis_activo
    (fallas : list falla) (ordenes_trabajo : option (list orden))
    (now_iso : string) : result kpis :=
  let fallas_resueltas := filter es_resuelta fallas in
  fechas_fallas <- fechas_de fallas_resueltas ;;
  let '(mtbf, num_intervalos) := calcular_mtbf fechas_fallas in
  let tiempos_reparacion := tiempos_de fallas_resueltas in
  let mttr :=
    match tiempos_reparacion with
    | [] => 0%Q
    | _ => calcular_mttr tiempos_reparacion
    end in
  disponibilidad <-
    (if Qgt_bool mtbf 0 then calcular_disponibilidad mtbf mttr
     else Ok 1%Q) ;;
  cumplimiento_preventivo <- cumplimiento_de ordenes_trabajo ;;
  let costo_total := costo_de ordenes_trabajo in
  Ok {| mtbf_horas := mtbf;
        mttr_horas := mttr;
        disponibilidad := disponibilidad;
        num_fallas := len fallas_resueltas;
        num_intervalos_mtbf := num_intervalos;
        cumplimiento_preventivo := cumplimiento_preventivo;
        costo_total_mantenimiento := costo_total;
        ultima_actualizacion := now_iso |}.

(** The period filter of [generar_reporte_estadistico]: the [for] loop
    with its [try]/[except (ValueError, TypeError)]. *)
Fixpoint filtrar_periodo (inicio fin : option datetime) (fallas : list falla)
    : result (list falla) :=
  match fallas with
  | [] => Ok []
  | falla :: resto =>
      if negb (has_key (f_fecha_reporte falla)) then
        filtrar_periodo inicio fin resto
      else
        match fromisoformat (getitem (f_fecha_reporte falla)) with
        | Ok fecha_falla =>
            if match inicio with Some i => fecha_falla <? i | None => false end
               || match fin with Some e => fecha_falla >? e | None => false end
            then filtrar_periodo inicio fin resto
            else
              filtradas <- filtrar_periodo inicio fin resto ;;
              Ok (falla :: filtradas)
        | Raise ValueError | Raise TypeError =>
            filtrar_periodo inicio fin resto
        | Raise e => Raise e
        end
  end.

Definition causa_de (f : falla) : option string :=
  get_default (f_causa_raiz f) NO_ESPECIFICADA.

Definition generar_reporte_estadistico
    (fallas : list falla) (inicio fin : option datetime)
    : result (option reporte) :=
  match fallas with
  | [] => Ok None
  | _ =>
      fallas_filtradas <-
        match inicio, fin with
        | None, None => Ok fallas
        | _, _ => filtrar_periodo inicio fin fallas
        end ;;
      match fallas_filtradas with
      | [] => Ok None
      | _ =>
          let tiempos_reparacion :=
            flat_map (fun f =>
                        match get (f_tiempo_fuera_servicio_h f) with
                        | Some h => [h]
                        | None => []
                        end)
                     fallas_filtradas in
          let costos_reparacion :=
            flat_map (fun f =>
                        match get (f_costo_reparacion f) with
                        | Some c => [c]
                        | None => []
                        end)
                     fallas_filtradas in
          let causas := contar causa_eqb (map causa_de fallas_filtradas) in
          let causas_ordenadas := sorted (fun x : option string * Z => snd x) true causas in
          Ok (Some
                {| periodo_inicio := inicio;
                   periodo_fin := fin;
                   total_fallas := len fallas_filtradas;
                   tiempo_promedio_reparacion :=
                     match tiempos_reparacion with
                     | [] => 0%Q
                     | _ => (sum tiempos_reparacion
                             / inject_Z (len tiempos_reparacion))%Q
                     end;
                   tiempo_total_fuera_servicio := sum tiempos_reparacion;
                   costo_total_reparaciones :=
                     match costos_reparacion with
                     | [] => 0%Q
                     | _ => sum costos_reparacion
                     end;
                   causas_raiz := firstn 5 causas_ordenadas |})
      end
  end.
End Engine.

(** ** A reader for ISO-8601 strings

    [iso_parse] reads the two layouts the application stores,
    [YYYY-MM-DD] and [YYYY-MM-DD?HH:MM:SS] (any one-character separator),
    as [datetime.fromisoformat] does, and rejects every other string.  It
    instantiates [parse_iso] in the worked examples. *)

Definition digit (c : ascii) : option Z :=
  let n := Z.of_nat (nat_of_ascii c) in
  if (48 <=? n) && (n <=? 57) then Some (n - 48) else None.

Fixpoint number (acc : Z) (cs : list ascii) : option Z :=
  match cs with
  | [] => Some acc
  | c :: cs' =>
      match digit c with
      | Some d => number (10 * acc + d) cs'
      | None => None
      end
  end.

Definition is_leap (y : Z) : bool :=
  ((y mod 4 =? 0) && negb (y mod 100 =? 0)) || (y mod 400 =? 0).

Definition days_in_month (y m : Z) : Z :=
  if m =? 2 then (if is_leap y then 29 else 28)
  else if (m =? 4) || (m =? 6) || (m =? 9) || (m =? 11) then 30
  else 31.

(** Days from 1970-01-01 to the given day of the proleptic Gregorian
    calendar. *)
Definition days_from_civil (y m d : Z) : Z :=
  let y' := if m <=? 2 then y - 1 else y in
  let era := y' / 400 in
  let yoe := y' - era * 400 in
  let mp := (m + 9) mod 12 in
  let doy := (153 * mp + 2) / 5 + d - 1 in
  let doe := yoe * 365 + yoe / 4 - yoe / 100 + doy in
  era * 146097 + doe - 719468.

Definition make_datetime (y m d hh mm ss : Z) : option datetime :=
  if (1 <=? y) && (y <=? 9999) && (1 <=? m) && (m <=? 12)
     && (1 <=? d) && (d <=? days_in_month y m)
     && (hh <? 24) && (mm <? 60) && (ss <? 60)
  then Some ((((days_from_civil y m d * 24 + hh) * 60 + mm) * 60 + ss) * 1000000)
  else None.

Fixpoint chars (s : string) : list ascii :=
  match s with
  | EmptyString => []
  | String c s' => c :: chars s'
  end.

Definition dash : ascii := "-"%char.
Definition colon : ascii := ":"%char.

Definition iso_parse (s : string) : option datetime :=
  match chars s with
  | [y1; y2; y3; y4; s1; m1; m2; s2; d1; d2] =>
      if Ascii.eqb s1 dash && Ascii.eqb s2 dash then
        match number 0 [y1; y2; y3; y4], number 0 [m1; m2], number 0 [d1; d2] with
        | Some y, Some m, Some d => make_datetime y m d 0 0 0
        | _, _, _ => None
        end
      else None
  | [y1; y2; y3; y4; s1; m1; m2; s2; d1; d2; _; h1; h2; s3; n1; n2; s4; c1; c2] =>
      if Ascii.eqb s1 dash && Ascii.eqb s2 dash
         && Ascii.eqb s3 colon && Ascii.eqb s4 colon then
        match number 0 [y1; y2; y3; y4], number 0 [m1; m2], number 0 [d1; d2],
              number 0 [h1; h2], number 0 [n1; n2], number 0 [c1; c2] with
        | Some y, Some m, Some d, Some hh, Some mm, Some ss =>
            make_datetime y m d hh mm ss
        | _, _, _, _, _, _ => None
        end
      else None
  | _ => None
  end.


(** ** The failure metrics on binary64 numbers

    The lines of [calcular_mtbf], [calcular_mttr], [calcular_disponibilidad]
    and of the failure part of [calcular_kpis_activo] (lines 103-126), read
    with Python's [float] arithmetic: every operation rounds to the nearest
    binary64 number (ties to even), a sum may overflow to infinity, and a
    division by zero raises.  An [int] is a [Z]. *)
Module Binary64.

(** [[float(n)]], the conversion an [int] operand of a float operation
    undergoes: the nearest binary64 number; [OverflowError] when [n] is
    too large for one. *)
Definition of_int (n : Z) : result float :=
  let x := SF2Prim (binary_normalize prec emax n 0 false) in
  if is_infinity x then Raise OverflowError else Ok x.

Definition spec_of_int (n : Z) : spec_float :=
  match n with
  | 0 => S754_zero false
  | Z.pos p => S754_finite false p 0
  | Z.neg p => S754_finite true p 0
  end.

(** [[a / b]] on two [int]s: the binary64 number nearest to the exact
    quotient. *)
Definition truediv_int (a b : Z) : result float :=
  if b =? 0 then Raise ZeroDivisionError
  else
    let x := SF2Prim (SFdiv prec emax (spec_of_int a) (spec_of_int b)) in
    if is_infinity x then Raise OverflowError else Ok x.

(** [[x / y]] on two [float]s. *)
Definition truediv (x y : float) : result float :=
  if (y =? 0)%float then Raise ZeroDivisionError else Ok (x / y)%float.

(** [[x / n]] for an [int] [n]. *)
Definition truediv_float_int (x : float) (n : Z) : result float :=
  y <- of_int n ;; truediv x y.

(** [[sum(l)]] on floats: the partial sums are accumulated from 0, left to
    right, each addition rounded. *)
Definition sum (l : list float) : float := fold_left PrimFloat.add l 0%float.

(** [[delta.total_seconds()]]: the microseconds of [delta] over [10**6]. *)
Definition total_seconds (delta : timedelta) : result float :=
  truediv_int delta 1000000.

Definition diferencias_de (fechas_ordenadas : list datetime)
    : result (list float) :=
  mapM (fun i : nat =>
          let delta := nth i fechas_ordenadas 0 - nth (i - 1) fechas_ordenadas 0 in
          s <- total_seconds delta ;; truediv_float_int s 3600)
       (seq 1 (List.length fechas_ordenadas - 1)).

Definition calcular_mtbf (fechas_fallas : list datetime) : result (float * Z) :=
  if len fechas_fallas <? 2 then Ok (0%float, 0)
  else
    let fechas_ordenadas := sorted (fun t => t) false fechas_fallas in
    diferencias <- diferencias_de fechas_ordenadas ;;
    match diferencias with
    | [] => Ok (0%float, 0)
    | _ =>
        mtbf <- truediv_float_int (sum diferencias) (len diferencias) ;;
        Ok (mtbf, len diferencias)
    end.

Definition calcular_mttr (tiempos_reparacion : list float) : result float :=
  match tiempos_reparacion with
  | [] => Ok 0%float
  | _ => truediv_float_int (sum tiempos_reparacion) (len tiempos_reparacion)
  end.

Definition calcular_disponibilidad (mtbf mttr : float) : result float :=
  if (mtbf <=? 0)%float then Ok 0%float
  else truediv mtbf (mtbf + mttr)%float.

(** The keys of a failure dictionary that lines 103-126 read. *)
Record falla : Type := mk_falla {
  f_estado : slot string;
  f_fecha_reporte : slot string;
  f_tiempo_fuera_servicio_h : slot float
}.

Record kpis : Type := mk_kpis {
  mtbf_horas : float;
  mttr_horas : float;
  disponibilidad : float;
  num_fallas : Z;
  num_intervalos_mtbf : Z;
  cumplimiento_preventivo : option float;
  costo_total_mantenimiento : float;
  ultima_actualizacion : string
}.

Section Engine.
Variable parse_iso : string -> option datetime.

Definition es_resuelta (f : falla) : bool :=
  in_strings (get (f_estado f)) ESTADOS_RESUELTA.

Definition tiempos_de (fallas : list falla) : list float :=
  flat_map (fun f =>
              if has_key (f_tiempo_fuera_servicio_h f) then
                match get (f_tiempo_fuera_servicio_h f) with
                | Some h => [h]
                | None => []
                end
              else [])
           fallas.

Definition fechas_de (fallas_resueltas : list falla) : result (list datetime) :=
  mapM (fun f => fromisoformat parse_iso (getitem (f_fecha_reporte f)))
       (filter (fun f => has_key (f_fecha_reporte f)) fallas_resueltas).

(** [[calcular_kpis_activo(fallas)]]: [ordenes_trabajo] is left at its
    default [None], so that the compliance stays [None] and the cost 0.0. *)
Definition calcular_kpis_activo (fallas : list falla) (now_iso : string)
    : result kpis :=
  let fallas_resueltas := filter es_resuelta fallas in
  fechas_fallas <- fechas_de fallas_resueltas ;;
  mtbf_n <- calcular_mtbf fechas_fallas ;;
  let '(mtbf, num_intervalos) := mtbf_n in
  let tiempos_reparacion := tiempos_de fallas_resueltas in
  mttr <-
    match tiempos_reparacion with
    | [] => Ok 0%float
    | _ => calcular_mttr tiempos_reparacion
    end ;;
  disponibilidad <-
    (if (0 <? mtbf)%float then calcular_disponibilidad mtbf mttr
     else Ok 1%float) ;;
  Ok {| mtbf_horas := mtbf;
        mttr_horas := mttr;
        disponibilidad := disponibilidad;
        num_fallas := len fallas_resueltas;
        num_intervalos_mtbf := num_intervalos;
        cumplimiento_preventivo := None;
        costo_total_mantenimiento := 0%float;
        ultima_actualizacion := now_iso |}.
End Engine.
End Binary64.

(** * The records of the application

    [models/falla.py] and [models/orden_trabajo.py]: the dataclasses, their
    conversion to and from dictionaries and their methods.  A field has the
    type the dataclass declares for it; [datetime.now().isoformat()] is the
    clock reading passed to the methods that read the clock. *)

(** A key of a dictionary whose field is not optional: missing, or bound to
    a value of the declared type. *)
Inductive req (A : Type) : Type :=
| Missing
| Given (a : A).

Arguments Missing {A}.
Arguments Given {A} a.

(** The dictionary key as the calculator reads it. *)
Definition req_slot {A : Type} (r : req A) : slot A :=
  match r with
  | Missing => Absent
  | Given a => Val a
  end.

(** The value a constructor receives for an optional field. *)
Definition slot_option {A : Type} (s : slot A) : option A := get s.

(** The value a constructor receives for a field with a default. *)
Definition req_default {A : Type} (r : req A) (default : A) : A :=
  match r with
  | Missing => default
  | Given a => a
  end.

(** [[not v]] on a string-or-[None]. *)
Definition falsy_str (v : option string) : bool := negb (truthy_str v).

(** The line feed. *)
Definition LF : string := String (ascii_of_nat 10) EmptyString.

Inductive EstadoFalla : Type :=
| REPORTADA
| EN_REVISION
| EN_REPARACION
| RESUELTA
| CERRADA
| INVALIDA.

(** [[e.value]] *)
Definition EstadoFalla_value (e : EstadoFalla) : string :=
  match e with
  | REPORTADA => "Reportada"
  | EN_REVISION => "En Revisión"
  | EN_REPARACION => "En Reparación"
  | RESUELTA => "Resuelta"
  | CERRADA => "Cerrada"
  | INVALIDA => "Inválida"
  end.

(** [[EstadoFalla(s)]]: the member whose value is [s]; [ValueError] when
    there is none. *)
Definition EstadoFalla_of (s : string) : result EstadoFalla :=
  if String.eqb s "Reportada" then Ok REPORTADA
  else if String.eqb s "En Revisión" then Ok EN_REVISION
  else if String.eqb s "En Reparación" then Ok EN_REPARACION
  else if String.eqb s "Resuelta" then Ok RESUELTA
  else if String.eqb s "Cerrada" then Ok CERRADA
  else if String.eqb s "Inválida" then Ok INVALIDA
  else Raise ValueError.

Definition EstadoFalla_eqb (a b : EstadoFalla) : bool :=
  match a, b with
  | REPORTADA, REPORTADA | EN_REVISION, EN_REVISION
  | EN_REPARACION, EN_REPARACION | RESUELTA, RESUELTA
  | CERRADA, CERRADA | INVALIDA, INVALIDA => true
  | _, _ => false
  end.

Module Falla.

Record t : Type := mk {
  falla_id : Z;
  activo_id : Z;
  fecha_reporte : string;
  descripcion : string;
  reportada_por : string;
  fecha_cierre : option string;
  estado : EstadoFalla;
  tiempo_fuera_servicio_h : Q;
  causa_raiz : option string;
  acciones_tomadas : string;
  costo_reparacion : option Q;
  prioridad : Z;
  asignado_a : option string
}.

(** A dictionary for [from_dict], or made by [to_dict]: the thirteen keys
    of the dataclass and the names of whatever other keys it has. *)
Record dict : Type := mk_dict {
  k_falla_id : req Z;
  k_activo_id : req Z;
  k_fecha_reporte : req string;
  k_fecha_cierre : slot string;
  k_descripcion : req string;
  k_estado : req string;
  k_tiempo_fuera_servicio_h : req Q;
  k_causa_raiz : slot string;
  k_acciones_tomadas : req string;
  k_costo_reparacion : slot Q;
  k_prioridad : req Z;
  k_reportada_por : req string;
  k_asignado_a : slot string;
  k_otras : list string
}.

Definition option_slot {A : Type} (o : option A) : slot A :=
  match o with
  | Some a => Val a
  | None => PyNone
  end.

Definition to_dict (self : t) : dict :=
  {| k_falla_id := Given (falla_id self);
     k_activo_id := Given (activo_id self);
     k_fecha_reporte := Given (fecha_reporte self);
     k_fecha_cierre := option_slot (fecha_cierre self);
     k_descripcion := Given (descripcion self);
     k_estado := Given (EstadoFalla_value (estado self));
     k_tiempo_fuera_servicio_h := Given (tiempo_fuera_servicio_h self);
     k_causa_raiz := option_slot (causa_raiz self);
     k_acciones_tomadas := Given (acciones_tomadas self);
     k_costo_reparacion := option_slot (costo_reparacion self);
     k_prioridad := Given (prioridad self);
     k_reportada_por := Given (reportada_por self);
     k_asignado_a := option_slot (asignado_a self);
     k_otras := [] |}.

(** The constructor call on the unpacked dictionary: a key that is no
    field, or a missing key whose field has no default, is a [TypeError]. *)
Definition construir (data : dict) (estado : EstadoFalla) : result t :=
  match k_otras data with
  | _ :: _ => Raise TypeError
  | [] =>
      match k_falla_id data, k_activo_id data, k_fecha_reporte data,
            k_descripcion data, k_reportada_por data with
      | Given fid, Given aid, Given fr, Given de, Given rp =>
          Ok {| falla_id := fid;
                activo_id := aid;
                fecha_reporte := fr;
                descripcion := de;
                reportada_por := rp;
                fecha_cierre := slot_option (k_fecha_cierre data);
                estado := estado;
                tiempo_fuera_servicio_h :=
                  req_default (k_tiempo_fuera_servicio_h data) 0%Q;
                causa_raiz := slot_option (k_causa_raiz data);
                acciones_tomadas :=
                  req_default (k_acciones_tomadas data) EmptyString;
                costo_reparacion := slot_option (k_costo_reparacion data);
                prioridad := req_default (k_prioridad data) 3;
                asignado_a := slot_option (k_asignado_a data) |}
      | _, _, _, _, _ => Raise TypeError
      end
  end.

(** The status string is converted first, so that an unknown status is a
    [ValueError] whatever else is wrong with the dictionary.  The source
    stores the member back into [data]; a member of [EstadoFalla], a
    subclass of [str], equals the string it replaces, so the dictionary
    reads as before. *)
Definition from_dict (data : dict) : result t :=
  estado <-
    match k_estado data with
    | Given s => EstadoFalla_of s
    | Missing => Ok REPORTADA
    end ;;
  construir data estado.

Definition actualizar_estado (self : t) (nuevo_estado : EstadoFalla)
    (now_iso : string) : t :=
  let self1 :=
    {| falla_id := falla_id self;
       activo_id := activo_id self;
       fecha_reporte := fecha_reporte self;
       descripcion := descripcion self;
       reportada_por := reportada_por self;
       fecha_cierre := fecha_cierre self;
       estado := nuevo_estado;
       tiempo_fuera_servicio_h := tiempo_fuera_servicio_h self;
       causa_raiz := causa_raiz self;
       acciones_tomadas := acciones_tomadas self;
       costo_reparacion := costo_reparacion self;
       prioridad := prioridad self;
       asignado_a := asignado_a self |} in
  if (EstadoFalla_eqb nuevo_estado RESUELTA || EstadoFalla_eqb nuevo_estado CERRADA)
     && falsy_str (fecha_cierre self1)
  then
    {| falla_id := falla_id self1;
       activo_id := activo_id self1;
       fecha_reporte := fecha_reporte self1;
       descripcion := descripcion self1;
       reportada_por := reportada_por self1;
       fecha_cierre := Some now_iso;
       estado := estado self1;
       tiempo_fuera_servicio_h := tiempo_fuera_servicio_h self1;
       causa_raiz := causa_raiz self1;
       acciones_tomadas := acciones_tomadas self1;
       costo_reparacion := costo_reparacion self1;
       prioridad := prioridad self1;
       asignado_a := asignado_a self1 |}
  else self1.

Definition asignar_tecnico (self : t) (nombre_tecnico : string) : t :=
  {| falla_id := falla_id self;
     activo_id := activo_id self;
     fecha_reporte := fecha_reporte self;
     descripcion := descripcion self;
     reportada_por := reportada_por self;
     fecha_cierre := fecha_cierre self;
     estado :=
       if EstadoFalla_eqb (estado self) REPORTADA then EN_REVISION
       else estado self;
     tiempo_fuera_servicio_h := tiempo_fuera_servicio_h self;
     causa_raiz := causa_raiz self;
     acciones_tomadas := acciones_tomadas self;
     costo_reparacion := costo_reparacion self;
     prioridad := prioridad self;
     asignado_a := Some nombre_tecnico |}.

Definition registrar_accion (self : t) (accion : string) : t :=
  {| falla_id := falla_id self;
     activo_id := activo_id self;
     fecha_reporte := fecha_reporte self;
     descripcion := descripcion self;
     reportada_por := reportada_por self;
     fecha_cierre := fecha_cierre self;
     estado := estado self;
     tiempo_fuera_servicio_h := tiempo_fuera_servicio_h self;
     causa_raiz := causa_raiz self;
     acciones_tomadas :=
       if truthy_str (Some (acciones_tomadas self))
       then (acciones_tomadas self ++ LF ++ accion)%string
       else accion;
     costo_reparacion := costo_reparacion self;
     prioridad := prioridad self;
     asignado_a := asignado_a self |}.

(** The keys of the dictionary that the calculator reads. *)
Definition vista (data : dict) : falla :=
  {| f_estado := req_slot (k_estado data);
     f_fecha_reporte := req_slot (k_fecha_reporte data);
     f_tiempo_fuera_servicio_h := req_slot (k_tiempo_fuera_servicio_h data);
     f_causa_raiz := k_causa_raiz data;
     f_costo_reparacion := k_costo_reparacion data |}.

End Falla.

Inductive TipoOrden : Type :=
| PREVENTIVO
| CORRECTIVO
| PREDICTIVO
| INSPECCION
| CALIBRACION
| OTRO.

Inductive EstadoOrden : Type :=
| PENDIENTE
| PROGRAMADA
| EN_PROCESO
| PAUSADA
| COMPLETADA
| CANCELADA.

Definition TipoOrden_value (x : TipoOrden) : string :=
  match x with
  | PREVENTIVO => "Preventivo"
  | CORRECTIVO => "Correctivo"
  | PREDICTIVO => "Predictivo"
  | INSPECCION => "Inspección"
  | CALIBRACION => "Calibración"
  | OTRO => "Otro"
  end.

Definition EstadoOrden_value (e : EstadoOrden) : string :=
  match e with
  | PENDIENTE => "Pendiente"
  | PROGRAMADA => "Programada"
  | EN_PROCESO => "En Proceso"
  | PAUSADA => "Pausada"
  | COMPLETADA => "Completada"
  | CANCELADA => "Cancelada"
  end.

(** [[TipoOrden(s)]] *)
Definition TipoOrden_of (s : string) : result TipoOrden :=
  if String.eqb s "Preventivo" then Ok PREVENTIVO
  else if String.eqb s "Correctivo" then Ok CORRECTIVO
  else if String.eqb s "Predictivo" then Ok PREDICTIVO
  else if String.eqb s "Inspección" then Ok INSPECCION
  else if String.eqb s "Calibración" then Ok CALIBRACION
  else if String.eqb s "Otro" then Ok OTRO
  else Raise ValueError.

(** [[EstadoOrden(s)]] *)
Definition EstadoOrden_of (s : string) : result EstadoOrden :=
  if String.eqb s "Pendiente" then Ok PENDIENTE
  else if String.eqb s "Programada" then Ok PROGRAMADA
  else if String.eqb s "En Proceso" then Ok EN_PROCESO
  else if String.eqb s "Pausada" then Ok PAUSADA
  else if String.eqb s "Completada" then Ok COMPLETADA
  else if String.eqb s "Cancelada" then Ok CANCELADA
  else Raise ValueError.

Definition EstadoOrden_eqb (a b : EstadoOrden) : bool :=
  match a, b with
  | PENDIENTE, PENDIENTE | PROGRAMADA, PROGRAMADA | EN_PROCESO, EN_PROCESO
  | PAUSADA, PAUSADA | COMPLETADA, COMPLETADA | CANCELADA, CANCELADA => true
  | _, _ => false
  end.

(** An entry of [materiales], as [agregar_material] builds it. *)
Record material : Type := mk_material {
  m_nombre : string;
  m_cantidad : Q;
  m_unidad : string;
  m_costo_unitario : option Q
}.

Module OrdenTrabajo.

Record t : Type := mk {
  ot_id : Z;
  activo_id : Z;
  tipo : TipoOrden;
  fecha_creacion : string;
  fecha_programada : string;
  descripcion : string;
  tecnico_asignado : string;
  fecha_inicio : option string;
  fecha_fin : option string;
  estado : EstadoOrden;
  prioridad : Z;
  horas_estimadas : Q;
  horas_reales : option Q;
  materiales : list material;
  observaciones : string;
  costo_estimado : option Q;
  costo_real : option Q
}.

Record dict : Type := mk_dict {
  k_ot_id : req Z;
  k_activo_id : req Z;
  k_tipo : req string;
  k_fecha_creacion : req string;
  k_fecha_programada : req string;
  k_fecha_inicio : slot string;
  k_fecha_fin : slot string;
  k_estado : req string;
  k_descripcion : req string;
  k_prioridad : req Z;
  k_horas_estimadas : req Q;
  k_horas_reales : slot Q;
  k_tecnico_asignado : req string;
  k_materiales : slot (list material);
  k_observaciones : req string;
  k_costo_estimado : slot Q;
  k_costo_real : slot Q;
  k_otras : list string
}.

Definition to_dict (self : t) : dict :=
  {| k_ot_id := Given (ot_id self);
     k_activo_id := Given (activo_id self);
     k_tipo := Given (TipoOrden_value (tipo self));
     k_fecha_creacion := Given (fecha_creacion self);
     k_fecha_programada := Given (fecha_programada self);
     k_fecha_inicio := Falla.option_slot (fecha_inicio self);
     k_fecha_fin := Falla.option_slot (fecha_fin self);
     k_estado := Given (EstadoOrden_value (estado self));
     k_descripcion := Given (descripcion self);
     k_prioridad := Given (prioridad self);
     k_horas_estimadas := Given (horas_estimadas self);
     k_horas_reales := Falla.option_slot (horas_reales self);
     k_tecnico_asignado := Given (tecnico_asignado self);
     k_materiales := Val (materiales self);
     k_observaciones := Given (observaciones self);
     k_costo_estimado := Falla.option_slot (costo_estimado self);
     k_costo_real := Falla.option_slot (costo_real self);
     k_otras := [] |}.

(** The constructor call on the unpacked dictionary, followed by
    [__post_init__], which replaces a [materiales] of [None] by the empty
    list. *)
Definition construir (data : dict) (tipo : TipoOrden) (estado : EstadoOrden)
    : result t :=
  match k_otras data with
  | _ :: _ => Raise TypeError
  | [] =>
      match k_ot_id data, k_activo_id data, k_fecha_creacion data,
            k_fecha_programada data, k_descripcion data,
            k_tecnico_asignado data with
      | Given oid, Given aid, Given fc, Given fp, Given de, Given te =>
          Ok {| ot_id := oid;
                activo_id := aid;
                tipo := tipo;
                fecha_creacion := fc;
                fecha_programada := fp;
                descripcion := de;
                tecnico_asignado := te;
                fecha_inicio := slot_option (k_fecha_inicio data);
                fecha_fin := slot_option (k_fecha_fin data);
                estado := estado;
                prioridad := req_default (k_prioridad data) 3;
                horas_estimadas := req_default (k_horas_estimadas data) 1%Q;
                horas_reales := slot_option (k_horas_reales data);
                materiales :=
                  match slot_option (k_materiales data) with
                  | Some ms => ms
                  | None => []
                  end;
                observaciones := req_default (k_observaciones data) EmptyString;
                costo_estimado := slot_option (k_costo_estimado data);
                costo_real := slot_option (k_costo_real data) |}
      | _, _, _, _, _, _ => Raise TypeError
      end
  end.

(** [tipo] is converted before [estado]; a dictionary without [tipo] gets
    past both conversions and fails in the constructor. *)
Definition from_dict (data : dict) : result t :=
  tipo <-
    match k_tipo data with
    | Given s => x <- TipoOrden_of s ;; Ok (Some x)
    | Missing => Ok None
    end ;;
  estado <-
    match k_estado data with
    | Given s => EstadoOrden_of s
    | Missing => Ok PENDIENTE
    end ;;
  match tipo with
  | Some x => construir data x estado
  | None => Raise TypeError
  end.

(** Assignments to the attributes the methods write. *)
Definition set_estado (self : t) (v : EstadoOrden) : t :=
  mk (ot_id self) (activo_id self) (tipo self) (fecha_creacion self)
     (fecha_programada self) (descripcion self) (tecnico_asignado self)
     (fecha_inicio self) (fecha_fin self) v (prioridad self)
     (horas_estimadas self) (horas_reales self) (materiales self)
     (observaciones self) (costo_estimado self) (costo_real self).

Definition set_fecha_inicio (self : t) (v : option string) : t :=
  mk (ot_id self) (activo_id self) (tipo self) (fecha_creacion self)
     (fecha_programada self) (descripcion self) (tecnico_asignado self)
     v (fecha_fin self) (estado self) (prioridad self)
     (horas_estimadas self) (horas_reales self) (materiales self)
     (observaciones self) (costo_estimado self) (costo_real self).

Definition set_fecha_fin (self : t) (v : option string) : t :=
  mk (ot_id self) (activo_id self) (tipo self) (fecha_creacion self)
     (fecha_programada self) (descripcion self) (tecnico_asignado self)
     (fecha_inicio self) v (estado self) (prioridad self)
     (horas_estimadas self) (horas_reales self) (materiales self)
     (observaciones self) (costo_estimado self) (costo_real self).

Definition set_horas_reales (self : t) (v : option Q) : t :=
  mk (ot_id self) (activo_id self) (tipo self) (fecha_creacion self)
     (fecha_programada self) (descripcion self) (tecnico_asignado self)
     (fecha_inicio self) (fecha_fin self) (estado self) (prioridad self)
     (horas_estimadas self) v (materiales self)
     (observaciones self) (costo_estimado self) (costo_real self).

Definition set_materiales (self : t) (v : list material) : t :=
  mk (ot_id self) (activo_id self) (tipo self) (fecha_creacion self)
     (fecha_programada self) (descripcion self) (tecnico_asignado self)
     (fecha_inicio self) (fecha_fin self) (estado self) (prioridad self)
     (horas_estimadas self) (horas_reales self) v
     (observaciones self) (costo_estimado self) (costo_real self).

Definition set_observaciones (self : t) (v : string) : t :=
  mk (ot_id self) (activo_id self) (tipo self) (fecha_creacion self)
     (fecha_programada self) (descripcion self) (tecnico_asignado self)
     (fecha_inicio self) (fecha_fin self) (estado self) (prioridad self)
     (horas_estimadas self) (horas_reales self) (materiales self)
     v (costo_estimado self) (costo_real self).

Definition set_costo_estimado (self : t) (v : option Q) : t :=
  mk (ot_id self) (activo_id self) (tipo self) (fecha_creacion self)
     (fecha_programada self) (descripcion self) (tecnico_asignado self)
     (fecha_inicio self) (fecha_fin self) (estado self) (prioridad self)
     (horas_estimadas self) (horas_reales self) (materiales self)
     (observaciones self) v (costo_real self).

Definition set_costo_real (self : t) (v : option Q) : t :=
  mk (ot_id self) (activo_id self) (tipo self) (fecha_creacion self)
     (fecha_programada self) (descripcion self) (tecnico_asignado self)
     (fecha_inicio self) (fecha_fin self) (estado self) (prioridad self)
     (horas_estimadas self) (horas_reales self) (materiales self)
     (observaciones self) (costo_estimado self) v.

Definition iniciar_trabajo (self : t) (now_iso : string) : t :=
  if EstadoOrden_eqb (estado self) PENDIENTE
     || EstadoOrden_eqb (estado self) PROGRAMADA
  then
    let self1 := set_estado self EN_PROCESO in
    if falsy_str (fecha_inicio self1)
    then set_fecha_inicio self1 (Some now_iso)
    else self1
  else self.

Definition pausar_trabajo (self : t) : t :=
  if EstadoOrden_eqb (estado self) EN_PROCESO
  then set_estado self PAUSADA
  else self.

Definition reanudar_trabajo (self : t) : t :=
  if EstadoOrden_eqb (estado self) PAUSADA
  then set_estado self EN_PROCESO
  else self.

Definition completar_trabajo (self : t) (observaciones : string)
    (horas_reales costo_real : option Q) (now_iso : string) : t :=
  let self1 := set_estado self COMPLETADA in
  let self2 := set_fecha_fin self1 (Some now_iso) in
  let self3 := set_observaciones self2 observaciones in
  let self4 :=
    match horas_reales with
    | Some h => set_horas_reales self3 (Some h)
    | None => self3
    end in
  match costo_real with
  | Some c => set_costo_real self4 (Some c)
  | None => self4
  end.

Definition agregar_material (self : t) (nombre : string) (cantidad : Q)
    (unidad : string) (costo_unitario : option Q) : t :=
  let material :=
    {| m_nombre := nombre;
       m_cantidad := cantidad;
       m_unidad := unidad;
       m_costo_unitario := costo_unitario |} in
  let self1 := set_materiales self (materiales self ++ [material]) in
  match costo_unitario with
  | Some c =>
      let self2 :=
        match costo_estimado self1 with
        | None => set_costo_estimado self1 (Some 0%Q)
        | Some _ => self1
        end in
      match costo_estimado self2 with
      | Some e => set_costo_estimado self2 (Some (e + cantidad * c)%Q)
      | None => self2
      end
  | None => self1
  end.

(** The keys of the dictionary that the calculator reads. *)
Definition vista (data : dict) : orden :=
  {| ot_tipo := req_slot (k_tipo data);
     ot_estado := req_slot (k_estado data);
     ot_fecha_programada := req_slot (k_fecha_programada data);
     ot_fecha_fin := k_fecha_fin data;
     ot_costo_real := k_costo_real data |}.

End OrdenTrabajo.

(** * The statements of [DatabaseManager]

    [utils/database.py]: the SQL text and the parameters that [get_activos]
    hands to [execute_query] and [update_activo] to [execute_update].  The
    values bound to the placeholders are of any type. *)

Module DatabaseManager.
Section Statements.
Variable V : Type.

(** [[sep.join(l)]] *)
Definition join (sep : string) (l : list string) : string :=
  String.concat sep l.

(** [get_activos]: [filtros] is [None] or a dictionary from column names to
    values or [None]. *)
Definition get_activos (filtros : option (list (string * option V)))
    : string * list V :=
  let query := "SELECT * FROM activos"%string in
  let '(query, params) :=
    match filtros with
    | None | Some [] => (query, [])
    | Some items =>
        let conditions :=
          flat_map (fun kv : string * option V =>
                      match snd kv with
                      | Some _ => [(fst kv ++ " = ?")%string]
                      | None => []
                      end)
                   items in
        let params :=
          flat_map (fun kv : string * option V =>
                      match snd kv with
                      | Some value => [value]
                      | None => []
                      end)
                   items in
        match conditions with
        | [] => (query, params)
        | _ => ((query ++ " WHERE " ++ join " AND " conditions)%string, params)
        end
    end in
  ((query ++ " ORDER BY nombre")%string, params).

(** [update_activo]: [None] when [update_data] is empty and the method
    returns [False] without touching the database. *)
Definition update_activo (activo_id : V) (update_data : list (string * V))
    : option (string * list V) :=
  match update_data with
  | [] => None
  | _ =>
      let set_clause :=
        join ", " (map (fun kv : string * V => (fst kv ++ " = ?")%string)
                       update_data) in
      let set_clause :=
        (set_clause ++ ", fecha_actualizacion = CURRENT_TIMESTAMP")%string in
      let query :=
        ("UPDATE activos SET " ++ set_clause ++ " WHERE activo_id = ?")%string in
      let params := map snd update_data ++ [activo_id] in
      Some (query, params)
  end.

End Statements.
End DatabaseManager.

(** * Vocabulary of the specification

    The notions in which the specification words its properties, defined
    independently of the code above and compared with it below. *)

(** Where a stable sort must put two elements: by key, and by their
    earlier position when the keys are equal. *)
Section SortedOrder.
Variable A : Type.
Variable key : A -> Z.
Variable reverse : bool.
Variable earlier : A -> A -> Prop.

Definition sorted_order (a b : A) : Prop :=
  strictly_before key reverse a b = true \/ (key a = key b /\ earlier a b).
End SortedOrder.

(** The elapsed time between each pair of consecutive timestamps. *)
Fixpoint gaps (s : list datetime) : list timedelta :=
  match s with
  | a :: (b :: _) as s' => (b - a) :: gaps s'
  | _ => []
  end.

(** A duration in fractional hours. *)
Definition hours (d : timedelta) : Q := inject_Z d / 3600000000.

(** The sum of a list of numbers. *)
Definition total (l : list Q) : Q := fold_right Qplus 0%Q l.

(** The arithmetic mean of the gaps of [s], in hours. *)
Definition mean_gap_hours (s : list datetime) : Q :=
  (total (map hours (gaps s)) / inject_Z (len (gaps s)))%Q.

(** [[sorted(fechas)]] on timestamps. *)
Definition ordenar (fechas : list datetime) : list datetime :=
  sorted (fun t => t) false fechas.

(** The intervals [calcular_mtbf] averages: those of the sorted input. *)
Definition intervalos (fechas : list datetime) : list Q :=
  diferencias_de (ordenar fechas).

(** The status of a failure is Resolved or Closed. *)
Definition resuelta_o_cerrada (f : falla) : bool :=
  match f_estado f with
  | Val s => String.eqb s "Resuelta" || String.eqb s "Cerrada"
  | _ => false
  end.

(** The status of a record, when it has one, is a value of [EstadoFalla]. *)
Definition estado_del_modelo (f : falla) : Prop :=
  match f_estado f with
  | Val s => In s ESTADO_FALLA
  | _ => True
  end.

(** The status of a failure is one of the three strings the calculator
    takes for a finished failure. *)
Definition estado_terminal (f : falla) : bool :=
  match f_estado f with
  | Val s =>
      String.eqb s "Resuelta" || String.eqb s "Cerrada"
      || String.eqb s "COMPLETADA"
  | _ => false
  end.

(** The downtime of a record, when it carries one, is not negative. *)
Definition tiempo_no_negativo (f : falla) : bool :=
  match get (f_tiempo_fuera_servicio_h f) with
  | Some h => Qle_bool 0 h
  | None => true
  end.

(** A date field that is present: bound to a non-empty string. *)
Definition presente (v : slot string) : option string :=
  match v with
  | Val s => if String.eqb s EmptyString then None else Some s
  | _ => None
  end.

Section Readable.
Variable parse_iso : string -> option datetime.

(** The timestamp a present date field denotes. *)
Definition instante (v : slot string) : option datetime :=
  match presente v with
  | Some s => parse_iso s
  | None => None
  end.

(** A date field that is absent, or present and a valid timestamp. *)
Definition legible (v : slot string) : bool :=
  match presente v with
  | Some s => match parse_iso s with Some _ => true | None => false end
  | None => true
  end.

(** The report timestamp of a failure is missing or a valid timestamp. *)
Definition falla_legible (f : falla) : bool :=
  match f_fecha_reporte f with
  | Absent => true
  | PyNone => false
  | Val s => match parse_iso s with Some _ => true | None => false end
  end.

(** Well-formed failures: every finished failure has a readable report
    timestamp and a non-negative downtime. *)
Definition fallas_bien_formadas (fallas : list falla) : bool :=
  forallb (fun f => falla_legible f && tiempo_no_negativo f)
          (filter estado_terminal fallas).

(** The report timestamps of the records of [l] that have a
    [fecha_reporte] key, in the order of [l]. *)
Definition marcas_de (l : list falla) (fechas : list datetime) : Prop :=
  Forall2 (fun f t => exists s, f_fecha_reporte f = Val s /\ parse_iso s = Some t)
          (filter (fun f => match f_fecha_reporte f with
                            | Absent => false
                            | _ => true
                            end) l)
          fechas.

(** The type of a work order is preventive, in one of the three spellings
    'Preventivo', 'PREVENTIVO', 'preventivo'. *)
Definition tipo_preventivo (ot : orden) : bool :=
  match ot_tipo ot with
  | Val s =>
      String.eqb s "Preventivo" || String.eqb s "PREVENTIVO"
      || String.eqb s "preventivo"
  | _ => false
  end.

(** The status of a work order is Completed, spelt 'Completada' or
    'COMPLETADA'. *)
Definition estado_completado (ot : orden) : bool :=
  match ot_estado ot with
  | Val s => String.eqb s "Completada" || String.eqb s "COMPLETADA"
  | _ => false
  end.

(** The preventive orders among the supplied ones. *)
Definition preventivos_de (ordenes_trabajo : option (list orden)) : list orden :=
  match ordenes_trabajo with
  | Some ordenes => filter tipo_preventivo ordenes
  | None => []
  end.

(** The day after a date field, when the field is present and valid, is
    still a [datetime]. *)
Definition en_rango (v : slot string) : bool :=
  match instante v with
  | Some t =>
      (datetime_min <=? t + timedelta_days 1)
      && (t + timedelta_days 1 <=? datetime_max)
  | None => true
  end.

(** Well-formed orders: the dates of every preventive order are readable,
    and the scheduled date is not the last day of the calendar. *)
Definition ordenes_bien_formadas (ordenes_trabajo : option (list orden)) : bool :=
  forallb (fun ot => legible (ot_fecha_fin ot) && legible (ot_fecha_programada ot)
                     && en_rango (ot_fecha_programada ot))
          (preventivos_de ordenes_trabajo).

(** A preventive order is on time: its status is Completed, its finish and
    scheduled dates are both present, and it finished no later than one day
    after the scheduled date. *)
Definition a_tiempo (ot : orden) : bool :=
  estado_completado ot
  && match instante (ot_fecha_fin ot), instante (ot_fecha_programada ot) with
     | Some fin, Some programada => fin <=? programada + timedelta_days 1
     | _, _ => false
     end.
End Readable.

(** The downtimes of the records of [l] that carry one, in the order of
    [l]. *)
Definition paradas_de (l : list falla) (tiempos : list Q) : Prop :=
  Forall2 (fun f h => f_tiempo_fuera_servicio_h f = Val h)
          (filter (fun f => match f_tiempo_fuera_servicio_h f with
                            | Val _ => true
                            | _ => false
                            end) l)
          tiempos.

(** The report timestamp of a record is a valid timestamp that lies in the
    period, bounds included; a bound that is not given does not constrain. *)
Definition en_periodo (parse_iso : string -> option datetime)
    (inicio fin : option datetime) (f : falla) : bool :=
  match f_fecha_reporte f with
  | Val s =>
      match parse_iso s with
      | Some t =>
          match inicio with Some i => i <=? t | None => true end
          && match fin with Some e => t <=? e | None => true end
      | None => false
      end
  | _ => false
  end.

(** Two reports agree on everything but the bounds they echo. *)
Definition mismo_contenido (r r' : reporte) : Prop :=
  total_fallas r = total_fallas r' /\
  tiempo_promedio_reparacion r = tiempo_promedio_reparacion r' /\
  tiempo_total_fuera_servicio r = tiempo_total_fuera_servicio r' /\
  costo_total_reparaciones r = costo_total_reparaciones r' /\
  causas_raiz r = causas_raiz r'.

(** Counting the occurrences of the keys of a list. *)
Section Occurrences.
Variable K : Type.
Variable eqb : K -> K -> bool.

(** How many elements of [l] are [c]. *)
Definition apariciones (c : K) (l : list K) : Z := len (filter (eqb c) l).

(** The position at which [c] is first encountered in [l]; the length of
    [l] when it never is. *)
Fixpoint primera_aparicion (c : K) (l : list K) : nat :=
  match l with
  | [] => 0
  | x :: l' => if eqb c x then 0 else S (primera_aparicion c l')
  end.

(** [[d.get(c, 0)]] on an insertion-ordered dictionary. *)
Fixpoint valor (c : K) (d : list (K * Z)) : Z :=
  match d with
  | [] => 0
  | (k, n) :: d' => if eqb k c then n else valor c d'
  end.

(** The order of a frequency table over the keys of [l]: the more frequent
    key first and, of two keys equally frequent, the one first encountered
    in [l] first. *)
Definition antes_en_tabla (l : list K) (a b : K * Z) : Prop :=
  snd b < snd a \/
  (snd a = snd b /\
   (primera_aparicion (fst a) l < primera_aparicion (fst b) l)%nat).
End Occurrences.

(** The records a report is built from: all of them without bounds, those
    of the period otherwise. *)
Definition filtradas_de (parse_iso : string -> option datetime)
    (fallas : list falla) (inicio fin : option datetime) : list falla :=
  match inicio, fin with
  | None, None => fallas
  | _, _ => filter (en_periodo parse_iso inicio fin) fallas
  end.

(** ** Worked inputs *)

Definition falla_de (estado fecha : string) (horas : Q) : falla :=
  {| f_estado := Val estado;
     f_fecha_reporte := Val fecha;
     f_tiempo_fuera_servicio_h := Val horas;
     f_causa_raiz := PyNone;
     f_costo_reparacion := PyNone |}.

(** A reading of the clock, as [datetime.now().isoformat()] renders it. *)
Definition ahora : string := "2024-02-01T09:30:00".

(** The failure scenario of the specification. *)
Definition fallas_escenario : list falla :=
  [ falla_de "Resuelta" "2024-01-01T00:00:00" 2;
    falla_de "Resuelta" "2024-01-03T00:00:00" 4;
    falla_de "Reportada" "2024-01-10T00:00:00" 0 ].

Definition t_2024_01_01 : datetime := 1704067200000000.
Definition t_2024_01_03 : datetime := 1704240000000000.
Definition t_2024_01_10 : datetime := 1704844800000000.

Definition orden_de (tipo estado programada fin : string) : orden :=
  {| ot_tipo := Val tipo;
     ot_estado := Val estado;
     ot_fecha_programada := Val programada;
     ot_fecha_fin := Val fin;
     ot_costo_real := PyNone |}.

(** The work-order scenario of the specification. *)
Definition ordenes_escenario : list orden :=
  [ orden_de "Preventivo" "Completada" "2024-01-05" "2024-01-05";
    orden_de "Preventivo" "Completada" "2024-01-05" "2024-01-08" ].

(** A failure whose status is the third accepted string. *)
Definition fallas_completada : list falla :=
  [ falla_de "COMPLETADA" "2024-01-01T00:00:00" 2 ].

(** Two sound records and one whose report timestamp is not a date. *)
Definition fallas_fecha_corrupta : list falla :=
  [ falla_de "Resuelta" "2024-01-01T00:00:00" 2;
    falla_de "Resuelta" "not-a-date" 1;
    falla_de "Resuelta" "2024-01-03T00:00:00" 4 ].

Definition falla_con_causa (causa : slot string) : falla :=
  {| f_estado := Val "Resuelta"%string;
     f_fecha_reporte := Val "2024-01-01T00:00:00"%string;
     f_tiempo_fuera_servicio_h := Val 1%Q;
     f_causa_raiz := causa;
     f_costo_reparacion := PyNone |}.

(** Three records as [Falla.to_dict] renders them, the first and the last
    with no root cause: the key is bound to [None]. *)
Definition fallas_causa_nula : list falla :=
  [ falla_con_causa PyNone; falla_con_causa (Val "Desgaste"%string);
    falla_con_causa PyNone ].

(** The same three records, the key [causa_raiz] missing from the first
    and the last. *)
Definition fallas_causa_ausente : list falla :=
  [ falla_con_causa Absent; falla_con_causa (Val "Desgaste"%string);
    falla_con_causa Absent ].

(** Seven causes; "b" and "f" occur twice, the others once. *)
Definition fallas_siete_causas : list falla :=
  map (fun c => falla_con_causa (Val c))
      ["a"; "b"; "c"; "d"; "e"; "f"; "g"; "f"; "b"]%string.

(** ** Worked inputs in binary64 *)

(** Two adjacent binary64 numbers, 27.305666700424045 and the next one
    above it, and a mean repair time of 42.371686846861635 hours. *)
Definition mtbf_menor : float := 0x1.b4e402c41cc29p+4%float.
Definition mtbf_mayor : float := 0x1.b4e402c41cc2ap+4%float.
Definition mttr_fijo : float := 0x1.52f936f41cfe2p+5%float.

(** Two resolved failures two days apart, each with a downtime of 1e308
    hours. *)
Definition fallas_desbordadas : list Binary64.falla :=
  [ {| Binary64.f_estado := Val "Resuelta"%string;
       Binary64.f_fecha_reporte := Val "2024-01-01T00:00:00"%string;
       Binary64.f_tiempo_fuera_servicio_h := Val 0x1.1ccf385ebc8ap+1023%float |};
    {| Binary64.f_estado := Val "Resuelta"%string;
       Binary64.f_fecha_reporte := Val "2024-01-03T00:00:00"%string;
       Binary64.f_tiempo_fuera_servicio_h := Val 0x1.1ccf385ebc8ap+1023%float |} ].

(** ** Further vocabulary *)

(** The sum of a list of integers. *)
Definition suma (l : list Z) : Z := fold_right Z.add 0 l.

(** The cost an order contributes: its actual cost when it carries one. *)
Definition costo_presente (ot : orden) : Q :=
  match get (ot_costo_real ot) with
  | Some c => c
  | None => 0%Q
  end.

(** The supplied orders as a list. *)
Definition ordenes_de (ordenes_trabajo : option (list orden)) : list orden :=
  match ordenes_trabajo with
  | Some ordenes => ordenes
  | None => []
  end.

(** An order whose dates the compliance test reads: preventive and
    completed. *)
Definition preventivo_completado (ot : orden) : bool :=
  es_preventivo ot && in_strings (get (ot_estado ot)) ESTADOS_COMPLETADA.

(** Two orders that differ at most in dates the compliance test does not
    read. *)
Definition misma_salvo_fechas (ot ot' : orden) : Prop :=
  ot_tipo ot = ot_tipo ot' /\ ot_estado ot = ot_estado ot' /\
  ot_costo_real ot = ot_costo_real ot' /\
  (preventivo_completado ot = true ->
   ot_fecha_fin ot = ot_fecha_fin ot' /\
   ot_fecha_programada ot = ot_fecha_programada ot').

(** The exception [datetime.fromisoformat] raises on a report timestamp it
    cannot read. *)
Definition excepcion_de (v : slot string) : exc :=
  match v with
  | Val _ => ValueError
  | _ => TypeError
  end.

(** A lower bound [a] that admits everything the lower bound [b] admits. *)
Definition inicio_mas_amplio (a b : option datetime) : Prop :=
  match a, b with
  | None, _ => True
  | Some x, Some y => x <= y
  | Some _, None => False
  end.

(** An upper bound [a] that admits everything the upper bound [b] admits. *)
Definition fin_mas_amplio (a b : option datetime) : Prop :=
  match a, b with
  | None, _ => True
  | Some x, Some y => y <= x
  | Some _, None => False
  end.

(** ** Further worked inputs *)

Definition orden_con_costo (tipo estado : string) (costo : slot Q) : orden :=
  {| ot_tipo := Val tipo;
     ot_estado := Val estado;
     ot_fecha_programada := Val "2024-01-05"%string;
     ot_fecha_fin := PyNone;
     ot_costo_real := costo |}.

(** Three orders: two with an actual cost, one without. *)
Definition ordenes_con_costo : list orden :=
  [ orden_con_costo "Correctivo" "Completada" (Val 100%Q);
    orden_con_costo "Preventivo" "Pendiente" PyNone;
    orden_con_costo "Inspección" "Completada" (Val 250%Q) ].

(** A corrective order and a pending preventive one, with dates that are
    not dates, and the same orders with other dates. *)
Definition ordenes_fechas_ilegibles : list orden :=
  [ orden_de "Correctivo" "Completada" "mañana" "ayer";
    orden_de "Preventivo" "Pendiente" "2024-01-05" "sin terminar" ].

Definition ordenes_fechas_legibles : list orden :=
  [ orden_de "Correctivo" "Completada" "2024-01-05" "2024-01-05";
    orden_de "Preventivo" "Pendiente" "2024-01-05" "2024-01-06" ].

Definition falla_con_fecha (fecha : slot string) : falla :=
  {| f_estado := Val "Cerrada"%string;
     f_fecha_reporte := fecha;
     f_tiempo_fuera_servicio_h := Val 3%Q;
     f_causa_raiz := PyNone;
     f_costo_reparacion := PyNone |}.

(** A sound record, an open one without any timestamp, one whose report
    timestamp is bound to [None] and one whose report timestamp is not a
    date. *)
Definition fallas_fecha_nula : list falla :=
  [ falla_de "Resuelta" "2024-01-01T00:00:00" 2;
    falla_de "Reportada" "tampoco" 0;
    falla_con_fecha PyNone;
    falla_de "Resuelta" "not-a-date" 1 ].

(** ** Calls on a failure *)

(** A call of a method of [Falla], with its arguments and, where the
    method reads the clock, the reading. *)
Inductive op_falla : Type :=
| ActualizarEstado (nuevo_estado : EstadoFalla) (now_iso : string)
| AsignarTecnico (nombre_tecnico : string)
| RegistrarAccion (accion : string).

Definition aplicar_falla (self : Falla.t) (o : op_falla) : Falla.t :=
  match o with
  | ActualizarEstado e now_iso => Falla.actualizar_estado self e now_iso
  | AsignarTecnico n => Falla.asignar_tecnico self n
  | RegistrarAccion a => Falla.registrar_accion self a
  end.

(** A sequence of calls, in order. *)
Definition ejecutar_falla (self : Falla.t) (ops : list op_falla) : Falla.t :=
  fold_left aplicar_falla ops self.

(** The status is Resolved or Closed. *)
Definition estado_cerrado (e : EstadoFalla) : bool :=
  match e with
  | RESUELTA | CERRADA => true
  | _ => false
  end.

(** The call moves the failure to Resolved or Closed. *)
Definition cierra (o : op_falla) : bool :=
  match o with
  | ActualizarEstado e _ => estado_cerrado e
  | _ => false
  end.

Definition es_actualizar (o : op_falla) : bool :=
  match o with
  | ActualizarEstado _ _ => true
  | _ => false
  end.

Definition es_asignar (o : op_falla) : bool :=
  match o with
  | AsignarTecnico _ => true
  | _ => false
  end.

(** The actions registered by a sequence of calls. *)
Definition acciones_de (ops : list op_falla) : list string :=
  flat_map (fun o => match o with RegistrarAccion a => [a] | _ => [] end) ops.

(** A list of actions without its leading empty ones. *)
Fixpoint sin_vacias_iniciales (l : list string) : list string :=
  match l with
  | a :: l' =>
      if String.eqb a EmptyString then sin_vacias_iniciales l' else l
  | [] => []
  end.

(** The log of a list of actions: one action per line. *)
Definition bitacora (acciones : list string) : string :=
  String.concat LF (sin_vacias_iniciales acciones).

(** Every key bound in [d] is bound to the same value in [d']. *)
Definition req_le {A : Type} (r r' : req A) : Prop :=
  match r with
  | Missing => True
  | Given a => r' = Given a
  end.

Definition slot_le {A : Type} (s s' : slot A) : Prop :=
  match s with
  | Absent => True
  | _ => s' = s
  end.

Definition falla_dict_le (d d' : Falla.dict) : Prop :=
  req_le (Falla.k_falla_id d) (Falla.k_falla_id d') /\
  req_le (Falla.k_activo_id d) (Falla.k_activo_id d') /\
  req_le (Falla.k_fecha_reporte d) (Falla.k_fecha_reporte d') /\
  slot_le (Falla.k_fecha_cierre d) (Falla.k_fecha_cierre d') /\
  req_le (Falla.k_descripcion d) (Falla.k_descripcion d') /\
  req_le (Falla.k_estado d) (Falla.k_estado d') /\
  req_le (Falla.k_tiempo_fuera_servicio_h d) (Falla.k_tiempo_fuera_servicio_h d') /\
  slot_le (Falla.k_causa_raiz d) (Falla.k_causa_raiz d') /\
  req_le (Falla.k_acciones_tomadas d) (Falla.k_acciones_tomadas d') /\
  slot_le (Falla.k_costo_reparacion d) (Falla.k_costo_reparacion d') /\
  req_le (Falla.k_prioridad d) (Falla.k_prioridad d') /\
  req_le (Falla.k_reportada_por d) (Falla.k_reportada_por d') /\
  slot_le (Falla.k_asignado_a d) (Falla.k_asignado_a d').

(** The dictionaries the calculator receives for a list of failures. *)
Definition fallas_de (objetos : list Falla.t) : list falla :=
  map (fun o => Falla.vista (Falla.to_dict o)) objetos.

(** A failure reported on 1 January, as the form creates it. *)
Definition falla_nueva : Falla.t :=
  {| Falla.falla_id := 1;
     Falla.activo_id := 7;
     Falla.fecha_reporte := "2024-01-01T00:00:00";
     Falla.descripcion := "Fuga de aceite";
     Falla.reportada_por := "Operador";
     Falla.fecha_cierre := None;
     Falla.estado := REPORTADA;
     Falla.tiempo_fuera_servicio_h := 2;
     Falla.causa_raiz := None;
     Falla.acciones_tomadas := EmptyString;
     Falla.costo_reparacion := None;
     Falla.prioridad := 3;
     Falla.asignado_a := None |}.

(** A row of the table [fallas]: the thirteen columns of the dataclass and
    the two timestamps the table adds. *)
Definition fila_fallas : Falla.dict :=
  {| Falla.k_falla_id := Given 1;
     Falla.k_activo_id := Given 7;
     Falla.k_fecha_reporte := Given "2024-01-01T00:00:00"%string;
     Falla.k_fecha_cierre := PyNone;
     Falla.k_descripcion := Given "Fuga de aceite"%string;
     Falla.k_estado := Given "Resuelta"%string;
     Falla.k_tiempo_fuera_servicio_h := Given 2%Q;
     Falla.k_causa_raiz := PyNone;
     Falla.k_acciones_tomadas := Given EmptyString;
     Falla.k_costo_reparacion := PyNone;
     Falla.k_prioridad := Given 3;
     Falla.k_reportada_por := Given "Operador"%string;
     Falla.k_asignado_a := PyNone;
     Falla.k_otras := ["fecha_creacion"; "fecha_actualizacion"]%string |}.

(** A dictionary with the required keys only. *)
Definition falla_minima : Falla.dict :=
  {| Falla.k_falla_id := Given 1;
     Falla.k_activo_id := Given 7;
     Falla.k_fecha_reporte := Given "2024-01-01T00:00:00"%string;
     Falla.k_fecha_cierre := Absent;
     Falla.k_descripcion := Given "Fuga de aceite"%string;
     Falla.k_estado := Missing;
     Falla.k_tiempo_fuera_servicio_h := Missing;
     Falla.k_causa_raiz := Absent;
     Falla.k_acciones_tomadas := Missing;
     Falla.k_costo_reparacion := Absent;
     Falla.k_prioridad := Missing;
     Falla.k_reportada_por := Given "Operador"%string;
     Falla.k_asignado_a := Absent;
     Falla.k_otras := [] |}.

(** A key without default is missing from the dictionary. *)
Definition falta_requerida (d : Falla.dict) : bool :=
  match Falla.k_falla_id d, Falla.k_activo_id d, Falla.k_fecha_reporte d,
        Falla.k_descripcion d, Falla.k_reportada_por d with
  | Given _, Given _, Given _, Given _, Given _ => false
  | _, _, _, _, _ => true
  end.

(** The status of the dictionary, when it has one, is a value of
    [EstadoFalla]. *)
Definition estado_valido (d : Falla.dict) : bool :=
  match Falla.k_estado d with
  | Given s => existsb (String.eqb s) ESTADO_FALLA
  | Missing => true
  end.

(** The failures whose dictionaries a report is built from. *)
Definition objetos_filtrados (parse_iso : string -> option datetime)
    (objetos : list Falla.t) (inicio fin : option datetime) : list Falla.t :=
  match inicio, fin with
  | None, None => objetos
  | _, _ =>
      filter (fun o => en_periodo parse_iso inicio fin
                         (Falla.vista (Falla.to_dict o)))
             objetos
  end.

Definition falla_con (estado : EstadoFalla) (fecha : string) (horas : Q)
    (causa : option string) : Falla.t :=
  {| Falla.falla_id := 1;
     Falla.activo_id := 7;
     Falla.fecha_reporte := fecha;
     Falla.descripcion := "Fuga de aceite";
     Falla.reportada_por := "Operador";
     Falla.fecha_cierre := None;
     Falla.estado := estado;
     Falla.tiempo_fuera_servicio_h := horas;
     Falla.causa_raiz := causa;
     Falla.acciones_tomadas := EmptyString;
     Falla.costo_reparacion := None;
     Falla.prioridad := 3;
     Falla.asignado_a := None |}.

(** Two finished failures and one under repair. *)
Definition tres_fallas : list Falla.t :=
  [ falla_con RESUELTA "2024-01-01T00:00:00" 2 None;
    falla_con EN_REPARACION "2024-01-02T00:00:00" 5 (Some "Desgaste"%string);
    falla_con CERRADA "2024-01-03T00:00:00" 4 None ].

(** ** Calls on a work order *)

Inductive op_orden : Type :=
| Iniciar (now_iso : string)
| Pausar
| Reanudar
| Completar (observaciones : string) (horas_reales costo_real : option Q)
    (now_iso : string)
| AgregarMaterial (nombre : string) (cantidad : Q) (unidad : string)
    (costo_unitario : option Q).

Definition aplicar_orden (self : OrdenTrabajo.t) (o : op_orden)
    : OrdenTrabajo.t :=
  match o with
  | Iniciar now_iso => OrdenTrabajo.iniciar_trabajo self now_iso
  | Pausar => OrdenTrabajo.pausar_trabajo self
  | Reanudar => OrdenTrabajo.reanudar_trabajo self
  | Completar obs h c now_iso =>
      OrdenTrabajo.completar_trabajo self obs h c now_iso
  | AgregarMaterial n q u c => OrdenTrabajo.agregar_material self n q u c
  end.

Definition ejecutar_orden (self : OrdenTrabajo.t) (ops : list op_orden)
    : OrdenTrabajo.t :=
  fold_left aplicar_orden ops self.

Definition es_completar (o : op_orden) : bool :=
  match o with
  | Completar _ _ _ _ => true
  | _ => false
  end.

Definition es_iniciar (o : op_orden) : bool :=
  match o with
  | Iniciar _ => true
  | _ => false
  end.

(** The clock reading of the last call of [completar_trabajo]. *)
Definition ultimo_completar (ops : list op_orden) : option string :=
  fold_left (fun acc o =>
               match o with
               | Completar _ _ _ now_iso => Some now_iso
               | _ => acc
               end)
            ops None.

(** The materials added by a sequence of calls. *)
Definition materiales_de (ops : list op_orden) : list material :=
  flat_map (fun o =>
              match o with
              | AgregarMaterial n q u c =>
                  [{| m_nombre := n; m_cantidad := q; m_unidad := u;
                      m_costo_unitario := c |}]
              | _ => []
              end)
           ops.

(** What a material adds to the estimated cost. *)
Definition costo_material (m : material) : Q :=
  match m_costo_unitario m with
  | Some c => (m_cantidad m * c)%Q
  | None => 0%Q
  end.

Definition tiene_costo (m : material) : bool :=
  match m_costo_unitario m with
  | Some _ => true
  | None => false
  end.

(** A status no method assigns. *)
Definition estado_no_asignable (e : EstadoOrden) : bool :=
  match e with
  | PENDIENTE | PROGRAMADA | CANCELADA => true
  | _ => false
  end.

(** A status from which [iniciar_trabajo] starts the order. *)
Definition estado_por_iniciar (e : EstadoOrden) : bool :=
  match e with
  | PENDIENTE | PROGRAMADA => true
  | _ => false
  end.

(** A preventive order scheduled for 5 January. *)
Definition orden_nueva : OrdenTrabajo.t :=
  {| OrdenTrabajo.ot_id := 1;
     OrdenTrabajo.activo_id := 7;
     OrdenTrabajo.tipo := PREVENTIVO;
     OrdenTrabajo.fecha_creacion := "2024-01-01T00:00:00";
     OrdenTrabajo.fecha_programada := "2024-01-05";
     OrdenTrabajo.descripcion := "Lubricación";
     OrdenTrabajo.tecnico_asignado := "Ana";
     OrdenTrabajo.fecha_inicio := None;
     OrdenTrabajo.fecha_fin := None;
     OrdenTrabajo.estado := PENDIENTE;
     OrdenTrabajo.prioridad := 3;
     OrdenTrabajo.horas_estimadas := 1;
     OrdenTrabajo.horas_reales := None;
     OrdenTrabajo.materiales := [];
     OrdenTrabajo.observaciones := EmptyString;
     OrdenTrabajo.costo_estimado := None;
     OrdenTrabajo.costo_real := None |}.

(** The same order scheduled for the last day of the calendar. *)
Definition orden_ultimo_dia : OrdenTrabajo.t :=
  {| OrdenTrabajo.ot_id := 1;
     OrdenTrabajo.activo_id := 7;
     OrdenTrabajo.tipo := PREVENTIVO;
     OrdenTrabajo.fecha_creacion := "2024-01-01T00:00:00";
     OrdenTrabajo.fecha_programada := "9999-12-31";
     OrdenTrabajo.descripcion := "Lubricación";
     OrdenTrabajo.tecnico_asignado := "Ana";
     OrdenTrabajo.fecha_inicio := None;
     OrdenTrabajo.fecha_fin := None;
     OrdenTrabajo.estado := PENDIENTE;
     OrdenTrabajo.prioridad := 3;
     OrdenTrabajo.horas_estimadas := 1;
     OrdenTrabajo.horas_reales := None;
     OrdenTrabajo.materiales := [];
     OrdenTrabajo.observaciones := EmptyString;
     OrdenTrabajo.costo_estimado := None;
     OrdenTrabajo.costo_real := None |}.

(** The downtimes 0.1, 0.2 and 0.3 hours, as binary64 numbers. *)
Definition tiempos_decimales : list float :=
  [0x1.999999999999ap-4; 0x1.999999999999ap-3; 0x1.3333333333333p-2]%float.

(** An optional amount as a number, nothing counting for 0. *)
Definition importe (c : option Q) : Q :=
  match c with
  | Some x => x
  | None => 0%Q
  end.

(** ** Placeholders *)

(** How many times a character occurs in a string. *)
Fixpoint ocurrencias (c : ascii) (s : string) : nat :=
  match s with
  | EmptyString => 0
  | String x s' => (if Ascii.eqb x c then 1 else 0) + ocurrencias c s'
  end.

(** The number of placeholders of a statement. *)
Definition marcadores (query : string) : nat := ocurrencias "?"%char query.

(** A column name without a question mark. *)
Definition sin_marcador (k : string) : bool := Nat.eqb (marcadores k) 0.

(** ** Parts of a result *)

(** A field of the result of a call that may have raised. *)
Definition campo {A : Type} (g : kpis -> A) (x : result kpis) : result A :=
  match x with
  | Ok r => Ok (g r)
  | Raise e => Raise e
  end.

(** Two failure dictionaries that differ at most in status and report
    timestamp. *)
Definition misma_salvo_estado_fecha (f f' : falla) : Prop :=
  f_tiempo_fuera_servicio_h f = f_tiempo_fuera_servicio_h f' /\
  f_causa_raiz f = f_causa_raiz f' /\
  f_costo_reparacion f = f_costo_reparacion f'.

(** The scenario with every record invalidated and undated. *)
Definition fallas_escenario_invalidas : list falla :=
  map (fun f =>
         {| f_estado := Val "Inválida"%string;
            f_fecha_reporte := PyNone;
            f_tiempo_fuera_servicio_h := f_tiempo_fuera_servicio_h f;
            f_causa_raiz := f_causa_raiz f;
            f_costo_reparacion := f_costo_reparacion f |})
      fallas_escenario.
(** * Properties *)

Unset Implicit Arguments.

(** ** The result monad *)

Lemma mapM_total (A B : Type) (g : A -> result B) (l : list A) :
  (forall x, In x l -> exists y, g x = Ok y) -> exists ys, mapM g l = Ok ys.
Proof.
  induction l as [|x l IH]; simpl; intros H; [now exists []|].
  destruct (H x) as [y Hy]; [auto|].
  destruct IH as [ys Hys]; [auto|].
  exists (y :: ys); now rewrite Hy, Hys.
Qed.

(** ** [sorted] *)

Section SortedFacts.
Variable A : Type.
Variable key : A -> Z.
Variable reverse : bool.

(** The order in which the elements stood before sorting. *)
Variable earlier : A -> A -> Prop.

Let order := sorted_order key reverse earlier.

Lemma insert_perm (x : A) (l : list A) :
  Permutation (insert key reverse x l) (x :: l).
Proof.
  induction l as [|y l IH]; simpl; [reflexivity|].
  destruct (strictly_before key reverse y x); [|reflexivity].
  rewrite IH; apply perm_swap.
Qed.

Lemma sorted_perm (l : list A) : Permutation (sorted key reverse l) l.
Proof.
  induction l as [|x l IH]; simpl; [reflexivity|].
  rewrite insert_perm; now constructor.
Qed.

Lemma sorted_length (l : list A) :
  List.length (sorted key reverse l) = List.length l.
Proof. apply Permutation_length, sorted_perm. Qed.

Lemma sorted_order_after (x y z : A) :
  strictly_before key reverse y x = false ->
  order y z -> earlier x z -> order x z.
Proof.
  unfold order, sorted_order, strictly_before.
  destruct reverse; intros Hyx [Hyz|[Hyz Hz]] Hxz;
    rewrite ?Z.ltb_lt in *; rewrite ?Z.ltb_ge in *;
    destruct (Z.eq_dec (key x) (key z)); auto; left; lia.
Qed.

Lemma insert_sorted (x : A) (l : list A) :
  StronglySorted order l -> Forall (earlier x) l ->
  StronglySorted order (insert key reverse x l).
Proof.
  induction l as [|y l IH]; simpl; intros Hs He.
  - repeat constructor.
  - inversion Hs as [|? ? Hs' Hy]; subst.
    inversion He as [|? ? Hxy He']; subst.
    destruct (strictly_before key reverse y x) eqn:Hb.
    + constructor; [now apply IH|].
      apply (@Permutation_Forall _ _ (x :: l)).
      * symmetry; apply insert_perm.
      * constructor; [now left|assumption].
    + constructor; [assumption|].
      assert (Hxy' : order x y).
      { unfold order, sorted_order, strictly_before in *.
        destruct reverse; rewrite ?Z.ltb_lt in *; rewrite ?Z.ltb_ge in *;
          destruct (Z.eq_dec (key x) (key y)); auto; left; lia. }
      constructor; [assumption|].
      rewrite Forall_forall in *; intros z Hz.
      eapply sorted_order_after; eauto.
Qed.

(** Stability: a list whose elements stand in [earlier] order is sorted
    into [sorted_order]. *)
Lemma sorted_stable (l : list A) :
  StronglySorted earlier l -> StronglySorted order (sorted key reverse l).
Proof.
  induction l as [|x l IH]; simpl; intros Hs; [constructor|].
  inversion Hs; subst.
  apply insert_sorted; [now apply IH|].
  eapply Permutation_Forall; [symmetry; apply sorted_perm|assumption].
Qed.
End SortedFacts.

Lemma StronglySorted_impl (A : Type) (R R' : A -> A -> Prop) (l : list A) :
  (forall a b, R a b -> R' a b) -> StronglySorted R l -> StronglySorted R' l.
Proof.
  intros HR; induction 1 as [|a s Hs IH Ha]; constructor; auto.
  rewrite Forall_forall in *; auto.
Qed.

(** Ascending sort of timestamps. *)

Lemma ordenar_sorted (l : list datetime) : StronglySorted Z.le (ordenar l).
Proof.
  assert (H : StronglySorted (fun _ _ : Z => True) l).
  { induction l; constructor; auto. now apply Forall_forall. }
  apply (sorted_stable _ (fun t => t) false) in H.
  revert H; apply StronglySorted_impl.
  intros a b [Hlt|[Heq _]].
  - unfold strictly_before in Hlt; apply Z.ltb_lt in Hlt; lia.
  - lia.
Qed.

Lemma ordenar_perm (l : list datetime) : Permutation (ordenar l) l.
Proof. apply sorted_perm. Qed.

Lemma sorted_perm_unique (s1 s2 : list Z) :
  StronglySorted Z.le s1 -> StronglySorted Z.le s2 -> Permutation s1 s2 ->
  s1 = s2.
Proof.
  revert s2; induction s1 as [|a s1 IH]; intros s2 H1 H2 HP.
  - now apply Permutation_nil in HP.
  - destruct s2 as [|b s2]; [symmetry in HP; now apply Permutation_nil in HP|].
    inversion H1 as [|? ? H1' Ha]; inversion H2 as [|? ? H2' Hb]; subst.
    assert (a = b).
    { rewrite Forall_forall in Ha, Hb.
      assert (Hin1 : In a (b :: s2)) by (eapply Permutation_in; [exact HP|now left]).
      assert (Hin2 : In b (a :: s1))
        by (eapply Permutation_in; [symmetry; exact HP|now left]).
      destruct Hin1 as [|Hin1]; [congruence|].
      destruct Hin2 as [|Hin2]; [congruence|].
      specialize (Ha _ Hin2); specialize (Hb _ Hin1); lia. }
    subst b; f_equal; apply IH; auto.
    now apply Permutation_cons_inv in HP.
Qed.

Lemma ordenar_permutation_invariant (l l' : list datetime) :
  Permutation l l' -> ordenar l = ordenar l'.
Proof.
  intros HP; apply sorted_perm_unique; try apply ordenar_sorted.
  rewrite !ordenar_perm; exact HP.
Qed.

(** ** Sums *)

Lemma total_cons (x : Q) (l : list Q) : total (x :: l) = (x + total l)%Q.
Proof. reflexivity. Qed.

Lemma total_nil : total [] = 0%Q.
Proof. reflexivity. Qed.

Lemma fold_left_Qplus (l : list Q) (a : Q) :
  (fold_left Qplus l a == a + total l)%Q.
Proof.
  revert a; induction l as [|x l IH]; intros a; cbn [fold_left].
  - rewrite total_nil; lra.
  - rewrite IH, total_cons; lra.
Qed.

Lemma sum_total (l : list Q) : (sum l == total l)%Q.
Proof. unfold sum; rewrite fold_left_Qplus; lra. Qed.

Lemma total_app (l1 l2 : list Q) : (total (l1 ++ l2) == total l1 + total l2)%Q.
Proof.
  induction l1 as [|x l1 IH]; cbn [app]; rewrite ?total_nil, ?total_cons; [lra|].
  rewrite IH; lra.
Qed.

Lemma total_map_ext (A : Type) (g h : A -> Q) (l : list A) :
  (forall x, g x == h x)%Q -> (total (map g l) == total (map h l))%Q.
Proof.
  intros E; induction l as [|x l IH]; cbn [map]; rewrite ?total_nil, ?total_cons;
    [lra|].
  rewrite IH, (E x); lra.
Qed.

Lemma total_nonneg (l : list Q) :
  Forall (fun x => 0 <= x)%Q l -> (0 <= total l)%Q.
Proof.
  induction 1 as [|x l Hx Hl IH]; rewrite ?total_nil, ?total_cons; lra.
Qed.

Lemma len_nonneg (A : Type) (l : list A) : 0 <= len l.
Proof. unfold len; lia. Qed.

Lemma len_cons (A : Type) (x : A) (l : list A) : len (x :: l) = len l + 1.
Proof. unfold len; cbn [List.length]; lia. Qed.

Lemma len_app (A : Type) (l1 l2 : list A) : len (l1 ++ l2) = len l1 + len l2.
Proof. unfold len; rewrite length_app; lia. Qed.

Lemma len_map (A B : Type) (g : A -> B) (l : list A) : len (map g l) = len l.
Proof. unfold len; now rewrite length_map. Qed.

(** ** [calcular_mtbf] *)

(** The indexed loop of the source visits the consecutive pairs. *)
Lemma diferencias_de_gaps (s : list datetime) :
  diferencias_de s = map (fun d => (total_seconds d / 3600)%Q) (gaps s).
Proof.
  destruct s as [|a r]; [reflexivity|].
  revert a; induction r as [|b r IH]; intros a; [reflexivity|].
  specialize (IH b).
  unfold diferencias_de in *.
  cbn [List.length gaps map] in *.
  replace (S (S (List.length r)) - 1)%nat with (S (List.length r)) by lia.
  replace (S (List.length r) - 1)%nat with (List.length r) in IH by lia.
  cbn [seq map]. f_equal.
  rewrite <- IH, <- seq_shift, map_map.
  apply map_ext_in; intros i Hi.
  apply in_seq in Hi.
  destruct i as [|j]; [lia|].
  cbn [nth]. replace (S (S j) - 1)%nat with (S j) by lia.
  replace (S j - 1)%nat with j by lia. reflexivity.
Qed.

Lemma horas_hours (d : timedelta) : (total_seconds d / 3600 == hours d)%Q.
Proof. unfold total_seconds, hours; field. Qed.

Lemma gaps_length (a : datetime) (s : list datetime) :
  List.length (gaps (a :: s)) = List.length s.
Proof.
  revert a; induction s as [|b s IH]; intros a; [reflexivity|].
  cbn [gaps List.length]; f_equal; apply IH.
Qed.

Lemma intervalos_length (fechas : list datetime) :
  len (intervalos fechas) = Z.max 0 (len fechas - 1).
Proof.
  unfold intervalos.
  rewrite diferencias_de_gaps, len_map.
  pose proof (sorted_length _ (fun t : datetime => t) false fechas) as HL.
  change (List.length (ordenar fechas) = List.length fechas) in HL.
  destruct (ordenar fechas) as [|a s].
  - destruct fechas; [reflexivity|discriminate].
  - unfold len; rewrite gaps_length, <- HL; cbn [List.length]; lia.
Qed.

Lemma calcular_mtbf_short (fechas : list datetime) :
  len fechas < 2 -> calcular_mtbf fechas = (0%Q, 0).
Proof.
  intros H; unfold calcular_mtbf.
  apply Z.ltb_lt in H; now rewrite H.
Qed.

Lemma calcular_mtbf_long (fechas : list datetime) :
  2 <= len fechas ->
  calcular_mtbf fechas =
    ((sum (intervalos fechas) / inject_Z (len (intervalos fechas)))%Q,
     len (intervalos fechas)).
Proof.
  intros H; unfold calcular_mtbf.
  apply Z.ltb_ge in H; rewrite H.
  pose proof (intervalos_length fechas) as HL.
  apply Z.ltb_ge in H.
  unfold intervalos, ordenar in *.
  destruct (diferencias_de _).
  - unfold len in HL at 1; cbn [List.length] in HL; lia.
  - reflexivity.
Qed.

Lemma intervalos_total (fechas : list datetime) :
  (total (intervalos fechas) == total (map hours (gaps (ordenar fechas))))%Q.
Proof.
  unfold intervalos; rewrite diferencias_de_gaps.
  apply total_map_ext, horas_hours.
Qed.

(** [C2] With fewer than two timestamps [calcular_mtbf] returns (0.0, 0);
    with [n >= 2] timestamps it returns the arithmetic mean, in fractional
    hours, of the gaps between chronologically consecutive timestamps of
    the ascending arrangement of the input, and the interval count
    [n - 1]. *)
Theorem calcular_mtbf_mean_of_consecutive_gaps (fechas : list datetime) :
  (len fechas < 2 -> calcular_mtbf fechas = (0%Q, 0)) /\
  (2 <= len fechas ->
   exists s : list datetime,
     Permutation s fechas /\ StronglySorted Z.le s /\
     len (gaps s) = len fechas - 1 /\
     (fst (calcular_mtbf fechas) == mean_gap_hours s)%Q /\
     snd (calcular_mtbf fechas) = len fechas - 1).
Proof.
  split; [apply calcular_mtbf_short|].
  intros H; exists (ordenar fechas).
  pose proof (intervalos_length fechas) as HL.
  assert (HG : len (gaps (ordenar fechas)) = len fechas - 1).
  { rewrite <- (len_map _ _ (fun d => (total_seconds d / 3600)%Q)),
      <- diferencias_de_gaps.
    fold (intervalos fechas); lia. }
  repeat split.
  - apply ordenar_perm.
  - apply ordenar_sorted.
  - exact HG.
  - rewrite calcular_mtbf_long by assumption; cbn [fst].
    unfold mean_gap_hours.
    rewrite sum_total, intervalos_total, HG, HL.
    replace (Z.max 0 (len fechas - 1)) with (len fechas - 1) by lia.
    reflexivity.
  - rewrite calcular_mtbf_long by assumption; cbn [snd]; lia.
Qed.

Lemma calcular_mtbf_mean_of_consecutive_gaps_witness :
  calcular_mtbf [t_2024_01_03] = (0%Q, 0) /\
  exists s : list datetime,
    Permutation s [t_2024_01_10; t_2024_01_01; t_2024_01_03] /\
    StronglySorted Z.le s /\
    len (gaps s) = len [t_2024_01_10; t_2024_01_01; t_2024_01_03] - 1 /\
    (fst (calcular_mtbf [t_2024_01_10; t_2024_01_01; t_2024_01_03])
     == mean_gap_hours s)%Q /\
    snd (calcular_mtbf [t_2024_01_10; t_2024_01_01; t_2024_01_03])
    = len [t_2024_01_10; t_2024_01_01; t_2024_01_03] - 1.
Proof.
  split.
  - apply (proj1 (calcular_mtbf_mean_of_consecutive_gaps [t_2024_01_03])).
    vm_compute; reflexivity.
  - apply (proj2 (calcular_mtbf_mean_of_consecutive_gaps
                    [t_2024_01_10; t_2024_01_01; t_2024_01_03])).
    vm_compute; discriminate.
Defined.

(** Three failures, reported on 1, 3 and 10 January: gaps of 48 and 168
    hours. *)
Example calcular_mtbf_three_reports :
  fst (calcular_mtbf [t_2024_01_10; t_2024_01_01; t_2024_01_03]) == 108
  /\ snd (calcular_mtbf [t_2024_01_10; t_2024_01_01; t_2024_01_03]) = 2.
Proof. split; reflexivity. Qed.

(** *** Permutations and duplicates *)

Lemma calcular_mtbf_permutation (l l' : list datetime) :
  Permutation l l' -> calcular_mtbf l = calcular_mtbf l'.
Proof.
  intros HP; unfold calcular_mtbf.
  pose proof (ordenar_permutation_invariant _ _ HP) as E; unfold ordenar in E.
  unfold len; rewrite (Permutation_length HP), E; reflexivity.
Qed.

Lemma gaps_app (s1 s2 : list datetime) (t : datetime) :
  gaps (s1 ++ t :: s2) = gaps (s1 ++ [t]) ++ gaps (t :: s2).
Proof.
  induction s1 as [|a s1 IH]; [reflexivity|].
  destruct s1 as [|b s1].
  - reflexivity.
  - change (gaps ((a :: b :: s1) ++ t :: s2))
      with ((b - a) :: gaps ((b :: s1) ++ t :: s2)).
    rewrite IH; reflexivity.
Qed.

(** Sorting a list to which one of its own elements was added puts the
    copy next to the original. *)
Lemma insert_duplicate (t : datetime) (s : list datetime) :
  StronglySorted Z.le s -> In t s ->
  exists s1 s2, s = s1 ++ t :: s2 /\
                insert (fun x : datetime => x) false t s = s1 ++ t :: t :: s2.
Proof.
  induction s as [|y s IH]; intros Hs Hin; [contradiction|].
  inversion Hs as [|? ? Hs' Hy]; subst.
  cbn [insert]; unfold strictly_before.
  destruct (y <? t) eqn:Hlt.
  - apply Z.ltb_lt in Hlt.
    destruct Hin as [->|Hin]; [lia|].
    destruct (IH Hs' Hin) as (s1 & s2 & E1 & E2).
    exists (y :: s1), s2; cbn [app]; split; [now f_equal|].
    f_equal; exact E2.
  - apply Z.ltb_ge in Hlt.
    assert (y = t).
    { destruct Hin as [|Hin]; [assumption|].
      rewrite Forall_forall in Hy; specialize (Hy _ Hin); lia. }
    subst y; exists [], s; split; reflexivity.
Qed.

Lemma intervalos_duplicate (t : datetime) (l : list datetime) :
  In t l ->
  exists d1 d2 z : _,
    intervalos l = d1 ++ d2 /\ intervalos (t :: l) = d1 ++ z :: d2 /\ (z == 0)%Q.
Proof.
  intros Hin.
  assert (Hin' : In t (ordenar l)).
  { eapply Permutation_in; [symmetry; apply ordenar_perm|exact Hin]. }
  destruct (insert_duplicate _ _ (ordenar_sorted l) Hin') as (s1 & s2 & E1 & E2).
  unfold intervalos.
  change (ordenar (t :: l)) with (insert (fun x : datetime => x) false t (ordenar l)).
  rewrite E2, E1, !diferencias_de_gaps.
  rewrite (gaps_app s1 (t :: s2)), (gaps_app s1 s2), !map_app.
  cbn [gaps map].
  eexists _, _, _; repeat split.
  replace (t - t) with 0 by lia. reflexivity.
Qed.

Lemma calcular_mtbf_snd (fechas : list datetime) :
  snd (calcular_mtbf fechas) = len (intervalos fechas).
Proof.
  pose proof (intervalos_length fechas) as HL.
  destruct (Z_lt_le_dec (len fechas) 2) as [H|H].
  - rewrite calcular_mtbf_short by assumption; cbn [snd]; lia.
  - rewrite calcular_mtbf_long by assumption; reflexivity.
Qed.

Lemma calcular_mtbf_fst (fechas : list datetime) :
  2 <= len fechas ->
  (fst (calcular_mtbf fechas)
   == total (intervalos fechas) / inject_Z (len (intervalos fechas)))%Q.
Proof.
  intros H; rewrite calcular_mtbf_long by assumption; cbn [fst].
  now rewrite sum_total.
Qed.

Lemma mean_shrinks (T : Q) (n : Z) :
  1 <= n -> (0 < T / inject_Z n)%Q ->
  (T / inject_Z (n + 1) < T / inject_Z n)%Q.
Proof.
  intros Hn Hpos.
  assert (Ha : (0 < inject_Z n)%Q).
  { change 0%Q with (inject_Z 0); rewrite <- Zlt_Qlt; lia. }
  rewrite inject_Z_plus; change (inject_Z 1) with 1%Q.
  apply Qlt_shift_div_r; [lra|].
  setoid_replace (T / inject_Z n * (inject_Z n + 1))%Q
    with (T + T / inject_Z n)%Q by (field; lra).
  lra.
Qed.

(** [C9] [calcular_mtbf] depends only on the multiset of its input: every
    permutation of the input gives the same result.  It is not invariant
    under duplication: adding a copy of a timestamp already present adds one
    interval of zero hours, which is counted and averaged with the others,
    so that a positive MTBF strictly decreases. *)
Theorem calcular_mtbf_permutation_but_not_duplicates :
  (forall l l' : list datetime,
     Permutation l l' -> calcular_mtbf l = calcular_mtbf l') /\
  (forall (t : datetime) (l : list datetime),
     In t l ->
     (exists d, In d (intervalos (t :: l)) /\ d == 0)%Q /\
     len (intervalos (t :: l)) = len (intervalos l) + 1 /\
     (total (intervalos (t :: l)) == total (intervalos l))%Q /\
     (fst (calcular_mtbf (t :: l))
      == total (intervalos (t :: l)) / inject_Z (len (intervalos (t :: l))))%Q /\
     snd (calcular_mtbf (t :: l)) = snd (calcular_mtbf l) + 1 /\
     ((0 < fst (calcular_mtbf l))%Q ->
      (fst (calcular_mtbf (t :: l)) < fst (calcular_mtbf l))%Q)).
Proof.
  split; [exact calcular_mtbf_permutation|].
  intros t l Hin.
  destruct (intervalos_duplicate t l Hin) as (d1 & d2 & z & E1 & E2 & Hz).
  assert (Hlen : len (intervalos (t :: l)) = len (intervalos l) + 1).
  { rewrite E1, E2, !len_app, len_cons; lia. }
  assert (Htot : (total (intervalos (t :: l)) == total (intervalos l))%Q).
  { rewrite E1, E2, !total_app, total_cons, Hz; lra. }
  assert (H2 : 2 <= len (t :: l)).
  { rewrite len_cons; destruct l; [contradiction|rewrite len_cons].
    pose proof (len_nonneg _ l); lia. }
  repeat split.
  - exists z; split; [|exact Hz].
    rewrite E2; apply in_or_app; right; now left.
  - exact Hlen.
  - exact Htot.
  - now apply calcular_mtbf_fst.
  - rewrite !calcular_mtbf_snd; exact Hlen.
  - intros Hpos.
    destruct (Z_lt_le_dec (len l) 2) as [H|H].
    + rewrite (calcular_mtbf_short l) in Hpos by assumption.
      cbn [fst] in Hpos; lra.
    + rewrite calcular_mtbf_fst by assumption.
      rewrite (calcular_mtbf_fst l) in * by assumption.
      rewrite Hlen, Htot.
      apply mean_shrinks; [|exact Hpos].
      rewrite intervalos_length; lia.
Qed.

Lemma calcular_mtbf_permutation_but_not_duplicates_witness :
  calcular_mtbf [t_2024_01_03; t_2024_01_01]
  = calcular_mtbf [t_2024_01_01; t_2024_01_03] /\
  snd (calcular_mtbf [t_2024_01_03; t_2024_01_01; t_2024_01_03])
  = snd (calcular_mtbf [t_2024_01_01; t_2024_01_03]) + 1 /\
  (fst (calcular_mtbf [t_2024_01_03; t_2024_01_01; t_2024_01_03])
   < fst (calcular_mtbf [t_2024_01_01; t_2024_01_03]))%Q.
Proof.
  destruct calcular_mtbf_permutation_but_not_duplicates as [Hperm Hdup].
  split; [apply Hperm, perm_swap|].
  destruct (Hdup t_2024_01_03 [t_2024_01_01; t_2024_01_03])
    as (_ & _ & _ & _ & Hsnd & Hfst); [right; left; reflexivity|].
  split; [exact Hsnd|apply Hfst; reflexivity].
Defined.

(** ** [calcular_disponibilidad] *)

Lemma Qle_bool_false (a b : Q) : Qle_bool a b = false <-> (b < a)%Q.
Proof.
  split; intros H.
  - apply Qnot_le_lt; intros Hle; apply Qle_bool_iff in Hle; congruence.
  - destruct (Qle_bool a b) eqn:E; [|reflexivity].
    apply Qle_bool_iff in E; lra.
Qed.

Lemma Qeq_bool_false (a b : Q) : Qeq_bool a b = false <-> ~ (a == b)%Q.
Proof.
  split; intros H.
  - now apply Qeq_bool_neq.
  - destruct (Qeq_bool a b) eqn:E; [|reflexivity].
    apply Qeq_bool_iff in E; contradiction.
Qed.

Lemma calcular_disponibilidad_nonpositive (mtbf mttr : Q) :
  (mtbf <= 0)%Q -> calcular_disponibilidad mtbf mttr = Ok 0%Q.
Proof.
  intros H; unfold calcular_disponibilidad.
  apply Qle_bool_iff in H; now rewrite H.
Qed.

Lemma calcular_disponibilidad_positive (mtbf mttr : Q) :
  (0 < mtbf)%Q -> ~ (mtbf + mttr == 0)%Q ->
  calcular_disponibilidad mtbf mttr = Ok (mtbf / (mtbf + mttr))%Q.
Proof.
  intros H Hnz; unfold calcular_disponibilidad, truediv.
  apply Qle_bool_false in H; rewrite H.
  apply Qeq_bool_false in Hnz; now rewrite Hnz.
Qed.

Lemma ratio_le (a b c d : Q) :
  (0 < b)%Q -> (0 < d)%Q -> (a * d <= c * b)%Q -> (a / b <= c / d)%Q.
Proof.
  intros Hb Hd H.
  apply Qle_shift_div_l; [assumption|].
  setoid_replace (a / b * d)%Q with (a * d / b)%Q by (field; lra).
  apply Qle_shift_div_r; assumption.
Qed.

(** [C8], as amended.  [calcular_disponibilidad mtbf mttr] is
    [mtbf / (mtbf + mttr)] for a positive [mtbf] (where that quotient is
    defined) and 0.0 for every [mtbf <= 0], in exact arithmetic and in
    binary64 arithmetic alike; for finite [mtbf > 0] and [mttr >= 0] it does
    not increase when [mttr] grows. *)
Theorem calcular_disponibilidad_formula_and_mttr_monotone :
  (forall mtbf mttr : Q,
     (mtbf <= 0)%Q -> calcular_disponibilidad mtbf mttr = Ok 0%Q) /\
  (forall mtbf mttr : Q,
     (0 < mtbf)%Q -> ~ (mtbf + mttr == 0)%Q ->
     calcular_disponibilidad mtbf mttr = Ok (mtbf / (mtbf + mttr))%Q) /\
  (forall mtbf mttr mttr' : Q,
     (0 < mtbf)%Q -> (0 <= mttr)%Q -> (mttr <= mttr')%Q ->
     exists a a' : Q,
       calcular_disponibilidad mtbf mttr = Ok a /\
       calcular_disponibilidad mtbf mttr' = Ok a' /\ (a' <= a)%Q) /\
  (forall mtbf mttr : float,
     (mtbf <=? 0)%float = true ->
     Binary64.calcular_disponibilidad mtbf mttr = Ok 0%float) /\
  (forall mtbf mttr : float,
     (mtbf <=? 0)%float = false -> (mtbf + mttr =? 0)%float = false ->
     Binary64.calcular_disponibilidad mtbf mttr
     = Ok (mtbf / (mtbf + mttr))%float).
Proof.
  split; [exact calcular_disponibilidad_nonpositive|].
  split; [exact calcular_disponibilidad_positive|].
  split; [|split].
  - intros m r r' Hm Hr Hrr.
    exists (m / (m + r))%Q, (m / (m + r'))%Q.
    rewrite !calcular_disponibilidad_positive by lra.
    repeat split.
    apply ratio_le; try lra. nra.
  - intros m r H; unfold Binary64.calcular_disponibilidad; now rewrite H.
  - intros m r H Hs.
    unfold Binary64.calcular_disponibilidad, Binary64.truediv.
    now rewrite H, Hs.
Qed.

Lemma calcular_disponibilidad_formula_and_mttr_monotone_witness :
  calcular_disponibilidad (-1) 5 = Ok 0%Q /\
  calcular_disponibilidad 48 3 = Ok (48 / (48 + 3))%Q /\
  (exists a a' : Q,
     calcular_disponibilidad 48 3 = Ok a /\
     calcular_disponibilidad 48 6 = Ok a' /\ (a' <= a)%Q) /\
  Binary64.calcular_disponibilidad (-1) 5 = Ok 0%float /\
  Binary64.calcular_disponibilidad 48 3 = Ok (48 / (48 + 3))%float.
Proof.
  destruct calcular_disponibilidad_formula_and_mttr_monotone
    as (H0 & H1 & H2 & H3 & H4).
  split; [apply H0; vm_compute; discriminate|].
  split; [apply H1; [reflexivity|vm_compute; discriminate]|].
  split; [apply H2; try reflexivity; vm_compute; discriminate|].
  split; [apply H3; reflexivity|apply H4; reflexivity].
Defined.

(** In binary64 arithmetic the availability can decrease when [mtbf]
    grows: from [mtbf_menor] to the next number above it, with the same
    [mttr_fijo], the rounded quotient loses one unit in the last place. *)
Lemma calcular_disponibilidad_decreases_as_mtbf_grows :
  (0 <? mtbf_menor)%float = true /\
  (mtbf_menor <? mtbf_mayor)%float = true /\
  (0 <=? mttr_fijo)%float = true /\
  exists a a' : float,
    Binary64.calcular_disponibilidad mtbf_menor mttr_fijo = Ok a /\
    Binary64.calcular_disponibilidad mtbf_mayor mttr_fijo = Ok a' /\
    (a' <? a)%float = true.
Proof.
  split; [reflexivity|]. split; [reflexivity|]. split; [reflexivity|].
  eexists; eexists; split; [reflexivity|]. split; reflexivity.
Qed.

(** ** [calcular_kpis_activo] *)

Section Composite.
Variable parse_iso : string -> option datetime.

Lemma es_resuelta_estado_terminal (f : falla) :
  es_resuelta f = estado_terminal f.
Proof.
  unfold es_resuelta, estado_terminal, in_strings, get, ESTADOS_RESUELTA.
  destruct (f_estado f); cbn [existsb]; try reflexivity.
  now rewrite orb_false_r, orb_assoc.
Qed.

Lemma filter_es_resuelta (fallas : list falla) :
  filter es_resuelta fallas = filter estado_terminal fallas.
Proof. apply filter_ext, es_resuelta_estado_terminal. Qed.

Lemma mttr_guard (tiempos : list Q) :
  match tiempos with [] => 0%Q | _ => calcular_mttr tiempos end
  = calcular_mttr tiempos.
Proof. now destruct tiempos. Qed.

(** What a successful call has computed, block by block. *)
Lemma calcular_kpis_activo_Ok
    (fallas : list falla) (ots : option (list orden)) (now : string) (r : kpis) :
  calcular_kpis_activo parse_iso fallas ots now = Ok r <->
  exists (fechas : list datetime) (d : Q) (c : option Q),
    fechas_de parse_iso (filter estado_terminal fallas) = Ok fechas /\
    (if Qgt_bool (fst (calcular_mtbf fechas)) 0
     then calcular_disponibilidad
            (fst (calcular_mtbf fechas))
            (calcular_mttr (tiempos_de (filter estado_terminal fallas)))
     else Ok 1%Q) = Ok d /\
    cumplimiento_de parse_iso ots = Ok c /\
    r = {| mtbf_horas := fst (calcular_mtbf fechas);
           mttr_horas := calcular_mttr (tiempos_de (filter estado_terminal fallas));
           disponibilidad := d;
           num_fallas := len (filter estado_terminal fallas);
           num_intervalos_mtbf := snd (calcular_mtbf fechas);
           cumplimiento_preventivo := c;
           costo_total_mantenimiento := costo_de ots;
           ultima_actualizacion := now |}.
Proof.
  unfold calcular_kpis_activo.
  rewrite filter_es_resuelta, mttr_guard.
  destruct (fechas_de parse_iso (filter estado_terminal fallas)) as [fechas|e];
    cbn [bind].
  2:{ split; [discriminate|]. intros (? & ? & ? & H & _); discriminate. }
  destruct (calcular_mtbf fechas) as [mtbf n] eqn:Em; cbn [fst snd].
  destruct (if Qgt_bool mtbf 0 then _ else _) as [d|e] eqn:Ed; cbn [bind].
  2:{ split; [discriminate|].
      intros (? & ? & ? & H & H' & _). inversion H; subst.
      rewrite Em in H'; cbn [fst] in H'; congruence. }
  destruct (cumplimiento_de parse_iso ots) as [c|e] eqn:Ec; cbn [bind].
  2:{ split; [discriminate|].
      intros (? & ? & ? & _ & _ & H & _); discriminate. }
  split.
  - intros H; inversion H; subst.
    exists fechas, d, c; rewrite Em; cbn [fst snd]; auto.
  - intros (fechas' & d' & c' & H1 & H2 & H3 & ->).
    inversion H1; subst fechas'. rewrite Em in *; cbn [fst snd] in *.
    congruence.
Qed.

(** Records in any other state do not take part in the computation. *)
Lemma calcular_kpis_activo_filter
    (fallas : list falla) (ots : option (list orden)) (now : string) :
  calcular_kpis_activo parse_iso fallas ots now
  = calcular_kpis_activo parse_iso (filter estado_terminal fallas) ots now.
Proof.
  unfold calcular_kpis_activo.
  rewrite !filter_es_resuelta.
  assert (E : filter estado_terminal (filter estado_terminal fallas)
              = filter estado_terminal fallas).
  { induction fallas as [|f l IH]; [reflexivity|].
    cbn [filter]; destruct (estado_terminal f) eqn:Ef; [|exact IH].
    cbn [filter]; rewrite Ef, IH; reflexivity. }
  now rewrite E.
Qed.
End Composite.

(** On the statuses of [EstadoFalla] the accepted statuses are Resolved
    and Closed. *)
Lemma estado_terminal_enum (f : falla) (s : string) :
  f_estado f = Val s -> In s ESTADO_FALLA ->
  estado_terminal f = resuelta_o_cerrada f.
Proof.
  unfold estado_terminal, resuelta_o_cerrada; intros -> Hin.
  repeat (destruct Hin as [<-|Hin]; [reflexivity|]); contradiction.
Qed.

Lemma filter_estado_del_modelo (fallas : list falla) :
  Forall estado_del_modelo fallas ->
  filter estado_terminal fallas = filter resuelta_o_cerrada fallas.
Proof.
  intros H; apply filter_ext_in; intros f Hin.
  rewrite Forall_forall in H; specialize (H f Hin).
  unfold estado_del_modelo in H.
  destruct (f_estado f) as [| |s] eqn:E.
  - unfold estado_terminal, resuelta_o_cerrada; now rewrite E.
  - unfold estado_terminal, resuelta_o_cerrada; now rewrite E.
  - now apply (estado_terminal_enum f s).
Qed.

Lemma mapM_Forall2 (A B : Type) (g : A -> result B) (l : list A) (ys : list B) :
  mapM g l = Ok ys -> Forall2 (fun x y => g x = Ok y) l ys.
Proof.
  revert ys; induction l as [|x l IH]; intros ys H; cbn [mapM] in H.
  - inversion H; constructor.
  - destruct (g x) as [y|e] eqn:Ex; cbn [bind] in H; [|discriminate].
    destruct (mapM g l) as [ys'|e] eqn:El; cbn [bind] in H; [|discriminate].
    inversion H; subst ys; constructor; [exact Ex|now apply IH].
Qed.

Lemma Forall2_impl_l (A B : Type) (R R' : A -> B -> Prop)
    (l : list A) (l' : list B) :
  (forall a b, R a b -> R' a b) -> Forall2 R l l' -> Forall2 R' l l'.
Proof. intros HR; induction 1; constructor; auto. Qed.

(** The timestamps the comprehension collects are those of the records
    that have the key. *)
Lemma fechas_de_marcas (parse_iso : string -> option datetime)
    (l : list falla) (fechas : list datetime) :
  fechas_de parse_iso l = Ok fechas -> marcas_de parse_iso l fechas.
Proof.
  unfold fechas_de, marcas_de; intros H.
  apply mapM_Forall2 in H.
  revert H; apply Forall2_impl_l; intros f t.
  destruct (f_fecha_reporte f) as [| |s]; cbn; try discriminate.
  destruct (parse_iso s) as [t'|] eqn:E; [|discriminate].
  intros H; inversion H; subst t'; eauto.
Qed.

(** The downtimes the comprehension collects are those of the records that
    carry one. *)
Lemma tiempos_de_paradas (l : list falla) : paradas_de l (tiempos_de l).
Proof.
  unfold paradas_de, tiempos_de.
  induction l as [|f l IH]; cbn [filter flat_map]; [constructor|].
  destruct (f_tiempo_fuera_servicio_h f) as [| |h] eqn:E;
    cbn [has_key get app]; try exact IH.
  constructor; [exact E|exact IH].
Qed.

(** The failure scenario of the specification: the third record, still
    reported, is left out; MTBF is 48 hours over one interval, MTTR 3 hours,
    availability 48/51. *)
Example calcular_kpis_activo_escenario :
  exists r : kpis,
    calcular_kpis_activo iso_parse fallas_escenario None ahora = Ok r /\
    (mtbf_horas r == 48)%Q /\ num_intervalos_mtbf r = 1 /\
    (mttr_horas r == 3)%Q /\ (disponibilidad r == 48 / 51)%Q /\
    num_fallas r = 2 /\ cumplimiento_preventivo r = None.
Proof. eexists; split; [reflexivity|]; repeat split. Qed.

(** [C1] On failure records whose status is a value of [EstadoFalla],
    [calcular_kpis_activo] computes MTBF and MTTR from the records whose
    status is 'Resuelta' or 'Cerrada' and from no other: the result is that
    of the call on those records alone, so that records in any other state
    can be removed, added or altered without changing it; [num_fallas] is
    the number of Resolved or Closed records; MTBF is [calcular_mtbf] of
    the report timestamps of the Resolved or Closed records that have one,
    and MTTR is [calcular_mttr] of the downtimes of those that carry one. *)
Theorem calcular_kpis_activo_uses_resolved_or_closed
    (parse_iso : string -> option datetime)
    (fallas : list falla) (ots : option (list orden)) (now : string) :
  Forall estado_del_modelo fallas ->
  calcular_kpis_activo parse_iso fallas ots now
  = calcular_kpis_activo parse_iso (filter resuelta_o_cerrada fallas) ots now /\
  (forall fallas' : list falla,
     Forall estado_del_modelo fallas' ->
     filter resuelta_o_cerrada fallas' = filter resuelta_o_cerrada fallas ->
     calcular_kpis_activo parse_iso fallas' ots now
     = calcular_kpis_activo parse_iso fallas ots now) /\
  (forall r : kpis,
     calcular_kpis_activo parse_iso fallas ots now = Ok r ->
     num_fallas r = len (filter resuelta_o_cerrada fallas) /\
     exists (fechas : list datetime) (tiempos : list Q),
       marcas_de parse_iso (filter resuelta_o_cerrada fallas) fechas /\
       paradas_de (filter resuelta_o_cerrada fallas) tiempos /\
       (mtbf_horas r, num_intervalos_mtbf r) = calcular_mtbf fechas /\
       mttr_horas r = calcular_mttr tiempos).
Proof.
  intros Hm.
  pose proof (filter_estado_del_modelo _ Hm) as E.
  split; [|split].
  - rewrite (calcular_kpis_activo_filter parse_iso fallas), E.
    reflexivity.
  - intros fallas' Hm' E'.
    rewrite (calcular_kpis_activo_filter parse_iso fallas').
    rewrite (calcular_kpis_activo_filter parse_iso fallas).
    now rewrite (filter_estado_del_modelo _ Hm'), E', E.
  - intros r H.
    apply calcular_kpis_activo_Ok in H.
    destruct H as (fechas & d & c & Hf & _ & _ & ->).
    rewrite E in *.
    cbn [num_fallas mtbf_horas num_intervalos_mtbf mttr_horas].
    split; [reflexivity|].
    exists fechas, (tiempos_de (filter resuelta_o_cerrada fallas)).
    split; [now apply fechas_de_marcas|].
    split; [apply tiempos_de_paradas|].
    split; [now destruct (calcular_mtbf fechas)|reflexivity].
Qed.

Lemma calcular_kpis_activo_uses_resolved_or_closed_witness :
  Forall estado_del_modelo fallas_escenario /\
  exists r : kpis,
    calcular_kpis_activo iso_parse fallas_escenario None ahora = Ok r /\
    num_fallas r = len (filter resuelta_o_cerrada fallas_escenario) /\
    num_fallas r = 2.
Proof.
  assert (Hm : Forall estado_del_modelo fallas_escenario).
  { unfold fallas_escenario, estado_del_modelo, ESTADO_FALLA.
    repeat (apply Forall_cons; [cbn; tauto|]); apply Forall_nil. }
  split; [exact Hm|].
  eexists; split; [reflexivity|].
  destruct (calcular_kpis_activo_uses_resolved_or_closed
              iso_parse fallas_escenario None ahora Hm) as (_ & _ & H).
  destruct (H _ eq_refl) as (Hn & _).
  split; [exact Hn|reflexivity].
Defined.

(** Outside [EstadoFalla]: the filter also accepts the literal
    'COMPLETADA', which is the value of no failure status; a dictionary
    carrying it is counted and averaged. *)
Example estado_completada_is_counted :
  exists r : kpis,
    calcular_kpis_activo iso_parse fallas_completada None ahora = Ok r /\
    num_fallas r = 1 /\ (mttr_horas r == 2)%Q /\
    len (filter resuelta_o_cerrada fallas_completada) = 0.
Proof. eexists; split; [reflexivity|]; repeat split. Qed.

(** [C4] With no failures and no work orders every metric takes its
    no-data value, availability being 1.0; and whenever the computed MTBF
    is not greater than 0 the composite reports availability 1.0, where the
    primitive would have returned 0.0. *)
Theorem calcular_kpis_activo_no_data_and_availability_convention :
  (forall (parse_iso : string -> option datetime) (now : string),
     calcular_kpis_activo parse_iso [] None now
     = Ok {| mtbf_horas := 0;
             mttr_horas := 0;
             disponibilidad := 1;
             num_fallas := 0;
             num_intervalos_mtbf := 0;
             cumplimiento_preventivo := None;
             costo_total_mantenimiento := 0;
             ultima_actualizacion := now |} /\
     calcular_kpis_activo parse_iso [] (Some []) now
     = calcular_kpis_activo parse_iso [] None now) /\
  (forall (parse_iso : string -> option datetime) (fallas : list falla)
          (ots : option (list orden)) (now : string) (r : kpis),
     calcular_kpis_activo parse_iso fallas ots now = Ok r ->
     ~ (0 < mtbf_horas r)%Q ->
     disponibilidad r = 1%Q /\
     calcular_disponibilidad (mtbf_horas r) (mttr_horas r) = Ok 0%Q).
Proof.
  split; [split; reflexivity|].
  intros parse_iso fallas ots now r H Hm.
  apply calcular_kpis_activo_Ok in H.
  destruct H as (fechas & d & c & _ & Hd & _ & ->); cbn in *.
  apply Qnot_lt_le in Hm.
  split; [|now apply calcular_disponibilidad_nonpositive].
  unfold Qgt_bool in Hd.
  apply Qle_bool_iff in Hm; rewrite Hm in Hd; cbn in Hd; congruence.
Qed.

Lemma calcular_kpis_activo_no_data_and_availability_convention_witness :
  exists r : kpis,
    calcular_kpis_activo iso_parse fallas_completada None ahora = Ok r /\
    disponibilidad r = 1%Q /\
    calcular_disponibilidad (mtbf_horas r) (mttr_horas r) = Ok 0%Q.
Proof.
  eexists; split; [reflexivity|].
  destruct calcular_kpis_activo_no_data_and_availability_convention as [_ H].
  apply (H iso_parse fallas_completada None ahora); [reflexivity|].
  vm_compute; discriminate.
Defined.

(** *** The range of the reported availability *)

Lemma tiempos_de_nonneg (fallas : list falla) :
  forallb tiempo_no_negativo fallas = true ->
  Forall (fun h => 0 <= h)%Q (tiempos_de fallas).
Proof.
  induction fallas as [|f l IH]; cbn [forallb tiempos_de flat_map]; intros H.
  - constructor.
  - apply andb_prop in H; destruct H as [Hf Hl].
    apply Forall_app; split; [|now apply IH].
    unfold tiempo_no_negativo in Hf.
    destruct (has_key (f_tiempo_fuera_servicio_h f)); [|constructor].
    destruct (get (f_tiempo_fuera_servicio_h f)); [|constructor].
    constructor; [now apply Qle_bool_iff|constructor].
Qed.

Lemma calcular_mttr_nonneg (tiempos : list Q) :
  Forall (fun h => 0 <= h)%Q tiempos -> (0 <= calcular_mttr tiempos)%Q.
Proof.
  intros H; unfold calcular_mttr.
  destruct tiempos as [|h l] eqn:E; [lra|]; rewrite <- E in *.
  assert (0 < inject_Z (len tiempos))%Q.
  { change 0%Q with (inject_Z 0); rewrite <- Zlt_Qlt.
    subst tiempos; rewrite len_cons; pose proof (len_nonneg _ l); lia. }
  apply Qle_shift_div_l; [assumption|].
  rewrite sum_total. pose proof (total_nonneg _ H). lra.
Qed.

(** [C10], as amended.  Whatever the input, provided downtimes are not
    negative, the availability [calcular_kpis_activo] reports is at least 0
    and at most 1: either MTBF is not greater than 0 and the value is the
    1.0 of the convention, where the primitive would have returned 0.0, or
    MTBF is greater than 0, MTTR is at least 0 and the value is
    [mtbf / (mtbf + mttr)]. *)
Theorem calcular_kpis_activo_disponibilidad_between_0_and_1
    (parse_iso : string -> option datetime) (fallas : list falla)
    (ots : option (list orden)) (now : string) (r : kpis) :
  forallb tiempo_no_negativo (filter estado_terminal fallas) = true ->
  calcular_kpis_activo parse_iso fallas ots now = Ok r ->
  (0 <= disponibilidad r)%Q /\ (disponibilidad r <= 1)%Q /\
  ((~ (0 < mtbf_horas r)%Q /\ disponibilidad r = 1%Q /\
    calcular_disponibilidad (mtbf_horas r) (mttr_horas r) = Ok 0%Q)
   \/
   ((0 < mtbf_horas r)%Q /\ (0 <= mttr_horas r)%Q /\
    disponibilidad r = (mtbf_horas r / (mtbf_horas r + mttr_horas r))%Q)).
Proof.
  intros Hnn H.
  apply calcular_kpis_activo_Ok in H.
  destruct H as (fechas & d & c & _ & Hd & _ & ->).
  cbn [disponibilidad mtbf_horas mttr_horas].
  pose proof (calcular_mttr_nonneg _ (tiempos_de_nonneg _ Hnn)) as Hmttr.
  set (mttr := calcular_mttr _) in *.
  set (mtbf := fst (calcular_mtbf fechas)) in *.
  unfold Qgt_bool in Hd.
  destruct (Qle_bool mtbf 0) eqn:E; cbn [negb] in Hd.
  - inversion Hd; subst d.
    apply Qle_bool_iff in E.
    split; [lra|]. split; [lra|].
    left; split; [lra|]. split; [reflexivity|].
    now apply calcular_disponibilidad_nonpositive.
  - apply Qle_bool_false in E.
    rewrite calcular_disponibilidad_positive in Hd by lra.
    inversion Hd; subst d.
    split; [apply Qle_shift_div_l; lra|].
    split; [apply Qle_shift_div_r; lra|].
    right; split; [exact E|]. split; [exact Hmttr|reflexivity].
Qed.

Lemma calcular_kpis_activo_disponibilidad_between_0_and_1_witness :
  exists r : kpis,
    calcular_kpis_activo iso_parse fallas_escenario None ahora = Ok r /\
    (0 <= disponibilidad r)%Q /\ (disponibilidad r <= 1)%Q.
Proof.
  eexists; split; [reflexivity|].
  destruct (calcular_kpis_activo_disponibilidad_between_0_and_1
              iso_parse fallas_escenario None ahora _ eq_refl eq_refl)
    as (H1 & H2 & _).
  split; [exact H1|exact H2].
Defined.

(** In binary64 arithmetic the composite does report availability 0.0 with
    a positive MTBF: two resolved failures two days apart, each out of
    service for 1e308 hours, have a mean downtime that overflows to
    infinity, and 48 / (48 + infinity) is 0.0. *)
Lemma calcular_kpis_activo_reports_availability_zero :
  exists r : Binary64.kpis,
    Binary64.calcular_kpis_activo iso_parse fallas_desbordadas ahora = Ok r /\
    Binary64.num_fallas r = 2 /\
    Binary64.mtbf_horas r = 48%float /\
    Binary64.mttr_horas r = infinity /\
    Binary64.disponibilidad r = 0%float.
Proof. eexists; split; [reflexivity|]; repeat split. Qed.

(** *** Preventive compliance *)

Section Compliance.
Variable parse_iso : string -> option datetime.

Lemma truthy_presente (v : slot string) :
  truthy_str (get v) = true ->
  exists s, v = Val s /\ presente v = Some s.
Proof.
  destruct v as [| |s]; cbn; try discriminate.
  intros H; exists s; split; [reflexivity|].
  now destruct (String.eqb s EmptyString).
Qed.

Lemma falsy_presente (v : slot string) :
  truthy_str (get v) = false -> presente v = None.
Proof.
  destruct v as [| |s]; cbn; try reflexivity.
  now destruct (String.eqb s EmptyString).
Qed.

(** The bounds of [datetime] are the first and the last instant of the
    calendar, and the day after the last day is out of range. *)
Example datetime_range :
  iso_parse "0001-01-01" = Some datetime_min /\
  iso_parse "9999-12-31T23:59:59" = Some (datetime_max - 999999) /\
  completado_a_tiempo iso_parse
    (orden_de "Preventivo" "Completada" "9999-12-31" "2024-01-05")
  = Raise OverflowError /\
  completado_a_tiempo iso_parse
    (orden_de "Preventivo" "Completada" "9999-12-30" "2024-01-05")
  = Ok true.
Proof. repeat split. Qed.

Lemma es_preventivo_tipo_preventivo (ot : orden) :
  es_preventivo ot = tipo_preventivo ot.
Proof.
  unfold es_preventivo, tipo_preventivo, in_strings, get, TIPOS_PREVENTIVO.
  destruct (ot_tipo ot); cbn [existsb]; try reflexivity.
  now rewrite orb_false_r, orb_assoc.
Qed.

Lemma estado_completado_in_strings (ot : orden) :
  in_strings (get (ot_estado ot)) ESTADOS_COMPLETADA = estado_completado ot.
Proof.
  unfold estado_completado, in_strings, get, ESTADOS_COMPLETADA.
  destruct (ot_estado ot); cbn [existsb]; try reflexivity.
  now rewrite orb_false_r.
Qed.

Lemma filter_es_preventivo (l : list orden) :
  filter es_preventivo l = filter tipo_preventivo l.
Proof. apply filter_ext, es_preventivo_tipo_preventivo. Qed.

(** When the test of the source returns, it has decided [a_tiempo]. *)
Lemma completado_a_tiempo_Ok (ot : orden) (b : bool) :
  completado_a_tiempo parse_iso ot = Ok b -> b = a_tiempo parse_iso ot.
Proof.
  unfold completado_a_tiempo, a_tiempo, instante.
  rewrite estado_completado_in_strings.
  destruct (estado_completado ot); [|intros H; now inversion H].
  cbn [andb].
  destruct (truthy_str (get (ot_fecha_fin ot))) eqn:Tf.
  2:{ rewrite (falsy_presente _ Tf); intros H; now inversion H. }
  destruct (truthy_presente _ Tf) as (sf & Ef & Pf); rewrite Pf.
  destruct (truthy_str (get (ot_fecha_programada ot))) eqn:Tp.
  2:{ rewrite (falsy_presente _ Tp); intros H; inversion H.
      now destruct (parse_iso sf). }
  destruct (truthy_presente _ Tp) as (sp & Ep & Pp); rewrite Pp.
  rewrite Ef, Ep; cbn [getitem get fromisoformat].
  destruct (parse_iso sf) as [fin|]; cbn [bind]; [|discriminate].
  destruct (parse_iso sp) as [programada|]; cbn [bind]; [|discriminate].
  unfold add_timedelta.
  destruct ((programada + timedelta_days 1 <? datetime_min)
            || (datetime_max <? programada + timedelta_days 1));
    cbn [bind]; [discriminate|].
  intros H; now inversion H.
Qed.

(** On readable dates, the scheduled one not the last day of the calendar,
    the test of the source returns. *)
Lemma completado_a_tiempo_total (ot : orden) :
  legible parse_iso (ot_fecha_fin ot) = true ->
  legible parse_iso (ot_fecha_programada ot) = true ->
  en_rango parse_iso (ot_fecha_programada ot) = true ->
  exists b : bool, completado_a_tiempo parse_iso ot = Ok b.
Proof.
  unfold completado_a_tiempo, legible, en_rango, instante.
  intros Hf Hp Hr.
  destruct (in_strings (get (ot_estado ot)) ESTADOS_COMPLETADA); [|eauto].
  destruct (truthy_str (get (ot_fecha_fin ot))) eqn:Tf; [|eauto].
  destruct (truthy_presente _ Tf) as (sf & Ef & Pf); rewrite Pf in *.
  destruct (truthy_str (get (ot_fecha_programada ot))) eqn:Tp; [|eauto].
  destruct (truthy_presente _ Tp) as (sp & Ep & Pp); rewrite Pp in *.
  rewrite Ef, Ep; cbn [getitem get fromisoformat].
  destruct (parse_iso sf) as [fin|]; cbn [bind]; [|discriminate].
  destruct (parse_iso sp) as [programada|]; cbn [bind]; [|discriminate].
  unfold add_timedelta.
  apply andb_prop in Hr; destruct Hr as [Hlo Hhi].
  apply Z.leb_le in Hlo, Hhi.
  replace (programada + timedelta_days 1 <? datetime_min) with false
    by (symmetry; apply Z.ltb_ge; lia).
  replace (datetime_max <? programada + timedelta_days 1) with false
    by (symmetry; apply Z.ltb_ge; lia).
  cbn [orb bind]; eauto.
Qed.

Lemma countM_Ok_inv (A : Type) (g : A -> result bool) (h : A -> bool)
    (l : list A) (n : Z) :
  (forall x b, In x l -> g x = Ok b -> b = h x) ->
  countM g l = Ok n -> n = len (filter h l).
Proof.
  revert n; induction l as [|x l IH]; intros n H Hn; cbn [countM filter] in *.
  - now inversion Hn.
  - destruct (g x) as [b|e] eqn:Ex; cbn [bind] in Hn; [|discriminate].
    destruct (countM g l) as [m|e] eqn:El; cbn [bind] in Hn; [|discriminate].
    rewrite <- (H x b (or_introl eq_refl) Ex).
    pose proof (IH m (fun y c Hin => H y c (or_intror Hin)) eq_refl) as Em.
    subst m; injection Hn as <-; destruct b; [|reflexivity].
    rewrite len_cons.
    change (1 + len (filter h l) = len (filter h l) + 1); apply Z.add_comm.
Qed.

Lemma countM_total (A : Type) (g : A -> result bool) (l : list A) :
  (forall x, In x l -> exists b, g x = Ok b) -> exists n, countM g l = Ok n.
Proof.
  induction l as [|x l IH]; intros H; cbn [countM]; [eauto|].
  destruct (H x (or_introl eq_refl)) as [b ->]; cbn [bind].
  destruct IH as [n ->]; [intros; apply H; now right|].
  cbn [bind]; eauto.
Qed.

(** The compliance block, when it returns, has computed the share of the
    preventive orders that are on time. *)
Lemma cumplimiento_de_Ok (ots : option (list orden)) (c : option Q) :
  cumplimiento_de parse_iso ots = Ok c ->
  c = match preventivos_de ots with
      | [] => None
      | _ =>
          Some ((inject_Z (len (filter (a_tiempo parse_iso) (preventivos_de ots)))
                 / inject_Z (len (preventivos_de ots))) * 100)%Q
      end.
Proof.
  unfold cumplimiento_de, preventivos_de.
  destruct ots as [[|ot l]|]; try (intros H; now inversion H).
  rewrite filter_es_preventivo.
  destruct (filter tipo_preventivo (ot :: l)) as [|p ps] eqn:E;
    [intros H; now inversion H|].
  destruct (countM (completado_a_tiempo parse_iso) (p :: ps)) as [n|e] eqn:En;
    cbn [bind]; [|discriminate].
  apply (countM_Ok_inv _ _ (a_tiempo parse_iso)) in En.
  - intros H; inversion H; now subst n.
  - intros x b _; apply completado_a_tiempo_Ok.
Qed.

Lemma cumplimiento_de_total (ots : option (list orden)) :
  ordenes_bien_formadas parse_iso ots = true ->
  exists c : option Q, cumplimiento_de parse_iso ots = Ok c.
Proof.
  unfold ordenes_bien_formadas, cumplimiento_de, preventivos_de.
  destruct ots as [[|ot l]|]; eauto.
  rewrite filter_es_preventivo.
  intros H.
  destruct (filter tipo_preventivo (ot :: l)) as [|p ps] eqn:E; [eauto|].
  destruct (countM_total _ (completado_a_tiempo parse_iso) (p :: ps)) as [n ->];
    [|cbn [bind]; eauto].
  intros x Hx.
  rewrite forallb_forall in H; specialize (H x Hx).
  apply andb_prop in H; destruct H as [H Hr].
  apply andb_prop in H; destruct H as [Hf Hp].
  now apply completado_a_tiempo_total.
Qed.

Lemma fechas_de_total (fallas : list falla) :
  forallb (falla_legible parse_iso) fallas = true ->
  exists fechas, fechas_de parse_iso fallas = Ok fechas.
Proof.
  intros H; unfold fechas_de.
  apply mapM_total; intros f Hf.
  apply filter_In in Hf; destruct Hf as [Hin Hk].
  rewrite forallb_forall in H; specialize (H f Hin).
  unfold falla_legible in H.
  destruct (f_fecha_reporte f) as [| |s]; try discriminate.
  cbn. destruct (parse_iso s); [eauto|discriminate].
Qed.

Lemma calcular_mtbf_nonneg_guard (mtbf mttr : Q) :
  (0 <= mttr)%Q ->
  exists d : Q,
    (if Qgt_bool mtbf 0 then calcular_disponibilidad mtbf mttr else Ok 1%Q)
    = Ok d.
Proof.
  intros Hm; unfold Qgt_bool.
  destruct (Qle_bool mtbf 0) eqn:E; cbn [negb]; [eauto|].
  apply Qle_bool_false in E.
  rewrite calcular_disponibilidad_positive by lra; eauto.
Qed.

(** Well-formed records are always answered. *)
Lemma calcular_kpis_activo_total
    (fallas : list falla) (ots : option (list orden)) (now : string) :
  fallas_bien_formadas parse_iso fallas = true ->
  ordenes_bien_formadas parse_iso ots = true ->
  exists r : kpis, calcular_kpis_activo parse_iso fallas ots now = Ok r.
Proof.
  intros Hf Ho.
  unfold fallas_bien_formadas in Hf.
  assert (Hl : forallb (falla_legible parse_iso)
                       (filter estado_terminal fallas) = true).
  { rewrite forallb_forall in *; intros f Hin.
    specialize (Hf f Hin); now apply andb_prop in Hf. }
  assert (Hn : forallb tiempo_no_negativo (filter estado_terminal fallas) = true).
  { rewrite forallb_forall in *; intros f Hin.
    specialize (Hf f Hin); now apply andb_prop in Hf. }
  destruct (fechas_de_total _ Hl) as [fechas Hfe].
  pose proof (calcular_mttr_nonneg _ (tiempos_de_nonneg _ Hn)) as Hmttr.
  destruct (calcular_mtbf_nonneg_guard (fst (calcular_mtbf fechas)) _ Hmttr)
    as [d Hd].
  destruct (cumplimiento_de_total _ Ho) as [c Hc].
  eexists; apply calcular_kpis_activo_Ok.
  exists fechas, d, c; repeat split; assumption.
Qed.
End Compliance.

Lemma share_in_percent_range (n m : Z) :
  0 <= n <= m -> 0 < m ->
  (0 <= inject_Z n / inject_Z m * 100)%Q /\
  (inject_Z n / inject_Z m * 100 <= 100)%Q.
Proof.
  intros Hn Hm.
  assert (Hm' : (0 < inject_Z m)%Q)
    by (change 0%Q with (inject_Z 0); rewrite <- Zlt_Qlt; lia).
  assert (Hn0 : (0 <= inject_Z n)%Q)
    by (change 0%Q with (inject_Z 0); rewrite <- Zle_Qle; lia).
  assert (Hnm : (inject_Z n <= inject_Z m)%Q) by (rewrite <- Zle_Qle; lia).
  assert (H0 : (0 <= inject_Z n / inject_Z m)%Q)
    by (apply Qle_shift_div_l; lra).
  assert (H1 : (inject_Z n / inject_Z m <= 1)%Q)
    by (apply Qle_shift_div_r; lra).
  split; lra.
Qed.

Lemma filter_len_le (A : Type) (h : A -> bool) (l : list A) :
  0 <= len (filter h l) <= len l.
Proof. unfold len; pose proof (filter_length_le h l); lia. Qed.

(** [C3] Whenever [calcular_kpis_activo] returns, and some supplied order
    is preventive, the reported compliance is the share of the preventive
    orders that are on time (status Completed, finish and scheduled dates
    both present, and finish no later than the scheduled date plus one
    day), times 100, a value between 0 and 100; when no supplied order is
    preventive the compliance is absent.  The call does return on
    well-formed records: readable dates, a scheduled date that is not the
    last day of the calendar, non-negative downtimes. *)
Theorem calcular_kpis_activo_cumplimiento_preventivo
    (parse_iso : string -> option datetime) (fallas : list falla)
    (ots : option (list orden)) (now : string) :
  (fallas_bien_formadas parse_iso fallas = true ->
   ordenes_bien_formadas parse_iso ots = true ->
   exists r : kpis, calcular_kpis_activo parse_iso fallas ots now = Ok r) /\
  (forall r : kpis,
     calcular_kpis_activo parse_iso fallas ots now = Ok r ->
     match preventivos_de ots with
     | [] => cumplimiento_preventivo r = None
     | _ :: _ =>
         exists c : Q,
           cumplimiento_preventivo r = Some c /\
           c = ((inject_Z (len (filter (a_tiempo parse_iso) (preventivos_de ots)))
                 / inject_Z (len (preventivos_de ots))) * 100)%Q /\
           (0 <= c)%Q /\ (c <= 100)%Q
     end).
Proof.
  split; [apply calcular_kpis_activo_total|].
  intros r Hr.
  apply calcular_kpis_activo_Ok in Hr.
  destruct Hr as (fechas & d & c & _ & _ & Hc & ->).
  cbn [cumplimiento_preventivo].
  apply cumplimiento_de_Ok in Hc; subst c.
  destruct (preventivos_de ots) as [|p ps] eqn:E; [reflexivity|].
  eexists; split; [reflexivity|]. split; [reflexivity|].
  apply share_in_percent_range.
  - apply filter_len_le.
  - rewrite len_cons; pose proof (len_nonneg _ ps); lia.
Qed.

Lemma calcular_kpis_activo_cumplimiento_preventivo_witness :
  exists r : kpis,
    calcular_kpis_activo iso_parse fallas_escenario (Some ordenes_escenario) ahora
    = Ok r /\
    exists c : Q,
      cumplimiento_preventivo r = Some c /\
      c = ((inject_Z (len (filter (a_tiempo iso_parse)
                                  (preventivos_de (Some ordenes_escenario))))
            / inject_Z (len (preventivos_de (Some ordenes_escenario)))) * 100)%Q /\
      (0 <= c)%Q /\ (c <= 100)%Q.
Proof.
  destruct (calcular_kpis_activo_cumplimiento_preventivo
              iso_parse fallas_escenario (Some ordenes_escenario) ahora)
    as [Htotal Hvalue].
  destruct (Htotal eq_refl eq_refl) as [r Hr].
  exists r; split; [exact Hr|exact (Hvalue r Hr)].
Defined.

(** The work-order scenario of the specification: one order finished on the
    scheduled day, one three days late, compliance 50. *)
Example calcular_kpis_activo_escenario_ordenes :
  exists (r : kpis) (c : Q),
    calcular_kpis_activo iso_parse [] (Some ordenes_escenario) ahora = Ok r /\
    cumplimiento_preventivo r = Some c /\ (c == 50)%Q.
Proof. eexists; eexists; split; [reflexivity|]; split; reflexivity. Qed.

(** ** [generar_reporte_estadistico] *)

Section Report.
Variable parse_iso : string -> option datetime.

(** The loop with its [try]/[except] never raises and keeps the records of
    the period. *)
Lemma filtrar_periodo_filter (inicio fin : option datetime) (fallas : list falla) :
  filtrar_periodo parse_iso inicio fin fallas
  = Ok (filter (en_periodo parse_iso inicio fin) fallas).
Proof.
  induction fallas as [|x l IH]; [reflexivity|].
  cbn [filtrar_periodo filter]; unfold en_periodo at 1.
  destruct (f_fecha_reporte x) as [| |s]; cbn; try exact IH.
  destruct (parse_iso s) as [t|]; cbn; [|exact IH].
  rewrite IH.
  destruct inicio as [i|], fin as [e|]; cbn;
    rewrite ?Z.gtb_ltb;
    repeat match goal with
           | |- context [?a <? ?b] => destruct (Z.ltb_spec a b)
           | |- context [?a <=? ?b] => destruct (Z.leb_spec a b)
           end; cbn; try reflexivity; lia.
Qed.

Lemma en_periodo_iff (inicio fin : option datetime) (x : falla) :
  en_periodo parse_iso inicio fin x = true <->
  exists (s : string) (t : datetime),
    f_fecha_reporte x = Val s /\ parse_iso s = Some t /\
    (forall i, inicio = Some i -> i <= t) /\
    (forall e, fin = Some e -> t <= e).
Proof.
  unfold en_periodo; split.
  - destruct (f_fecha_reporte x) as [| |s]; try discriminate.
    destruct (parse_iso s) as [t|] eqn:Ep; [|discriminate].
    intros H; apply andb_prop in H; destruct H as [Hi He].
    exists s, t.
    split; [reflexivity|]. split; [exact Ep|]. split.
    + intros i ->; now apply Z.leb_le.
    + intros e ->; now apply Z.leb_le.
  - intros (s & t & -> & -> & Hi & He).
    apply andb_true_intro; split.
    + destruct inicio; [apply Z.leb_le; auto|reflexivity].
    + destruct fin; [apply Z.leb_le; auto|reflexivity].
Qed.

(** The report is never an exception. *)
Lemma generar_reporte_estadistico_total
    (fallas : list falla) (inicio fin : option datetime) :
  exists o : option reporte,
    generar_reporte_estadistico parse_iso fallas inicio fin = Ok o.
Proof.
  unfold generar_reporte_estadistico.
  destruct fallas as [|x l]; [eauto|].
  destruct inicio, fin; rewrite ?filtrar_periodo_filter; cbn [bind];
    match goal with
    | |- context [match ?l with [] => _ | _ :: _ => _ end] => destruct l
    end; eauto.
Qed.

Lemma generar_reporte_estadistico_bounded
    (fallas : list falla) (inicio fin : option datetime) :
  inicio <> None \/ fin <> None ->
  match filter (en_periodo parse_iso inicio fin) fallas with
  | [] => generar_reporte_estadistico parse_iso fallas inicio fin = Ok None
  | _ :: _ =>
      exists r r' : reporte,
        generar_reporte_estadistico parse_iso fallas inicio fin = Ok (Some r) /\
        generar_reporte_estadistico parse_iso
          (filter (en_periodo parse_iso inicio fin) fallas) None None
        = Ok (Some r') /\
        mismo_contenido r r' /\
        total_fallas r = len (filter (en_periodo parse_iso inicio fin) fallas) /\
        periodo_inicio r = inicio /\ periodo_fin r = fin
  end.
Proof.
  intros Hb.
  assert (E : generar_reporte_estadistico parse_iso fallas inicio fin
              = match fallas with
                | [] => Ok None
                | _ =>
                    fallas_filtradas <-
                      filtrar_periodo parse_iso inicio fin fallas ;;
                    match generar_reporte_estadistico parse_iso
                            fallas_filtradas None None with
                    | Ok (Some r) =>
                        Ok (Some {| periodo_inicio := inicio;
                                    periodo_fin := fin;
                                    total_fallas := total_fallas r;
                                    tiempo_promedio_reparacion :=
                                      tiempo_promedio_reparacion r;
                                    tiempo_total_fuera_servicio :=
                                      tiempo_total_fuera_servicio r;
                                    costo_total_reparaciones :=
                                      costo_total_reparaciones r;
                                    causas_raiz := causas_raiz r |})
                    | other => other
                    end
                end).
  { unfold generar_reporte_estadistico.
    destruct fallas as [|x l]; [reflexivity|].
    destruct inicio, fin; try (destruct Hb; congruence);
      rewrite filtrar_periodo_filter; cbn [bind];
      match goal with
      | |- context [match ?l with [] => _ | _ :: _ => _ end] => destruct l
      end; reflexivity. }
  rewrite E; clear E.
  destruct (filter (en_periodo parse_iso inicio fin) fallas) as [|y ys] eqn:Ef.
  - destruct fallas; [reflexivity|].
    rewrite filtrar_periodo_filter, Ef; reflexivity.
  - destruct fallas as [|x l]; [discriminate|].
    rewrite filtrar_periodo_filter, Ef; cbn [bind].
    eexists; eexists; split; [reflexivity|].
    split; [reflexivity|].
    split; [repeat split|]. split; [reflexivity|]. split; reflexivity.
Qed.
End Report.

(** [C6] The report is empty for an empty input and, under period bounds,
    when no record survives the filter.  Under bounds the report is built
    from exactly the records whose report timestamp is a valid timestamp
    within the period, both ends included and a missing bound unconstrained:
    records whose timestamp is missing, null or unreadable are dropped
    without an error. *)
Theorem generar_reporte_estadistico_period_filter
    (parse_iso : string -> option datetime)
    (fallas : list falla) (inicio fin : option datetime) :
  generar_reporte_estadistico parse_iso [] inicio fin = Ok None /\
  (inicio <> None \/ fin <> None ->
   (forall x : falla,
      In x (filter (en_periodo parse_iso inicio fin) fallas) <->
      In x fallas /\
      exists (s : string) (t : datetime),
        f_fecha_reporte x = Val s /\ parse_iso s = Some t /\
        (forall i, inicio = Some i -> i <= t) /\
        (forall e, fin = Some e -> t <= e)) /\
   match filter (en_periodo parse_iso inicio fin) fallas with
   | [] => generar_reporte_estadistico parse_iso fallas inicio fin = Ok None
   | _ :: _ =>
       exists r r' : reporte,
         generar_reporte_estadistico parse_iso fallas inicio fin = Ok (Some r) /\
         generar_reporte_estadistico parse_iso
           (filter (en_periodo parse_iso inicio fin) fallas) None None
         = Ok (Some r') /\
         mismo_contenido r r' /\
         total_fallas r = len (filter (en_periodo parse_iso inicio fin) fallas) /\
         periodo_inicio r = inicio /\ periodo_fin r = fin
   end).
Proof.
  split; [reflexivity|].
  intros Hb; split.
  - intros x; rewrite filter_In, en_periodo_iff; reflexivity.
  - now apply generar_reporte_estadistico_bounded.
Qed.

Lemma generar_reporte_estadistico_period_filter_witness :
  (exists r r' : reporte,
     generar_reporte_estadistico iso_parse fallas_escenario
       (Some t_2024_01_03) (Some t_2024_01_10) = Ok (Some r) /\
     generar_reporte_estadistico iso_parse
       (filter (en_periodo iso_parse (Some t_2024_01_03) (Some t_2024_01_10))
               fallas_escenario) None None
     = Ok (Some r') /\
     mismo_contenido r r' /\
     total_fallas r
     = len (filter (en_periodo iso_parse (Some t_2024_01_03) (Some t_2024_01_10))
                   fallas_escenario) /\
     periodo_inicio r = Some t_2024_01_03 /\
     periodo_fin r = Some t_2024_01_10) /\
  len (filter (en_periodo iso_parse (Some t_2024_01_03) (Some t_2024_01_10))
              fallas_escenario) = 2 /\
  generar_reporte_estadistico iso_parse fallas_escenario
    None (Some (t_2024_01_01 - 1)) = Ok None.
Proof.
  split; [|split; [reflexivity|]].
  - apply (generar_reporte_estadistico_period_filter
             iso_parse fallas_escenario (Some t_2024_01_03) (Some t_2024_01_10)).
    left; discriminate.
  - apply (generar_reporte_estadistico_period_filter
             iso_parse fallas_escenario None (Some (t_2024_01_01 - 1))).
    right; discriminate.
Defined.

(** ** One corrupt report timestamp

    [fallas_fecha_corrupta] holds two sound finished failures and one whose
    report timestamp is not a date. *)

(** A finished failure whose report timestamp cannot be read makes
    [calcular_kpis_activo] raise, whatever the other records are. *)
Lemma calcular_kpis_activo_raises
    (parse_iso : string -> option datetime) (fallas : list falla)
    (ots : option (list orden)) (now : string) (f : falla) (s : string) :
  In f fallas -> estado_terminal f = true ->
  f_fecha_reporte f = Val s -> parse_iso s = None ->
  exists e : exc, calcular_kpis_activo parse_iso fallas ots now = Raise e.
Proof.
  intros Hin Ht Hs Hp.
  destruct (calcular_kpis_activo parse_iso fallas ots now) as [r|e] eqn:E;
    [|eauto].
  exfalso.
  apply calcular_kpis_activo_Ok in E.
  destruct E as (fechas & _ & _ & Hf & _).
  assert (Hin' : In f (filter estado_terminal fallas))
    by (apply filter_In; auto).
  clear - Hin' Hs Hp Hf.
  unfold fechas_de in Hf.
  revert fechas Hf.
  induction (filter estado_terminal fallas) as [|x l IH]; [contradiction|].
  intros fechas Hf; cbn [filter] in Hf.
  destruct Hin' as [->|Hin'].
  - rewrite Hs in Hf; cbn in Hf.
    rewrite ?Hs in Hf; cbn in Hf. rewrite Hp in Hf; discriminate.
  - destruct (has_key (f_fecha_reporte x)); [|eauto].
    cbn [mapM] in Hf.
    destruct (fromisoformat parse_iso (getitem (f_fecha_reporte x)));
      [|discriminate].
    cbn [bind] in Hf.
    destruct (mapM _ (filter _ l)) eqn:El; [|discriminate].
    eapply IH; eauto.
Qed.

(** [C5] One unreadable report timestamp among finished failures aborts
    [calcular_kpis_activo] with [ValueError], where
    [generar_reporte_estadistico] on the same records, under a period bound,
    drops the record and reports on the other two. *)
Theorem calcular_kpis_activo_fails_on_corrupt_fecha_reporte :
  calcular_kpis_activo iso_parse fallas_fecha_corrupta None ahora = Raise ValueError
  /\ exists r : reporte,
       generar_reporte_estadistico iso_parse fallas_fecha_corrupta
         (Some t_2024_01_01) None = Ok (Some r) /\
       total_fallas r = 2.
Proof.
  split; [reflexivity|].
  eexists; split; reflexivity.
Qed.

(** ** Counting in an insertion-ordered dictionary *)

Lemma StronglySorted_map (A B : Type) (g : A -> B) (R : B -> B -> Prop)
    (l : list A) :
  StronglySorted R (map g l) <-> StronglySorted (fun a b => R (g a) (g b)) l.
Proof.
  induction l as [|a l IH]; cbn [map].
  - split; constructor.
  - split; intros H; inversion H; subst; constructor;
      try (now apply IH);
      rewrite Forall_forall in *; intros;
      try (match goal with H : forall _, In _ (map g l) -> _ |- _ =>
             apply H, in_map; assumption end).
    match goal with H : In _ (map g l) |- _ =>
      apply in_map_iff in H; destruct H as (y & <- & Hy) end.
    auto.
Qed.

Lemma StronglySorted_app (A : Type) (R : A -> A -> Prop) (l1 l2 : list A) :
  StronglySorted R (l1 ++ l2) ->
  StronglySorted R l1 /\ StronglySorted R l2 /\
  (forall a b, In a l1 -> In b l2 -> R a b).
Proof.
  induction l1 as [|x l1 IH]; cbn [app]; intros H.
  - repeat split; [constructor|assumption|contradiction].
  - inversion H as [|? ? Hs Hx]; subst.
    destruct (IH Hs) as (H1 & H2 & H12).
    rewrite Forall_forall in Hx.
    repeat split; [| assumption |].
    + constructor; [assumption|].
      apply Forall_forall; intros y Hy; apply Hx, in_or_app; now left.
    + intros a b [<-|Ha] Hb; [apply Hx, in_or_app; now right|now apply H12].
Qed.

Lemma StronglySorted_snoc (A : Type) (R : A -> A -> Prop) (l : list A) (x : A) :
  StronglySorted R l -> (forall a, In a l -> R a x) ->
  StronglySorted R (l ++ [x]).
Proof.
  induction 1 as [|a l Hs IH Ha]; cbn [app]; intros Hx.
  - repeat constructor.
  - constructor; [apply IH; intros; apply Hx; now right|].
    apply Forall_app; split; [assumption|].
    constructor; [apply Hx; now left|constructor].
Qed.

Lemma StronglySorted_impl_in (A : Type) (R R' : A -> A -> Prop) (l : list A) :
  (forall a b, In a l -> In b l -> R a b -> R' a b) ->
  StronglySorted R l -> StronglySorted R' l.
Proof.
  intros HR H; induction H as [|a s Hs IH Ha]; constructor.
  - apply IH; intros x y Hx Hy; apply HR; now right.
  - rewrite Forall_forall in *; intros y Hy.
    apply HR; [now left|now right|auto].
Qed.

Section CountingFacts.
Variable K : Type.
Variable eqb : K -> K -> bool.
Hypothesis eqb_eq : forall a b : K, eqb a b = true <-> a = b.

Let keys (d : list (K * Z)) : list K := map fst d.

Lemma eqb_refl (a : K) : eqb a a = true.
Proof. now apply eqb_eq. Qed.

Lemma eqb_neq (a b : K) : eqb a b = false <-> a <> b.
Proof.
  destruct (eqb a b) eqn:E; split; intros H; try congruence.
  - apply eqb_eq in E; contradiction.
  - intros ->; rewrite eqb_refl in E; discriminate.
Qed.

Lemma in_or_not (x : K) (l : list K) : In x l \/ ~ In x l.
Proof.
  induction l as [|a l [IH|IH]]; [now right|left; now right|].
  destruct (eqb x a) eqn:E.
  - apply eqb_eq in E; subst; left; now left.
  - apply eqb_neq in E; right; intros [H|H]; [congruence|contradiction].
Qed.

Lemma incrementar_keys_in (x : K) (d : list (K * Z)) :
  In x (keys d) -> keys (incrementar eqb x d) = keys d.
Proof.
  induction d as [|[k n] d IH]; cbn [keys map incrementar fst]; [contradiction|].
  intros H; destruct (eqb k x) eqn:E; [reflexivity|].
  cbn [map fst]; f_equal; apply IH.
  destruct H as [->|H]; [rewrite eqb_refl in E; discriminate|exact H].
Qed.

Lemma incrementar_keys_notin (x : K) (d : list (K * Z)) :
  ~ In x (keys d) -> keys (incrementar eqb x d) = keys d ++ [x].
Proof.
  induction d as [|[k n] d IH]; cbn [keys map incrementar fst app];
    [reflexivity|].
  intros H; destruct (eqb k x) eqn:E.
  - apply eqb_eq in E; subst; exfalso; apply H; now left.
  - cbn [map fst]; f_equal; apply IH; intros Hin; apply H; now right.
Qed.

Lemma valor_incrementar (c x : K) (d : list (K * Z)) :
  valor eqb c (incrementar eqb x d)
  = valor eqb c d + (if eqb c x then 1 else 0).
Proof.
  induction d as [|[k n] d IH]; cbn [incrementar valor].
  - destruct (eqb x c) eqn:E1, (eqb c x) eqn:E2; try reflexivity.
    + apply eqb_eq in E1; subst; rewrite eqb_refl in E2; discriminate.
    + apply eqb_eq in E2; subst; rewrite eqb_refl in E1; discriminate.
  - destruct (eqb k x) eqn:Ekx; cbn [valor].
    + apply eqb_eq in Ekx; subst k.
      destruct (eqb x c) eqn:E1, (eqb c x) eqn:E2; try lia.
      * apply eqb_eq in E1; subst; rewrite eqb_refl in E2; discriminate.
      * apply eqb_eq in E2; subst; rewrite eqb_refl in E1; discriminate.
    + destruct (eqb k c) eqn:Ekc; [|exact IH].
      apply eqb_eq in Ekc; subst k.
      rewrite Ekx; lia.
Qed.

Lemma valor_In (c : K) (n : Z) (d : list (K * Z)) :
  NoDup (keys d) -> In (c, n) d -> valor eqb c d = n.
Proof.
  induction d as [|[k m] d IH]; cbn [keys map fst valor]; [contradiction|].
  intros Hnd Hin; inversion Hnd as [|? ? Hk Hnd']; subst.
  destruct Hin as [E|Hin].
  - inversion E; subst; now rewrite eqb_refl.
  - destruct (eqb k c) eqn:Ekc; [|now apply IH].
    apply eqb_eq in Ekc; subst k.
    exfalso; apply Hk. change c with (fst (c, n)); now apply in_map.
Qed.

Lemma contar_snoc (l : list K) (x : K) :
  contar eqb (l ++ [x]) = incrementar eqb x (contar eqb l).
Proof. unfold contar; now rewrite fold_left_app. Qed.

Lemma contar_keys (l : list K) :
  NoDup (keys (contar eqb l)) /\
  (forall c, In c (keys (contar eqb l)) <-> In c l).
Proof.
  induction l as [|x l [IH1 IH2]] using rev_ind.
  - split; [constructor|reflexivity].
  - rewrite contar_snoc.
    destruct (in_or_not x (keys (contar eqb l))) as [Hin|Hnin].
    + rewrite incrementar_keys_in by assumption.
      split; [assumption|].
      intros c; rewrite IH2, in_app_iff; cbn [In]; split; [auto|].
      intros [H|[<-|[]]]; [assumption|now apply IH2].
    + rewrite incrementar_keys_notin by assumption.
      split.
      * apply NoDup_rev in IH1.
        rewrite <- (rev_involutive (keys (contar eqb l) ++ [x])).
        apply NoDup_rev; rewrite rev_app_distr; cbn [rev app].
        constructor; [|assumption].
        now rewrite <- in_rev.
      * intros c; rewrite !in_app_iff, IH2; reflexivity.
Qed.

Lemma apariciones_snoc (c x : K) (l : list K) :
  apariciones eqb c (l ++ [x])
  = apariciones eqb c l + (if eqb c x then 1 else 0).
Proof.
  unfold apariciones; rewrite filter_app, len_app; cbn [filter].
  destruct (eqb c x); unfold len; cbn [List.length]; lia.
Qed.

Lemma contar_valor (c : K) (l : list K) :
  valor eqb c (contar eqb l) = apariciones eqb c l.
Proof.
  induction l as [|x l IH] using rev_ind; [reflexivity|].
  now rewrite contar_snoc, valor_incrementar, apariciones_snoc, IH.
Qed.

Lemma apariciones_pos (c : K) (l : list K) :
  In c l -> 0 < apariciones eqb c l.
Proof.
  induction l as [|x l IH]; [contradiction|].
  unfold apariciones in *; cbn [filter]; intros [->|H].
  - rewrite eqb_refl, len_cons.
    pose proof (len_nonneg _ (filter (eqb c) l)); lia.
  - destruct (eqb c x); [rewrite len_cons|]; specialize (IH H); lia.
Qed.

Lemma primera_aparicion_lt (c : K) (l : list K) :
  In c l -> (primera_aparicion eqb c l < List.length l)%nat.
Proof.
  induction l as [|x l IH]; [contradiction|].
  cbn [primera_aparicion List.length]; intros H.
  destruct (eqb c x) eqn:E; [lia|].
  destruct H as [->|H]; [rewrite eqb_refl in E; discriminate|].
  specialize (IH H); lia.
Qed.

Lemma primera_aparicion_app_in (c : K) (l l' : list K) :
  In c l -> primera_aparicion eqb c (l ++ l') = primera_aparicion eqb c l.
Proof.
  induction l as [|x l IH]; [contradiction|].
  cbn [primera_aparicion app]; intros H.
  destruct (eqb c x) eqn:E; [reflexivity|].
  destruct H as [->|H]; [rewrite eqb_refl in E; discriminate|].
  now rewrite IH.
Qed.

Lemma primera_aparicion_snoc_new (x : K) (l : list K) :
  ~ In x l -> primera_aparicion eqb x (l ++ [x]) = List.length l.
Proof.
  induction l as [|y l IH]; cbn [primera_aparicion app List.length]; intros H.
  - now rewrite eqb_refl.
  - destruct (eqb x y) eqn:E.
    + apply eqb_eq in E; subst; exfalso; apply H; now left.
    + f_equal; apply IH; intros Hin; apply H; now right.
Qed.

(** The keys of the dictionary stand in the order of their first
    occurrence. *)
Lemma contar_keys_order (l : list K) :
  StronglySorted
    (fun a b => (primera_aparicion eqb a l < primera_aparicion eqb b l)%nat)
    (keys (contar eqb l)).
Proof.
  induction l as [|x l IH] using rev_ind; [constructor|].
  destruct (contar_keys l) as [Hnd Hin].
  assert (IH' : StronglySorted
                  (fun a b => (primera_aparicion eqb a (l ++ [x])
                               < primera_aparicion eqb b (l ++ [x]))%nat)
                  (keys (contar eqb l))).
  { revert IH; apply StronglySorted_impl_in.
    intros a b Ha Hb; apply Hin in Ha; apply Hin in Hb.
    now rewrite !primera_aparicion_app_in. }
  rewrite contar_snoc.
  destruct (in_or_not x (keys (contar eqb l))) as [Hx|Hx].
  - now rewrite incrementar_keys_in.
  - rewrite incrementar_keys_notin by assumption.
    apply StronglySorted_snoc; [assumption|].
    intros a Ha; apply Hin in Ha.
    rewrite primera_aparicion_app_in by assumption.
    rewrite primera_aparicion_snoc_new by (now rewrite <- Hin).
    now apply primera_aparicion_lt.
Qed.
End CountingFacts.

(** ** The root-cause table *)

Lemma causa_eqb_eq (a b : option string) : causa_eqb a b = true <-> a = b.
Proof.
  destruct a as [x|], b as [y|]; cbn; split; try congruence; try reflexivity.
  - intros H; apply String.eqb_eq in H; congruence.
  - intros H; inversion H; apply String.eqb_refl.
Qed.

Section Table.
Variable causas : list (option string).

Let d : list (option string * Z) := contar causa_eqb causas.
Let s : list (option string * Z) :=
  sorted (fun x : option string * Z => snd x) true d.
Let earlier (a b : option string * Z) : Prop :=
  (primera_aparicion causa_eqb (fst a) causas
   < primera_aparicion causa_eqb (fst b) causas)%nat.

Lemma tabla_perm : Permutation s d.
Proof. apply sorted_perm. Qed.

Lemma tabla_sorted : StronglySorted (antes_en_tabla causa_eqb causas) s.
Proof.
  assert (H : StronglySorted earlier d).
  { apply (StronglySorted_map _ _ fst
             (fun a b => (primera_aparicion causa_eqb a causas
                          < primera_aparicion causa_eqb b causas)%nat)).
    apply contar_keys_order, causa_eqb_eq. }
  apply (sorted_stable _ (fun x : option string * Z => snd x) true) in H.
  revert H; apply StronglySorted_impl.
  intros a b [Hlt|[Heq He]]; [left|right; auto].
  unfold strictly_before in Hlt; now apply Z.ltb_lt in Hlt.
Qed.

Lemma tabla_nodup : NoDup (map fst s).
Proof.
  eapply Permutation_NoDup.
  - symmetry; apply Permutation_map, tabla_perm.
  - apply contar_keys, causa_eqb_eq.
Qed.

Lemma tabla_entry (c : option string) (n : Z) :
  In (c, n) s -> In c causas /\ n = apariciones causa_eqb c causas.
Proof.
  intros H.
  apply (Permutation_in _ tabla_perm) in H.
  destruct (contar_keys _ causa_eqb causa_eqb_eq causas) as [Hnd Hin].
  split.
  - apply Hin; change c with (fst (c, n)); now apply in_map.
  - rewrite <- (contar_valor _ causa_eqb causa_eqb_eq).
    symmetry; apply valor_In; auto using causa_eqb_eq.
Qed.

Lemma tabla_complete (c : option string) :
  In c causas -> In (c, apariciones causa_eqb c causas) s.
Proof.
  intros H.
  destruct (contar_keys _ causa_eqb causa_eqb_eq causas) as [Hnd Hin].
  apply Hin in H; apply in_map_iff in H.
  destruct H as ([c' n] & E & H); cbn in E; subst c'.
  assert (Hs : In (c, n) s)
    by (eapply Permutation_in; [symmetry; apply tabla_perm|exact H]).
  destruct (tabla_entry _ _ Hs) as [_ ->]; exact Hs.
Qed.

(** The first [k] rows of the sorted dictionary. *)
Lemma tabla_top (k : nat) :
  (List.length (firstn k s) <= k)%nat /\
  NoDup (map fst (firstn k s)) /\
  (forall c n, In (c, n) (firstn k s) ->
               In c causas /\ n = apariciones causa_eqb c causas) /\
  StronglySorted (antes_en_tabla causa_eqb causas) (firstn k s) /\
  (forall c, In c causas -> ~ In c (map fst (firstn k s)) ->
             List.length (firstn k s) = k /\
             forall e, In e (firstn k s) ->
                       antes_en_tabla causa_eqb causas e
                         (c, apariciones causa_eqb c causas)).
Proof.
  pose proof tabla_sorted as Hs.
  pose proof tabla_nodup as Hn.
  rewrite <- (firstn_skipn k s) in Hs, Hn.
  apply StronglySorted_app in Hs; destruct Hs as (Hs1 & _ & Hs12).
  rewrite map_app in Hn; apply NoDup_app_remove_r in Hn.
  split; [apply firstn_le_length|].
  split; [exact Hn|].
  split.
  { intros c n H; apply tabla_entry.
    rewrite <- (firstn_skipn k s); apply in_or_app; now left. }
  split; [exact Hs1|].
  intros c Hc Hnot.
  pose proof (tabla_complete _ Hc) as Hin.
  rewrite <- (firstn_skipn k s) in Hin.
  apply in_app_or in Hin; destruct Hin as [Hin|Hin].
  { exfalso; apply Hnot.
    change c with (fst (c, apariciones causa_eqb c causas)); now apply in_map. }
  split; [|intros e He; now apply Hs12].
  apply firstn_length_le.
  destruct (le_lt_dec k (List.length s)) as [Hle|Hlt]; [exact Hle|].
  rewrite skipn_all2 in Hin by lia; contradiction.
Qed.
End Table.

Lemma generar_reporte_estadistico_Some
    (parse_iso : string -> option datetime) (fallas : list falla)
    (inicio fin : option datetime) (r : reporte) :
  generar_reporte_estadistico parse_iso fallas inicio fin = Ok (Some r) ->
  total_fallas r = len (filtradas_de parse_iso fallas inicio fin) /\
  causas_raiz r
  = firstn 5 (sorted (fun x : option string * Z => snd x) true
                (contar causa_eqb
                   (map causa_de (filtradas_de parse_iso fallas inicio fin)))).
Proof.
  unfold generar_reporte_estadistico, filtradas_de.
  destruct fallas as [|x l]; [discriminate|].
  destruct inicio as [i|], fin as [e|];
    rewrite ?filtrar_periodo_filter; cbn [bind];
    try (destruct (filter (en_periodo parse_iso _ _) (x :: l));
         [discriminate|]);
    intros H; inversion H; subst; cbn; split; reflexivity.
Qed.

(** The shape of the root-cause table, over the keys under which the
    source groups the records ([causa_de]): at most 5 rows, one per key,
    each with the (positive) number of time-filtered records of that key;
    rows stand in descending count, and rows of equal count in the order in
    which their keys are first encountered in the time-filtered input; a
    key left out of the table is preceded, in that same order, by all five
    rows. *)
Lemma generar_reporte_estadistico_causas_raiz
    (parse_iso : string -> option datetime) (fallas : list falla)
    (inicio fin : option datetime) (r : reporte) :
  generar_reporte_estadistico parse_iso fallas inicio fin = Ok (Some r) ->
  let causas := map causa_de (filtradas_de parse_iso fallas inicio fin) in
  len (causas_raiz r) <= 5 /\
  NoDup (map fst (causas_raiz r)) /\
  (forall c n, In (c, n) (causas_raiz r) ->
               In c causas /\ n = apariciones causa_eqb c causas /\ 0 < n) /\
  StronglySorted (antes_en_tabla causa_eqb causas) (causas_raiz r) /\
  (forall c, In c causas -> ~ In c (map fst (causas_raiz r)) ->
             len (causas_raiz r) = 5 /\
             forall e, In e (causas_raiz r) ->
                       antes_en_tabla causa_eqb causas e
                         (c, apariciones causa_eqb c causas)).
Proof.
  intros H causas.
  apply generar_reporte_estadistico_Some in H; destruct H as [_ E].
  fold causas in E; rewrite E.
  destruct (tabla_top causas 5) as (H1 & H2 & H3 & H4 & H5).
  split; [unfold len; lia|].
  split; [exact H2|].
  split.
  { intros c n Hin; destruct (H3 c n Hin) as [Hc ->].
    split; [exact Hc|]. split; [reflexivity|].
    now apply (apariciones_pos _ causa_eqb causa_eqb_eq). }
  split; [exact H4|].
  intros c Hc Hn; destruct (H5 c Hc Hn) as [Hl He].
  split; [unfold len; lia|exact He].
Qed.

(** Seven causes, two of them recorded twice: the two frequent ones come
    first, then the first three of the others in input order. *)
Example generar_reporte_estadistico_siete_causas :
  exists r : reporte,
    generar_reporte_estadistico iso_parse fallas_siete_causas None None
    = Ok (Some r) /\
    causas_raiz r
    = [(Some "b", 2); (Some "f", 2); (Some "a", 1); (Some "c", 1);
       (Some "d", 1)]%string.
Proof. eexists; split; reflexivity. Qed.

(** [C7] Records without a root cause are not all counted under the
    sentinel.  Three failure dictionaries as [Falla.to_dict] renders them,
    two of them with no root cause ([causa_raiz] bound to [None]): the two
    are counted under the key [None] and the table has no 'No especificada'
    row, although the same report leaves a [None] downtime and a [None]
    cost out as absent.  Only when the key itself is missing do the same
    two records count under the sentinel. *)
Theorem generar_reporte_estadistico_null_causa_raiz_bucket :
  (exists r : reporte,
     generar_reporte_estadistico iso_parse fallas_causa_nula None None
     = Ok (Some r) /\
     total_fallas r = 3 /\
     causas_raiz r = [(None, 2); (Some "Desgaste"%string, 1)] /\
     valor causa_eqb (Some NO_ESPECIFICADA) (causas_raiz r) = 0 /\
     costo_total_reparaciones r = 0%Q) /\
  (exists r : reporte,
     generar_reporte_estadistico iso_parse fallas_causa_ausente None None
     = Ok (Some r) /\
     causas_raiz r = [(Some NO_ESPECIFICADA, 2); (Some "Desgaste"%string, 1)]).
Proof.
  split; eexists; (split; [reflexivity|]); repeat split.
Qed.

(** * Further properties of the calculator *)

(** ** The order of the failure records *)

Lemma filter_perm (A : Type) (h : A -> bool) (l l' : list A) :
  Permutation l l' -> Permutation (filter h l) (filter h l').
Proof.
  induction 1 as [|x l l' HP IH|x y l|l l' l'' H1 IH1 H2 IH2]; cbn [filter].
  - constructor.
  - destruct (h x); [now constructor|assumption].
  - destruct (h x), (h y); try reflexivity. apply perm_swap.
  - now transitivity (filter h l').
Qed.

Lemma mapM_perm (A B : Type) (g : A -> result B) (l l' : list A) :
  Permutation l l' ->
  forall ys, mapM g l = Ok ys ->
             exists ys', mapM g l' = Ok ys' /\ Permutation ys ys'.
Proof.
  induction 1 as [|x l l' HP IH|x y l|l l' l'' H1 IH1 H2 IH2]; intros ys H.
  - exists ys; split; [exact H|reflexivity].
  - cbn [mapM] in *.
    destruct (g x) as [b|]; cbn [bind] in *; [|discriminate].
    destruct (mapM g l) as [bs|]; cbn [bind] in *; [|discriminate].
    destruct (IH bs eq_refl) as (bs' & E & HP').
    inversion H; subst.
    exists (b :: bs'); rewrite E; split; [reflexivity|now constructor].
  - cbn [mapM] in *.
    destruct (g y) as [b|]; cbn [bind] in *; [|discriminate].
    destruct (g x) as [a|]; cbn [bind] in *; [|discriminate].
    destruct (mapM g l) as [bs|]; cbn [bind] in *; [|discriminate].
    inversion H; subst.
    exists (a :: b :: bs); split; [reflexivity|apply perm_swap].
  - destruct (IH1 ys H) as (ys' & E' & HP').
    destruct (IH2 ys' E') as (ys'' & E'' & HP'').
    exists ys''; split; [exact E''|now transitivity ys'].
Qed.

(** The MTBF, the two counts, the preventive compliance and the cost do
    not depend on the order in which the failure records are supplied: two
    arrangements of the same records, when both are answered, agree on
    them. *)
Theorem calcular_kpis_activo_order_independent
    (parse_iso : string -> option datetime) (fallas fallas' : list falla)
    (ots : option (list orden)) (now : string) (r r' : kpis) :
  Permutation fallas fallas' ->
  calcular_kpis_activo parse_iso fallas ots now = Ok r ->
  calcular_kpis_activo parse_iso fallas' ots now = Ok r' ->
  mtbf_horas r' = mtbf_horas r /\
  num_intervalos_mtbf r' = num_intervalos_mtbf r /\
  num_fallas r' = num_fallas r /\
  cumplimiento_preventivo r' = cumplimiento_preventivo r /\
  costo_total_mantenimiento r' = costo_total_mantenimiento r.
Proof.
  intros HP H H'.
  apply calcular_kpis_activo_Ok in H, H'.
  destruct H as (fechas & d & c & Hf & _ & Hc & ->).
  destruct H' as (fechas' & d' & c' & Hf' & _ & Hc' & ->).
  cbn [mtbf_horas num_intervalos_mtbf num_fallas cumplimiento_preventivo
       costo_total_mantenimiento].
  assert (HPt : Permutation (filter estado_terminal fallas)
                            (filter estado_terminal fallas'))
    by now apply filter_perm.
  unfold fechas_de in Hf, Hf'.
  destruct (mapM_perm _ _ _ _ _ (filter_perm _ _ _ _ HPt) _ Hf)
    as (fechas'' & Hf'' & HPf).
  rewrite Hf' in Hf''; inversion Hf''; subst fechas''.
  rewrite (calcular_mtbf_permutation _ _ HPf).
  split; [reflexivity|]. split; [reflexivity|].
  split; [unfold len; now rewrite (Permutation_length HPt)|].
  split; [congruence|reflexivity].
Qed.

Lemma calcular_kpis_activo_order_independent_witness :
  exists r r' : kpis,
    calcular_kpis_activo iso_parse fallas_escenario None ahora = Ok r /\
    calcular_kpis_activo iso_parse (rev fallas_escenario) None ahora = Ok r' /\
    mtbf_horas r' = mtbf_horas r /\ num_fallas r' = num_fallas r.
Proof.
  eexists; eexists; split; [reflexivity|]. split; [reflexivity|].
  destruct (calcular_kpis_activo_order_independent
              iso_parse fallas_escenario (rev fallas_escenario) None ahora _ _
              (Permutation_rev _) eq_refl eq_refl) as (H1 & _ & H3 & _).
  split; [exact H1|exact H3].
Defined.

(** The mean repair time is left out above: in binary64 arithmetic the
    sum, and with it the mean, depends on the order of the downtimes. *)
Example calcular_mttr_depends_on_order :
  exists a b : float,
    Binary64.calcular_mttr tiempos_decimales = Ok a /\
    Binary64.calcular_mttr (rev tiempos_decimales) = Ok b /\
    (b <? a)%float = true.
Proof. eexists; eexists; split; [reflexivity|]; split; reflexivity. Qed.

(** ** Intervals and failures *)

Lemma mapM_length (A B : Type) (g : A -> result B) (l : list A) (ys : list B) :
  mapM g l = Ok ys -> len ys = len l.
Proof.
  revert ys; induction l as [|x l IH]; cbn [mapM]; intros ys H.
  - now inversion H.
  - destruct (g x); cbn [bind] in H; [|discriminate].
    destruct (mapM g l); cbn [bind] in H; [|discriminate].
    inversion H; subst; rewrite !len_cons; f_equal; now apply IH.
Qed.

(** The number of MTBF intervals is one less than the number of finished
    failures that carry a report timestamp (0 when there is none), hence
    less than [num_fallas] unless both are 0; and with at most one finished
    failure the MTBF is 0.0 and the availability 1.0, whatever the
    downtime. *)
Theorem calcular_kpis_activo_intervalos
    (parse_iso : string -> option datetime) (fallas : list falla)
    (ots : option (list orden)) (now : string) (r : kpis) :
  calcular_kpis_activo parse_iso fallas ots now = Ok r ->
  num_intervalos_mtbf r
  = Z.max 0 (len (filter (fun f => has_key (f_fecha_reporte f))
                         (filter estado_terminal fallas)) - 1) /\
  num_intervalos_mtbf r <= Z.max 0 (num_fallas r - 1) /\
  (num_fallas r <= 1 ->
   mtbf_horas r = 0%Q /\ num_intervalos_mtbf r = 0 /\ disponibilidad r = 1%Q).
Proof.
  intros H.
  apply calcular_kpis_activo_Ok in H.
  destruct H as (fechas & d & c & Hf & Hd & _ & ->); cbn.
  pose proof (mapM_length _ _ _ _ _ Hf) as Hl.
  pose proof (filter_len_le _ (fun f => has_key (f_fecha_reporte f))
                (filter estado_terminal fallas)) as Hle.
  rewrite calcular_mtbf_snd, intervalos_length, Hl.
  split; [reflexivity|]. split; [lia|].
  intros H1.
  assert (Hs : len fechas < 2) by lia.
  rewrite (calcular_mtbf_short _ Hs) in *; cbn in Hd |- *.
  inversion Hd; repeat split; lia.
Qed.

Lemma calcular_kpis_activo_intervalos_witness :
  exists r : kpis,
    calcular_kpis_activo iso_parse fallas_completada None ahora = Ok r /\
    num_intervalos_mtbf r <= Z.max 0 (num_fallas r - 1) /\
    mtbf_horas r = 0%Q /\ num_intervalos_mtbf r = 0 /\ disponibilidad r = 1%Q.
Proof.
  eexists; split; [reflexivity|].
  destruct (calcular_kpis_activo_intervalos
              iso_parse fallas_completada None ahora _ eq_refl)
    as (_ & H1 & H2).
  split; [exact H1|]. apply H2; vm_compute; discriminate.
Defined.

(** ** The cost roll-up *)

Lemma or_zero_eq (x : Q) : (or_zero x == x)%Q.
Proof.
  unfold or_zero; destruct (Qeq_bool x 0) eqn:E; [|reflexivity].
  apply Qeq_bool_iff in E; now rewrite E.
Qed.

Lemma costo_de_total (ots : option (list orden)) :
  (costo_de ots == total (map costo_presente (ordenes_de ots)))%Q.
Proof.
  unfold costo_de, ordenes_de.
  destruct ots as [[|ot l]|]; try reflexivity.
  rewrite sum_total.
  induction (ot :: l) as [|x xs IH]; [reflexivity|].
  cbn [flat_map map]; rewrite total_app, total_cons, IH.
  unfold costo_presente.
  destruct (get (ot_costo_real x)); rewrite ?total_cons, ?total_nil.
  - rewrite or_zero_eq; lra.
  - lra.
Qed.

(** The reported maintenance cost is the sum, accumulated from left to
    right, of the actual costs the supplied orders carry, of whatever type
    and status, an order without one counting for nothing; it is not
    negative when no cost is. *)
Theorem calcular_kpis_activo_costo_total
    (parse_iso : string -> option datetime) (fallas : list falla)
    (ots : option (list orden)) (now : string) (r : kpis) :
  calcular_kpis_activo parse_iso fallas ots now = Ok r ->
  (costo_total_mantenimiento r
   == sum (map costo_presente (ordenes_de ots)))%Q /\
  (Forall (fun ot => 0 <= costo_presente ot)%Q (ordenes_de ots) ->
   (0 <= costo_total_mantenimiento r)%Q).
Proof.
  intros H.
  apply calcular_kpis_activo_Ok in H.
  destruct H as (fechas & d & c & _ & _ & _ & ->);
    cbn [costo_total_mantenimiento].
  split; [rewrite sum_total; apply costo_de_total|].
  intros Hnn; rewrite costo_de_total.
  apply total_nonneg.
  induction Hnn; cbn [map]; constructor; auto.
Qed.

Lemma calcular_kpis_activo_costo_total_witness :
  exists r : kpis,
    calcular_kpis_activo iso_parse fallas_escenario (Some ordenes_con_costo) ahora
    = Ok r /\
    (costo_total_mantenimiento r
     == sum (map costo_presente ordenes_con_costo))%Q /\
    (costo_total_mantenimiento r == 350)%Q.
Proof.
  eexists; split; [reflexivity|].
  destruct (calcular_kpis_activo_costo_total
              iso_parse fallas_escenario (Some ordenes_con_costo) ahora _ eq_refl)
    as (H & _).
  split; [exact H|reflexivity].
Defined.

(** ** Dates the compliance test does not read *)

Lemma completado_a_tiempo_salvo_fechas
    (parse_iso : string -> option datetime) (ot ot' : orden) :
  misma_salvo_fechas ot ot' -> es_preventivo ot = true ->
  completado_a_tiempo parse_iso ot = completado_a_tiempo parse_iso ot'.
Proof.
  intros (Ht & He & _ & Hd) Hp.
  unfold completado_a_tiempo; rewrite <- He.
  unfold preventivo_completado in Hd; rewrite Hp in Hd; cbn [andb] in Hd.
  destruct (in_strings (get (ot_estado ot)) ESTADOS_COMPLETADA);
    [|reflexivity].
  destruct (Hd eq_refl) as [<- <-]; reflexivity.
Qed.

Lemma cumplimiento_de_salvo_fechas
    (parse_iso : string -> option datetime) (l l' : list orden) :
  Forall2 misma_salvo_fechas l l' ->
  cumplimiento_de parse_iso (Some l) = cumplimiento_de parse_iso (Some l').
Proof.
  intros H.
  assert (E : countM (completado_a_tiempo parse_iso) (filter es_preventivo l)
              = countM (completado_a_tiempo parse_iso) (filter es_preventivo l')
              /\ len (filter es_preventivo l) = len (filter es_preventivo l')).
  { induction H as [|x y l l' Hxy Hl [IH1 IH2]]; [split; reflexivity|].
    cbn [filter].
    assert (Ep : es_preventivo y = es_preventivo x)
      by (unfold es_preventivo; destruct Hxy as (-> & _); reflexivity).
    rewrite Ep; destruct (es_preventivo x) eqn:Hp; [|split; assumption].
    cbn [countM]; rewrite !len_cons, IH1, IH2.
    now rewrite (completado_a_tiempo_salvo_fechas parse_iso x y Hxy Hp). }
  destruct E as [E1 E2].
  unfold cumplimiento_de.
  destruct H as [|x y l l' Hxy Hl]; [reflexivity|].
  rewrite E1, E2.
  destruct (filter es_preventivo (x :: l)) eqn:Fx,
           (filter es_preventivo (y :: l')) eqn:Fy;
    try reflexivity; unfold len in E2; cbn in E2; lia.
Qed.

Lemma costo_de_salvo_fechas (l l' : list orden) :
  Forall2 misma_salvo_fechas l l' -> costo_de (Some l) = costo_de (Some l').
Proof.
  intros H; unfold costo_de.
  assert (E : flat_map (fun ot => match get (ot_costo_real ot) with
                                  | Some c => [or_zero c]
                                  | None => []
                                  end) l
              = flat_map (fun ot => match get (ot_costo_real ot) with
                                    | Some c => [or_zero c]
                                    | None => []
                                    end) l').
  { induction H as [|x y l l' (_ & _ & Hc & _) Hl IH]; [reflexivity|].
    cbn [flat_map]; now rewrite Hc, IH. }
  destruct H; [reflexivity|]. now rewrite E.
Qed.

(** The finish and scheduled dates of an order are read only when the
    order is preventive and completed: changing the dates of any other
    order, even to strings that are not dates, changes neither the result
    nor whether the call returns. *)
Theorem calcular_kpis_activo_unread_dates
    (parse_iso : string -> option datetime) (fallas : list falla)
    (ordenes ordenes' : list orden) (now : string) :
  Forall2 misma_salvo_fechas ordenes ordenes' ->
  calcular_kpis_activo parse_iso fallas (Some ordenes) now
  = calcular_kpis_activo parse_iso fallas (Some ordenes') now.
Proof.
  intros H; unfold calcular_kpis_activo.
  now rewrite (cumplimiento_de_salvo_fechas parse_iso _ _ H),
              (costo_de_salvo_fechas _ _ H).
Qed.

Lemma calcular_kpis_activo_unread_dates_witness :
  calcular_kpis_activo iso_parse fallas_escenario
    (Some ordenes_fechas_ilegibles) ahora
  = calcular_kpis_activo iso_parse fallas_escenario
      (Some ordenes_fechas_legibles) ahora.
Proof.
  apply calcular_kpis_activo_unread_dates.
  unfold ordenes_fechas_ilegibles, ordenes_fechas_legibles.
  apply Forall2_cons; [|apply Forall2_cons; [|apply Forall2_nil]];
    (split; [reflexivity|]; split; [reflexivity|]; split; [reflexivity|]);
    intros H; vm_compute in H; discriminate H.
Defined.

(** ** Which exception *)

Lemma mapM_app_raise (A B : Type) (g : A -> result B)
    (l1 l2 : list A) (m : A) (e : exc) :
  (forall x, In x l1 -> exists y, g x = Ok y) -> g m = Raise e ->
  mapM g (l1 ++ m :: l2) = Raise e.
Proof.
  induction l1 as [|x l1 IH]; cbn [app mapM]; intros Hok Hm.
  - now rewrite Hm.
  - destruct (Hok x (or_introl eq_refl)) as [y ->]; cbn [bind].
    rewrite IH by (intros; try apply Hok; auto; now right).
    reflexivity.
Qed.

(** The first finished failure whose report timestamp cannot be read
    decides how the call fails: [TypeError] when the key is bound to
    [None], [ValueError] when it is bound to a string that is not a
    timestamp; the records after it are not looked at. *)
Theorem calcular_kpis_activo_first_unreadable
    (parse_iso : string -> option datetime) (fallas : list falla)
    (ots : option (list orden)) (now : string)
    (buenas resto : list falla) (mala : falla) :
  filter (fun f => has_key (f_fecha_reporte f)) (filter estado_terminal fallas)
  = buenas ++ mala :: resto ->
  forallb (falla_legible parse_iso) buenas = true ->
  falla_legible parse_iso mala = false ->
  calcular_kpis_activo parse_iso fallas ots now
  = Raise (excepcion_de (f_fecha_reporte mala)).
Proof.
  intros E Hb Hm.
  unfold calcular_kpis_activo, fechas_de.
  rewrite filter_es_resuelta, E.
  rewrite (mapM_app_raise _ _ _ buenas resto mala
             (excepcion_de (f_fecha_reporte mala))); [reflexivity| |].
  - intros x Hx.
    assert (Hk : has_key (f_fecha_reporte x) = true).
    { assert (Hin : In x (buenas ++ mala :: resto))
        by (apply in_or_app; now left).
      rewrite <- E in Hin; now apply filter_In in Hin. }
    rewrite forallb_forall in Hb; specialize (Hb x Hx).
    unfold falla_legible in Hb.
    destruct (f_fecha_reporte x) as [| |s]; try discriminate.
    cbn. destruct (parse_iso s); [eauto|discriminate].
  - unfold falla_legible in Hm.
    destruct (f_fecha_reporte mala) as [| |s]; try discriminate; cbn.
    + reflexivity.
    + destruct (parse_iso s); [discriminate|reflexivity].
Qed.

Lemma calcular_kpis_activo_first_unreadable_witness :
  calcular_kpis_activo iso_parse fallas_fecha_nula None ahora = Raise TypeError.
Proof.
  apply (calcular_kpis_activo_first_unreadable
           iso_parse fallas_fecha_nula None ahora
           [falla_de "Resuelta" "2024-01-01T00:00:00" 2]
           [falla_de "Resuelta" "not-a-date" 1]
           (falla_con_fecha PyNone)); reflexivity.
Defined.

(** ** The counts of the root-cause table *)

Lemma suma_app (l1 l2 : list Z) : suma (l1 ++ l2) = suma l1 + suma l2.
Proof.
  unfold suma; induction l1 as [|x l1 IH]; cbn [app fold_right]; lia.
Qed.

Lemma suma_perm (l l' : list Z) : Permutation l l' -> suma l = suma l'.
Proof.
  unfold suma.
  induction 1 as [|x l l' HP IH|x y l|l l' l'' H1 IH1 H2 IH2];
    cbn [fold_right]; lia.
Qed.

Lemma suma_nonneg (l : list Z) : Forall (fun n => 0 <= n) l -> 0 <= suma l.
Proof. unfold suma; induction 1; cbn [fold_right]; lia. Qed.

Lemma suma_incrementar (K : Type) (eqb : K -> K -> bool) (x : K)
    (d : list (K * Z)) :
  suma (map snd (incrementar eqb x d)) = suma (map snd d) + 1.
Proof.
  unfold suma; induction d as [|[k n] d IH]; cbn [incrementar map snd fold_right].
  - lia.
  - destruct (eqb k x); cbn [map snd fold_right]; lia.
Qed.

Lemma suma_contar (K : Type) (eqb : K -> K -> bool) (l : list K) :
  suma (map snd (contar eqb l)) = len l.
Proof.
  induction l as [|x l IH] using rev_ind; [reflexivity|].
  unfold contar in *; rewrite fold_left_app; cbn [fold_left].
  rewrite suma_incrementar, IH, len_app; unfold len; cbn; lia.
Qed.

(** The counts of the root-cause table never add up to more than
    [total_fallas], and add up to exactly that when no cause of the
    time-filtered records is left out of the table. *)
Theorem generar_reporte_estadistico_table_counts
    (parse_iso : string -> option datetime) (fallas : list falla)
    (inicio fin : option datetime) (r : reporte) :
  generar_reporte_estadistico parse_iso fallas inicio fin = Ok (Some r) ->
  suma (map snd (causas_raiz r)) <= total_fallas r /\
  ((forall c,
      In c (map causa_de (filtradas_de parse_iso fallas inicio fin)) ->
      In c (map fst (causas_raiz r))) ->
   suma (map snd (causas_raiz r)) = total_fallas r).
Proof.
  intros H.
  apply generar_reporte_estadistico_Some in H; destruct H as [Et Ec].
  set (causas := map causa_de (filtradas_de parse_iso fallas inicio fin)) in *.
  set (s := sorted (fun x : option string * Z => snd x) true
              (contar causa_eqb causas)) in *.
  assert (Hs : suma (map snd s) = total_fallas r).
  { unfold s.
    rewrite (suma_perm _ _ (Permutation_map snd (tabla_perm causas))).
    rewrite suma_contar, Et; unfold causas; now rewrite len_map. }
  assert (Hsplit : suma (map snd s)
                   = suma (map snd (firstn 5 s)) + suma (map snd (skipn 5 s))).
  { now rewrite <- suma_app, <- map_app, firstn_skipn. }
  assert (Hrest : 0 <= suma (map snd (skipn 5 s))).
  { apply suma_nonneg, Forall_forall; intros n Hn.
    apply in_map_iff in Hn; destruct Hn as ([c m] & <- & Hin); cbn [snd].
    assert (Hin' : In (c, m) s)
      by (rewrite <- (firstn_skipn 5 s); apply in_or_app; now right).
    destruct (tabla_entry causas c m Hin') as [Hc ->].
    pose proof (apariciones_pos _ causa_eqb causa_eqb_eq c causas Hc); lia. }
  rewrite Ec; split; [lia|].
  intros Hall.
  assert (Hnil : skipn 5 s = []).
  { destruct (skipn 5 s) as [|[c m] rest] eqn:Es; [reflexivity|exfalso].
    pose proof (tabla_nodup causas) as Hnd; fold s in Hnd.
    rewrite <- (firstn_skipn 5 s), Es, map_app in Hnd.
    cbn [map fst] in Hnd.
    assert (Hin : In (c, m) s)
      by (rewrite <- (firstn_skipn 5 s), Es; apply in_or_app; right; now left).
    destruct (tabla_entry causas c m Hin) as [Hc _].
    specialize (Hall c Hc).
    apply NoDup_remove_2 in Hnd; apply Hnd.
    apply in_or_app; now left. }
  rewrite Hnil in Hsplit.
  change (suma (map snd (@nil (option string * Z)))) with 0 in Hsplit; lia.
Qed.

Lemma generar_reporte_estadistico_table_counts_witness :
  exists r : reporte,
    generar_reporte_estadistico iso_parse fallas_siete_causas None None
    = Ok (Some r) /\
    suma (map snd (causas_raiz r)) <= total_fallas r /\
    suma (map snd (causas_raiz r)) = 7 /\ total_fallas r = 9.
Proof.
  eexists; split; [reflexivity|].
  destruct (generar_reporte_estadistico_table_counts
              iso_parse fallas_siete_causas None None _ eq_refl) as [H _].
  split; [exact H|split; reflexivity].
Defined.

(** ** Nested periods *)

Lemma filter_idem (A : Type) (h : A -> bool) (l : list A) :
  filter h (filter h l) = filter h l.
Proof.
  induction l as [|x l IH]; [reflexivity|].
  cbn [filter]; destruct (h x) eqn:E; [|exact IH].
  cbn [filter]; now rewrite E, IH.
Qed.

Lemma generar_reporte_estadistico_same_period_records
    (parse_iso : string -> option datetime) (l1 l2 : list falla)
    (inicio fin : option datetime) :
  inicio <> None \/ fin <> None ->
  filter (en_periodo parse_iso inicio fin) l1
  = filter (en_periodo parse_iso inicio fin) l2 ->
  generar_reporte_estadistico parse_iso l1 inicio fin
  = generar_reporte_estadistico parse_iso l2 inicio fin.
Proof.
  intros Hb E.
  unfold generar_reporte_estadistico.
  destruct inicio as [i|], fin as [e|]; try (destruct Hb; congruence);
    destruct l1 as [|x1 l1], l2 as [|x2 l2]; try reflexivity;
    rewrite ?filtrar_periodo_filter;
    first [rewrite <- E | rewrite E]; reflexivity.
Qed.

Lemma en_periodo_wider (parse_iso : string -> option datetime)
    (inicio fin inicio' fin' : option datetime) (x : falla) :
  inicio_mas_amplio inicio inicio' -> fin_mas_amplio fin fin' ->
  en_periodo parse_iso inicio' fin' x = true ->
  en_periodo parse_iso inicio fin x = true.
Proof.
  intros Hi Hf; rewrite !en_periodo_iff.
  intros (s & t & Es & Ep & Hlo & Hhi).
  exists s, t; repeat (split; [assumption|]); split.
  - intros i ->; destruct inicio' as [i'|]; cbn in Hi; [|contradiction].
    specialize (Hlo i' eq_refl); lia.
  - intros e ->; destruct fin' as [e'|]; cbn in Hf; [|contradiction].
    specialize (Hhi e' eq_refl); lia.
Qed.

(** Reporting on a period out of records already narrowed to a period that
    contains it gives the report of the original records: period filters
    compose, and filtering twice by the same period changes nothing. *)
Theorem generar_reporte_estadistico_nested_periods
    (parse_iso : string -> option datetime) (fallas : list falla)
    (inicio fin inicio' fin' : option datetime) :
  inicio_mas_amplio inicio inicio' -> fin_mas_amplio fin fin' ->
  generar_reporte_estadistico parse_iso
    (filtradas_de parse_iso fallas inicio fin) inicio' fin'
  = generar_reporte_estadistico parse_iso fallas inicio' fin'.
Proof.
  intros Hi Hf.
  destruct inicio as [i|] eqn:Ei, fin as [e|] eqn:Ee;
    try reflexivity; rewrite <- Ei, <- Ee in *; unfold filtradas_de;
    (replace (match inicio with
              | Some _ => filter (en_periodo parse_iso inicio fin) fallas
              | None =>
                  match fin with
                  | Some _ => filter (en_periodo parse_iso inicio fin) fallas
                  | None => fallas
                  end
              end) with (filter (en_periodo parse_iso inicio fin) fallas)
       by (subst; reflexivity));
    (apply generar_reporte_estadistico_same_period_records;
     [subst; destruct inicio', fin'; cbn in Hi, Hf;
      try contradiction; try (left; discriminate); right; discriminate|]);
    (induction fallas as [|x l IH]; [reflexivity|]; cbn [filter];
     destruct (en_periodo parse_iso inicio fin x) eqn:E1; cbn [filter];
     [now rewrite IH|];
     destruct (en_periodo parse_iso inicio' fin' x) eqn:E2; [|exact IH];
     rewrite (en_periodo_wider parse_iso _ _ _ _ x Hi Hf E2) in E1;
     discriminate).
Qed.

Lemma generar_reporte_estadistico_nested_periods_witness :
  generar_reporte_estadistico iso_parse
    (filtradas_de iso_parse fallas_escenario (Some t_2024_01_01) None)
    (Some t_2024_01_03) (Some t_2024_01_10)
  = generar_reporte_estadistico iso_parse fallas_escenario
      (Some t_2024_01_03) (Some t_2024_01_10).
Proof.
  apply generar_reporte_estadistico_nested_periods;
    [vm_compute; discriminate|exact I].
Defined.

(** * The failure record *)

Lemma EstadoFalla_of_value (e : EstadoFalla) :
  EstadoFalla_of (EstadoFalla_value e) = Ok e.
Proof. destruct e; reflexivity. Qed.

Lemma EstadoFalla_of_Ok (s : string) (e : EstadoFalla) :
  EstadoFalla_of s = Ok e -> EstadoFalla_value e = s.
Proof.
  unfold EstadoFalla_of.
  repeat match goal with
         | |- context [String.eqb s ?v] =>
             destruct (String.eqb_spec s v) as [->|_];
             [intros H; inversion H; reflexivity|]
         end.
  discriminate.
Qed.

Lemma EstadoFalla_of_valid (s : string) :
  existsb (String.eqb s) ESTADO_FALLA = true <->
  exists e, EstadoFalla_of s = Ok e.
Proof.
  split.
  - unfold ESTADO_FALLA; cbn [existsb]; intros H.
    repeat (apply orb_prop in H; destruct H as [H|H];
            [apply String.eqb_eq in H; subst; eexists; reflexivity|]).
    discriminate.
  - intros [e He]; apply EstadoFalla_of_Ok in He; subst s.
    destruct e; reflexivity.
Qed.

Lemma EstadoFalla_of_invalid (s : string) :
  existsb (String.eqb s) ESTADO_FALLA = false ->
  EstadoFalla_of s = Raise ValueError.
Proof.
  intros H.
  destruct (EstadoFalla_of s) as [e|x] eqn:E.
  - assert (existsb (String.eqb s) ESTADO_FALLA = true)
      by (apply EstadoFalla_of_valid; eauto).
    congruence.
  - revert E; unfold EstadoFalla_of.
    repeat match goal with
           | |- context [String.eqb s ?v] => destruct (String.eqb s v)
           end; congruence.
Qed.

(** [from_dict] undoes [to_dict]; and a failure built by [from_dict]
    converts back to a dictionary that binds every key of the original to
    the value it had, the original having no key that is not a field; for
    each key the original lacked the failure has the default of the
    dataclass: status REPORTADA, downtime 0.0, no action, priority 3, and
    [None] for the closing date, the root cause, the cost and the
    technician. *)
Theorem Falla_from_dict_to_dict :
  (forall o : Falla.t, Falla.from_dict (Falla.to_dict o) = Ok o) /\
  (forall (d : Falla.dict) (o : Falla.t),
     Falla.from_dict d = Ok o ->
     falla_dict_le d (Falla.to_dict o) /\ Falla.k_otras d = [] /\
     (Falla.k_estado d = Missing -> Falla.estado o = REPORTADA) /\
     (Falla.k_tiempo_fuera_servicio_h d = Missing ->
      Falla.tiempo_fuera_servicio_h o = 0%Q) /\
     (Falla.k_acciones_tomadas d = Missing ->
      Falla.acciones_tomadas o = EmptyString) /\
     (Falla.k_prioridad d = Missing -> Falla.prioridad o = 3) /\
     (Falla.k_fecha_cierre d = Absent -> Falla.fecha_cierre o = None) /\
     (Falla.k_causa_raiz d = Absent -> Falla.causa_raiz o = None) /\
     (Falla.k_costo_reparacion d = Absent -> Falla.costo_reparacion o = None) /\
     (Falla.k_asignado_a d = Absent -> Falla.asignado_a o = None)).
Proof.
  split.
  - intros o; unfold Falla.from_dict, Falla.to_dict; cbn.
    rewrite EstadoFalla_of_value; cbn.
    destruct o as [? ? ? ? ? fc ? ? cr ? co ? aa].
    destruct fc, cr, co, aa; reflexivity.
  - intros d o; unfold Falla.from_dict, Falla.construir.
    destruct d as [fid aid fr fc de es tf cr at_ co pr rp aa otras]; cbn.
    assert (He : forall e,
               match es with
               | Missing => Ok REPORTADA
               | Given s => EstadoFalla_of s
               end = Ok e ->
               req_le es (Given (EstadoFalla_value e)) /\
               (es = Missing -> e = REPORTADA)).
    { intros e; destruct es as [|s]; cbn.
      - intros H; inversion H; auto.
      - intros H; apply EstadoFalla_of_Ok in H; subst; split;
          [reflexivity|discriminate]. }
    destruct (match es with
              | Missing => Ok REPORTADA
              | Given s => EstadoFalla_of s
              end) as [e|]; cbn; [|discriminate].
    destruct (He e eq_refl) as [He1 He2].
    destruct otras; [|discriminate].
    destruct fid, aid, fr, de, rp; try discriminate.
    intros H; inversion H; subst; clear H.
    unfold falla_dict_le; cbn.
    destruct fc, tf, cr, at_, co, pr, aa; cbn;
      repeat split; auto; discriminate.
Qed.

Lemma Falla_from_dict_to_dict_witness :
  exists o : Falla.t,
    Falla.from_dict falla_minima = Ok o /\
    falla_dict_le falla_minima (Falla.to_dict o) /\
    Falla.estado o = REPORTADA /\ Falla.prioridad o = 3 /\
    Falla.tiempo_fuera_servicio_h o = 0%Q /\ Falla.causa_raiz o = None.
Proof.
  eexists; split; [reflexivity|].
  destruct Falla_from_dict_to_dict as [_ H].
  destruct (H falla_minima _ eq_refl)
    as (Hle & _ & He & Ht & _ & Hp & _ & Hc & _).
  split; [exact Hle|].
  split; [exact (He eq_refl)|]. split; [exact (Hp eq_refl)|].
  split; [exact (Ht eq_refl)|exact (Hc eq_refl)].
Defined.

Lemma Falla_from_dict_cases (d : Falla.dict) :
  (estado_valido d = false /\ Falla.from_dict d = Raise ValueError) \/
  (estado_valido d = true /\
   (Falla.k_otras d <> [] \/ falta_requerida d = true) /\
   Falla.from_dict d = Raise TypeError) \/
  (estado_valido d = true /\ Falla.k_otras d = [] /\
   falta_requerida d = false /\ exists o, Falla.from_dict d = Ok o).
Proof.
  unfold Falla.from_dict, estado_valido.
  destruct (match Falla.k_estado d with
            | Given s => existsb (String.eqb s) ESTADO_FALLA
            | Missing => true
            end) eqn:Ev.
  - assert (He : exists e,
               match Falla.k_estado d with
               | Given s => EstadoFalla_of s
               | Missing => Ok REPORTADA
               end = Ok e).
    { destruct (Falla.k_estado d); [eauto|now apply EstadoFalla_of_valid]. }
    destruct He as [e ->]; cbn [bind].
    right; unfold Falla.construir, falta_requerida.
    destruct (Falla.k_otras d) as [|k ks].
    + destruct (Falla.k_falla_id d), (Falla.k_activo_id d),
        (Falla.k_fecha_reporte d), (Falla.k_descripcion d),
        (Falla.k_reportada_por d);
        solve [left; auto | right; repeat split; eauto].
    + left; split; [reflexivity|]. split; [left; discriminate|reflexivity].
  - left; split; [reflexivity|].
    destruct (Falla.k_estado d) as [|s]; [discriminate|].
    now rewrite (EstadoFalla_of_invalid _ Ev).
Qed.

(** [from_dict] fails with [ValueError] exactly when the dictionary has a
    status that is no value of [EstadoFalla], and with [TypeError] exactly
    when the status is acceptable and the dictionary has a key that is no
    field or lacks a key without default; otherwise it returns.  A row of
    the table [fallas], which carries two more columns, is thus refused. *)
Theorem Falla_from_dict_errors (d : Falla.dict) :
  (Falla.from_dict d = Raise ValueError <-> estado_valido d = false) /\
  (Falla.from_dict d = Raise TypeError <->
   estado_valido d = true /\
   (Falla.k_otras d <> [] \/ falta_requerida d = true)) /\
  ((exists o, Falla.from_dict d = Ok o) <->
   estado_valido d = true /\ Falla.k_otras d = [] /\
   falta_requerida d = false).
Proof.
  destruct (Falla_from_dict_cases d)
    as [[Hv E]|[(Hv & Hk & E)|(Hv & Hk & Hr & [o E])]]; rewrite E.
  - split; [split; auto|].
    split; [split; [discriminate|intros [H _]; congruence]|].
    split; [intros [? ?]; discriminate|intros (H & _); congruence].
  - split; [split; [discriminate|congruence]|].
    split; [split; auto|].
    split; [intros [? ?]; discriminate|].
    intros (_ & H1 & H2); destruct Hk; congruence.
  - split; [split; [discriminate|congruence]|].
    split; [split; [discriminate|intros [_ [H|H]]; congruence]|].
    split; eauto.
Qed.

Lemma Falla_from_dict_errors_witness :
  Falla.from_dict fila_fallas = Raise TypeError.
Proof.
  apply (Falla_from_dict_errors fila_fallas).
  split; [reflexivity|left; discriminate].
Defined.

(** ** Failures as the calculator sees them *)

Lemma estado_terminal_vista (o : Falla.t) :
  estado_terminal (Falla.vista (Falla.to_dict o))
  = estado_cerrado (Falla.estado o).
Proof. destruct o as [? ? ? ? ? ? e]; destruct e; reflexivity. Qed.

Lemma filter_fallas_de (objetos : list Falla.t) :
  filter estado_terminal (fallas_de objetos)
  = fallas_de (filter (fun o => estado_cerrado (Falla.estado o)) objetos).
Proof.
  unfold fallas_de; induction objetos as [|o l IH]; [reflexivity|].
  cbn [map filter]; rewrite estado_terminal_vista.
  destruct (estado_cerrado (Falla.estado o)); cbn [map]; now rewrite IH.
Qed.

Lemma tiempos_de_fallas_de (objetos : list Falla.t) :
  tiempos_de (fallas_de objetos)
  = map Falla.tiempo_fuera_servicio_h objetos.
Proof.
  unfold fallas_de, tiempos_de.
  induction objetos as [|o l IH]; [reflexivity|].
  cbn [map flat_map]; rewrite IH; reflexivity.
Qed.

Lemma has_key_fallas_de (objetos : list Falla.t) :
  filter (fun f => has_key (f_fecha_reporte f)) (fallas_de objetos)
  = fallas_de objetos.
Proof.
  unfold fallas_de; induction objetos as [|o l IH]; [reflexivity|].
  cbn [map filter]; cbn [Falla.vista Falla.to_dict f_fecha_reporte
                          Falla.k_fecha_reporte req_slot has_key].
  now rewrite IH.
Qed.

(** On the dictionaries [to_dict] makes of a list of failures, the
    calculator counts exactly the failures whose status is RESUELTA or
    CERRADA, averages the downtime of every one of them, and uses one
    interval less than it counts failures. *)
Theorem calcular_kpis_activo_of_objects
    (parse_iso : string -> option datetime) (objetos : list Falla.t)
    (ots : option (list orden)) (now : string) (r : kpis) :
  calcular_kpis_activo parse_iso (fallas_de objetos) ots now = Ok r ->
  num_fallas r
  = len (filter (fun o => estado_cerrado (Falla.estado o)) objetos) /\
  mttr_horas r
  = calcular_mttr
      (map Falla.tiempo_fuera_servicio_h
           (filter (fun o => estado_cerrado (Falla.estado o)) objetos)) /\
  num_intervalos_mtbf r = Z.max 0 (num_fallas r - 1).
Proof.
  intros H.
  apply calcular_kpis_activo_Ok in H.
  destruct H as (fechas & d & c & Hf & _ & _ & ->); cbn.
  rewrite filter_fallas_de in *.
  rewrite tiempos_de_fallas_de.
  unfold fechas_de in Hf; rewrite has_key_fallas_de in Hf.
  apply mapM_length in Hf.
  rewrite calcular_mtbf_snd, intervalos_length, Hf.
  unfold fallas_de; rewrite !len_map; repeat split.
Qed.

Lemma calcular_kpis_activo_of_objects_witness :
  exists r : kpis,
    calcular_kpis_activo iso_parse (fallas_de tres_fallas) None ahora = Ok r /\
    num_fallas r = 2 /\ num_intervalos_mtbf r = Z.max 0 (num_fallas r - 1).
Proof.
  eexists; split; [reflexivity|].
  destruct (calcular_kpis_activo_of_objects
              iso_parse tres_fallas None ahora _ eq_refl) as (H1 & _ & H3).
  split; [exact H1|exact H3].
Defined.

Lemma causa_de_vista (o : Falla.t) :
  causa_de (Falla.vista (Falla.to_dict o)) = Falla.causa_raiz o.
Proof. destruct o as [? ? ? ? ? ? ? ? cr]; destruct cr; reflexivity. Qed.

Lemma filtradas_de_fallas_de
    (parse_iso : string -> option datetime) (objetos : list Falla.t)
    (inicio fin : option datetime) :
  filtradas_de parse_iso (fallas_de objetos) inicio fin
  = fallas_de (objetos_filtrados parse_iso objetos inicio fin).
Proof.
  unfold filtradas_de, objetos_filtrados, fallas_de.
  destruct inicio, fin; try reflexivity;
    induction objetos as [|o l IH]; try reflexivity;
    cbn [map filter];
    destruct (en_periodo parse_iso _ _ (Falla.vista (Falla.to_dict o)));
    cbn [map]; now rewrite IH.
Qed.

(** On the dictionaries [to_dict] makes, the root-cause table is keyed by
    the [causa_raiz] attribute itself: each row counts the failures of the
    period with that attribute, those without a root cause being counted
    under [None]; the sentinel 'No especificada' appears only if it is
    literally the root cause of some failure. *)
Theorem generar_reporte_estadistico_of_objects
    (parse_iso : string -> option datetime) (objetos : list Falla.t)
    (inicio fin : option datetime) (r : reporte) :
  generar_reporte_estadistico parse_iso (fallas_de objetos) inicio fin
  = Ok (Some r) ->
  let causas :=
    map Falla.causa_raiz (objetos_filtrados parse_iso objetos inicio fin) in
  (forall c n, In (c, n) (causas_raiz r) ->
               In c causas /\ n = apariciones causa_eqb c causas) /\
  (In (Some NO_ESPECIFICADA) (map fst (causas_raiz r)) ->
   exists o, In o objetos /\ Falla.causa_raiz o = Some NO_ESPECIFICADA).
Proof.
  intros H causas.
  apply generar_reporte_estadistico_Some in H; destruct H as [_ E].
  rewrite filtradas_de_fallas_de in E.
  assert (Ec : map causa_de
                 (fallas_de (objetos_filtrados parse_iso objetos inicio fin))
               = causas).
  { unfold fallas_de, causas; rewrite map_map.
    apply map_ext, causa_de_vista. }
  rewrite Ec in E.
  destruct (tabla_top causas 5) as (_ & _ & H3 & _).
  rewrite <- E in H3.
  split; [exact H3|].
  intros Hin; apply in_map_iff in Hin.
  destruct Hin as ([c n] & Hc & Hin); cbn in Hc; subst c.
  destruct (H3 _ _ Hin) as [Hcausas _].
  apply in_map_iff in Hcausas; destruct Hcausas as (o & Ho & Hino).
  exists o; split; [|exact Ho].
  unfold objetos_filtrados in Hino.
  destruct inicio, fin; try exact Hino; now apply filter_In in Hino.
Qed.

Lemma generar_reporte_estadistico_of_objects_witness :
  exists r : reporte,
    generar_reporte_estadistico iso_parse (fallas_de tres_fallas) None None
    = Ok (Some r) /\
    causas_raiz r = [(None, 2); (Some "Desgaste"%string, 1)] /\
    (forall c n, In (c, n) (causas_raiz r) ->
                 n = apariciones causa_eqb c (map Falla.causa_raiz tres_fallas)).
Proof.
  eexists; split; [reflexivity|]. split; [reflexivity|].
  destruct (generar_reporte_estadistico_of_objects
              iso_parse tres_fallas None None _ eq_refl) as [H _].
  intros c n Hin; now destruct (H c n Hin).
Defined.

(** ** The methods of a failure *)

Lemma aplicar_falla_fecha_cierre (self : Falla.t) (o : op_falla) :
  truthy_str (Falla.fecha_cierre self) = true \/ cierra o = false ->
  Falla.fecha_cierre (aplicar_falla self o) = Falla.fecha_cierre self.
Proof.
  destruct o as [e now|n|a]; cbn; try reflexivity.
  unfold Falla.actualizar_estado, falsy_str; cbn.
  intros [H|H].
  - rewrite H, andb_false_r; reflexivity.
  - destruct e; cbn in *; try discriminate; reflexivity.
Qed.

Lemma ejecutar_falla_truthy (ops : list op_falla) (self : Falla.t) :
  truthy_str (Falla.fecha_cierre self) = true ->
  Falla.fecha_cierre (ejecutar_falla self ops) = Falla.fecha_cierre self.
Proof.
  revert self; induction ops as [|o ops IH]; intros self H; [reflexivity|].
  cbn [ejecutar_falla fold_left].
  assert (E := aplicar_falla_fecha_cierre self o (or_introl H)).
  change (fold_left aplicar_falla ops (aplicar_falla self o))
    with (ejecutar_falla (aplicar_falla self o) ops).
  rewrite IH; [exact E|now rewrite E].
Qed.

Lemma ejecutar_falla_no_cierra (ops : list op_falla) (self : Falla.t) :
  forallb (fun o => negb (cierra o)) ops = true ->
  Falla.fecha_cierre (ejecutar_falla self ops) = Falla.fecha_cierre self.
Proof.
  revert self; induction ops as [|o ops IH]; intros self H; [reflexivity|].
  cbn [forallb] in H; apply andb_prop in H; destruct H as [Ho Hops].
  apply negb_true_iff in Ho.
  cbn [ejecutar_falla fold_left].
  change (fold_left aplicar_falla ops (aplicar_falla self o))
    with (ejecutar_falla (aplicar_falla self o) ops).
  rewrite IH by assumption.
  apply aplicar_falla_fecha_cierre; now right.
Qed.

(** Over any sequence of calls, the closing timestamp of a failure is the
    clock reading of the first call that moved it to RESUELTA or CERRADA:
    it stays as it was while no such call is made, is set by the first one
    and is never changed afterwards, not even by reopening the failure. *)
Theorem Falla_fecha_cierre_set_once :
  (forall (self : Falla.t) (ops : list op_falla),
     truthy_str (Falla.fecha_cierre self) = true ->
     Falla.fecha_cierre (ejecutar_falla self ops) = Falla.fecha_cierre self) /\
  (forall (self : Falla.t) (ops : list op_falla),
     forallb (fun o => negb (cierra o)) ops = true ->
     Falla.fecha_cierre (ejecutar_falla self ops) = Falla.fecha_cierre self) /\
  (forall (self : Falla.t) (antes despues : list op_falla)
          (e : EstadoFalla) (now_iso : string),
     truthy_str (Falla.fecha_cierre self) = false ->
     forallb (fun o => negb (cierra o)) antes = true ->
     estado_cerrado e = true -> now_iso <> EmptyString ->
     Falla.fecha_cierre
       (ejecutar_falla self (antes ++ ActualizarEstado e now_iso :: despues))
     = Some now_iso).
Proof.
  split; [intros; now apply ejecutar_falla_truthy|].
  split; [intros; now apply ejecutar_falla_no_cierra|].
  intros self antes despues e now Hf Ha He Hn.
  unfold ejecutar_falla; rewrite fold_left_app; cbn [fold_left].
  fold (ejecutar_falla self antes).
  set (self' := ejecutar_falla self antes).
  assert (Hf' : truthy_str (Falla.fecha_cierre self') = false)
    by (unfold self'; now rewrite ejecutar_falla_no_cierra).
  assert (E : Falla.fecha_cierre
                (aplicar_falla self' (ActualizarEstado e now)) = Some now).
  { cbn; unfold Falla.actualizar_estado, falsy_str; cbn.
    rewrite Hf'; destruct e; cbn in *; try discriminate; reflexivity. }
  fold (ejecutar_falla (aplicar_falla self' (ActualizarEstado e now)) despues).
  rewrite ejecutar_falla_truthy; [exact E|].
  rewrite E; cbn. apply negb_true_iff, String.eqb_neq; exact Hn.
Qed.

Lemma Falla_fecha_cierre_set_once_witness :
  Falla.fecha_cierre
    (ejecutar_falla falla_nueva
       ([AsignarTecnico "Ana"; ActualizarEstado EN_REPARACION "2024-01-01T08:00:00"]
        ++ ActualizarEstado RESUELTA "2024-01-02T10:00:00"
        :: [ActualizarEstado REPORTADA "2024-01-03T00:00:00";
            ActualizarEstado CERRADA "2024-01-04T00:00:00"]))
  = Some "2024-01-02T10:00:00"%string.
Proof.
  destruct Falla_fecha_cierre_set_once as (_ & _ & H).
  apply H; try reflexivity; discriminate.
Defined.

(** While [actualizar_estado] is not called, the status of a failure moves
    only from REPORTADA to EN_REVISION, at the first assignment of a
    technician; every other status is left as it is. *)
Theorem Falla_estado_without_actualizar
    (self : Falla.t) (ops : list op_falla) :
  forallb (fun o => negb (es_actualizar o)) ops = true ->
  Falla.estado (ejecutar_falla self ops)
  = if existsb es_asignar ops && EstadoFalla_eqb (Falla.estado self) REPORTADA
    then EN_REVISION else Falla.estado self.
Proof.
  revert self; induction ops as [|o ops IH]; intros self H; [reflexivity|].
  cbn [forallb] in H; apply andb_prop in H; destruct H as [Ho Hops].
  cbn [ejecutar_falla fold_left].
  change (fold_left aplicar_falla ops (aplicar_falla self o))
    with (ejecutar_falla (aplicar_falla self o) ops).
  rewrite IH by assumption.
  destruct o as [e now|n|a]; [discriminate| |]; cbn.
  - destruct (Falla.estado self); cbn; rewrite ?andb_false_r; reflexivity.
  - reflexivity.
Qed.

Lemma Falla_estado_without_actualizar_witness :
  Falla.estado
    (ejecutar_falla falla_nueva
       [RegistrarAccion "Inspección visual"; AsignarTecnico "Ana";
        AsignarTecnico "Luis"])
  = EN_REVISION.
Proof.
  exact (Falla_estado_without_actualizar falla_nueva
           [RegistrarAccion "Inspección visual"; AsignarTecnico "Ana";
            AsignarTecnico "Luis"] eq_refl).
Defined.

Lemma append_assoc (a b c : string) :
  ((a ++ b) ++ c)%string = (a ++ (b ++ c))%string.
Proof. induction a as [|x a IH]; cbn; [reflexivity|now rewrite IH]. Qed.

Lemma append_nonempty (a b : string) :
  a <> EmptyString -> (a ++ b)%string <> EmptyString.
Proof. destruct a; [congruence|discriminate]. Qed.

Lemma registrar_nonempty (acciones : list string) (s : string) :
  s <> EmptyString ->
  fold_left (fun log a =>
               if truthy_str (Some log) then (log ++ LF ++ a)%string else a)
            acciones s
  = String.concat LF (s :: acciones).
Proof.
  revert s; induction acciones as [|a l IH]; intros s Hs; [reflexivity|].
  cbn [fold_left].
  assert (Ht : truthy_str (Some s) = true)
    by (cbn; apply negb_true_iff, String.eqb_neq; exact Hs).
  rewrite Ht, IH by (now apply append_nonempty).
  destruct l as [|b l]; [reflexivity|].
  change (String.concat LF ((s ++ LF ++ a)%string :: b :: l))
    with (((s ++ LF ++ a) ++ LF ++ String.concat LF (b :: l))%string).
  change (String.concat LF (s :: a :: b :: l))
    with ((s ++ LF ++ (a ++ LF ++ String.concat LF (b :: l)))%string).
  now rewrite !append_assoc.
Qed.

Lemma registrar_empty (acciones : list string) :
  fold_left (fun log a =>
               if truthy_str (Some log) then (log ++ LF ++ a)%string else a)
            acciones EmptyString
  = bitacora acciones.
Proof.
  unfold bitacora.
  induction acciones as [|a l IH]; [reflexivity|].
  cbn [fold_left sin_vacias_iniciales].
  change (truthy_str (Some EmptyString)) with false; cbn iota.
  destruct (String.eqb_spec a EmptyString) as [->|Ha]; [exact IH|].
  now apply registrar_nonempty.
Qed.

Lemma ejecutar_falla_acciones (ops : list op_falla) (self : Falla.t) :
  Falla.acciones_tomadas (ejecutar_falla self ops)
  = fold_left (fun log a =>
                 if truthy_str (Some log) then (log ++ LF ++ a)%string else a)
              (acciones_de ops) (Falla.acciones_tomadas self).
Proof.
  revert self; induction ops as [|o ops IH]; intros self; [reflexivity|].
  cbn [ejecutar_falla fold_left acciones_de flat_map].
  change (fold_left aplicar_falla ops (aplicar_falla self o))
    with (ejecutar_falla (aplicar_falla self o) ops).
  rewrite IH, fold_left_app.
  destruct o as [e now|n|a]; cbn [aplicar_falla fold_left]; try reflexivity.
  unfold Falla.actualizar_estado; cbn.
  destruct (_ && _); reflexivity.
Qed.

(** The log of actions of a failure is the actions registered so far, one
    per line in the order of registration, whatever other calls were made
    in between; on a failure whose log is empty, empty actions registered
    before the first non-empty one leave no line. *)
Theorem Falla_acciones_tomadas_log (self : Falla.t) (ops : list op_falla) :
  (Falla.acciones_tomadas self = EmptyString ->
   Falla.acciones_tomadas (ejecutar_falla self ops)
   = bitacora (acciones_de ops)) /\
  (Falla.acciones_tomadas self <> EmptyString ->
   Falla.acciones_tomadas (ejecutar_falla self ops)
   = String.concat LF (Falla.acciones_tomadas self :: acciones_de ops)).
Proof.
  rewrite ejecutar_falla_acciones; split; intros H.
  - rewrite H; apply registrar_empty.
  - now apply registrar_nonempty.
Qed.

Lemma Falla_acciones_tomadas_log_witness :
  Falla.acciones_tomadas
    (ejecutar_falla falla_nueva
       [RegistrarAccion EmptyString; RegistrarAccion "Cierre de válvula";
        AsignarTecnico "Ana"; RegistrarAccion "Cambio de sello"])
  = String.concat LF ["Cierre de válvula"; "Cambio de sello"]%string.
Proof.
  exact (proj1 (Falla_acciones_tomadas_log falla_nueva
                  [RegistrarAccion EmptyString;
                   RegistrarAccion "Cierre de válvula";
                   AsignarTecnico "Ana"; RegistrarAccion "Cambio de sello"])
               eq_refl).
Defined.

(** * The work-order record *)

Lemma TipoOrden_of_value (x : TipoOrden) :
  TipoOrden_of (TipoOrden_value x) = Ok x.
Proof. destruct x; reflexivity. Qed.

Lemma EstadoOrden_of_value (e : EstadoOrden) :
  EstadoOrden_of (EstadoOrden_value e) = Ok e.
Proof. destruct e; reflexivity. Qed.

Lemma TipoOrden_of_Ok (s : string) (x : TipoOrden) :
  TipoOrden_of s = Ok x -> TipoOrden_value x = s.
Proof.
  unfold TipoOrden_of.
  repeat match goal with
         | |- context [String.eqb s ?v] =>
             destruct (String.eqb_spec s v) as [->|_];
             [intros H; inversion H; reflexivity|]
         end.
  discriminate.
Qed.

Lemma EstadoOrden_of_Ok (s : string) (e : EstadoOrden) :
  EstadoOrden_of s = Ok e -> EstadoOrden_value e = s.
Proof.
  unfold EstadoOrden_of.
  repeat match goal with
         | |- context [String.eqb s ?v] =>
             destruct (String.eqb_spec s v) as [->|_];
             [intros H; inversion H; reflexivity|]
         end.
  discriminate.
Qed.

(** [from_dict] undoes [to_dict]; a work order built by [from_dict] has the
    type and status whose values the dictionary held (PENDIENTE when it
    held no status), and an empty list of materials when the dictionary
    held none or [None]. *)
Theorem OrdenTrabajo_from_dict_to_dict :
  (forall o : OrdenTrabajo.t,
     OrdenTrabajo.from_dict (OrdenTrabajo.to_dict o) = Ok o) /\
  (forall (d : OrdenTrabajo.dict) (o : OrdenTrabajo.t),
     OrdenTrabajo.from_dict d = Ok o ->
     OrdenTrabajo.k_tipo d = Given (TipoOrden_value (OrdenTrabajo.tipo o)) /\
     req_le (OrdenTrabajo.k_estado d)
            (Given (EstadoOrden_value (OrdenTrabajo.estado o))) /\
     (OrdenTrabajo.k_estado d = Missing -> OrdenTrabajo.estado o = PENDIENTE) /\
     OrdenTrabajo.materiales o
     = match OrdenTrabajo.k_materiales d with
       | Val ms => ms
       | _ => []
       end /\
     OrdenTrabajo.k_otras d = []).
Proof.
  split.
  - intros o; unfold OrdenTrabajo.from_dict, OrdenTrabajo.to_dict; cbn.
    rewrite TipoOrden_of_value, EstadoOrden_of_value; cbn.
    destruct o as [? ? ? ? ? ? ? fi ff ? ? ? hr ? ? ce cr].
    destruct fi, ff, hr, ce, cr; reflexivity.
  - intros d o; unfold OrdenTrabajo.from_dict, OrdenTrabajo.construir.
    destruct d as [oid aid ti fc fp fi ff es de pr he hr te ma ob ce cr otras];
      cbn.
    destruct ti as [|st]; cbn.
    { destruct es as [|se]; cbn; [discriminate|].
      destruct (EstadoOrden_of se); cbn; discriminate. }
    destruct (TipoOrden_of st) as [x|] eqn:Et; cbn; [|discriminate].
    apply TipoOrden_of_Ok in Et; subst st.
    assert (He : forall e,
               match es with
               | Missing => Ok PENDIENTE
               | Given s => EstadoOrden_of s
               end = Ok e ->
               req_le es (Given (EstadoOrden_value e)) /\
               (es = Missing -> e = PENDIENTE)).
    { intros e; destruct es as [|s]; cbn.
      - intros H; inversion H; auto.
      - intros H; apply EstadoOrden_of_Ok in H; subst; split;
          [reflexivity|discriminate]. }
    destruct (match es with
              | Missing => Ok PENDIENTE
              | Given s => EstadoOrden_of s
              end) as [e|]; cbn; [|discriminate].
    destruct (He e eq_refl) as [He1 He2].
    destruct otras; [|discriminate].
    destruct oid, aid, fc, fp, de, te; try discriminate.
    intros H; inversion H; subst; clear H; cbn.
    repeat split; auto.
    destruct ma; reflexivity.
Qed.

Lemma OrdenTrabajo_from_dict_to_dict_witness :
  OrdenTrabajo.from_dict (OrdenTrabajo.to_dict orden_nueva) = Ok orden_nueva /\
  OrdenTrabajo.k_tipo (OrdenTrabajo.to_dict orden_nueva)
  = Given (TipoOrden_value (OrdenTrabajo.tipo orden_nueva)).
Proof.
  destruct OrdenTrabajo_from_dict_to_dict as [H1 H2].
  split; [apply H1|].
  now destruct (H2 (OrdenTrabajo.to_dict orden_nueva) orden_nueva (H1 _)).
Defined.

(** ** The life cycle of a work order *)

Lemma aplicar_orden_estado (self : OrdenTrabajo.t) (o : op_orden) :
  OrdenTrabajo.estado (aplicar_orden self o) = OrdenTrabajo.estado self \/
  estado_no_asignable (OrdenTrabajo.estado (aplicar_orden self o)) = false.
Proof.
  destruct self as [? ? ? ? ? ? ? fi ff e ? ? ? ? ? ce ?].
  destruct o as [now| | |obs h c now|n q u c]; cbn.
  - unfold OrdenTrabajo.iniciar_trabajo; cbn.
    destruct e; cbn; auto; destruct (falsy_str fi); cbn; auto.
  - unfold OrdenTrabajo.pausar_trabajo; cbn; destruct e; cbn; auto.
  - unfold OrdenTrabajo.reanudar_trabajo; cbn; destruct e; cbn; auto.
  - unfold OrdenTrabajo.completar_trabajo; cbn.
    destruct h, c; cbn; auto.
  - unfold OrdenTrabajo.agregar_material; cbn.
    destruct c; cbn; auto. destruct ce; cbn; auto.
Qed.

Lemma aplicar_orden_completada (self : OrdenTrabajo.t) (o : op_orden) :
  OrdenTrabajo.estado self = COMPLETADA ->
  OrdenTrabajo.estado (aplicar_orden self o) = COMPLETADA.
Proof.
  destruct self as [? ? ? ? ? ? ? fi ff e ? ? ? ? ? ce ?]; cbn; intros ->.
  destruct o as [now| | |obs h c now|n q u c]; cbn; try reflexivity.
  - unfold OrdenTrabajo.completar_trabajo; cbn; destruct h, c; reflexivity.
  - unfold OrdenTrabajo.agregar_material; cbn.
    destruct c; cbn; auto. destruct ce; cbn; auto.
Qed.

Lemma ejecutar_orden_snoc (self : OrdenTrabajo.t) (ops : list op_orden)
    (o : op_orden) :
  ejecutar_orden self (ops ++ [o]) = aplicar_orden (ejecutar_orden self ops) o.
Proof. unfold ejecutar_orden; now rewrite fold_left_app. Qed.

(** No method ever puts a work order in PENDIENTE, PROGRAMADA or CANCELADA:
    an order found in one of these after any sequence of calls has been in
    it all along.  COMPLETADA, once reached, is never left; but
    [completar_trabajo] completes an order from any status, a cancelled
    one included. *)
Theorem OrdenTrabajo_estado_reachable
    (self : OrdenTrabajo.t) (ops : list op_orden) :
  (estado_no_asignable (OrdenTrabajo.estado (ejecutar_orden self ops)) = true ->
   OrdenTrabajo.estado (ejecutar_orden self ops) = OrdenTrabajo.estado self) /\
  (OrdenTrabajo.estado self = COMPLETADA ->
   OrdenTrabajo.estado (ejecutar_orden self ops) = COMPLETADA) /\
  (forall obs h c now_iso,
     OrdenTrabajo.estado
       (ejecutar_orden self (ops ++ [Completar obs h c now_iso]))
     = COMPLETADA).
Proof.
  split; [|split].
  - induction ops as [|o ops IH] using rev_ind; [reflexivity|].
    rewrite ejecutar_orden_snoc; intros H.
    destruct (aplicar_orden_estado (ejecutar_orden self ops) o) as [E|E];
      [|congruence].
    rewrite E in *; now apply IH.
  - intros H; induction ops as [|o ops IH] using rev_ind; [exact H|].
    rewrite ejecutar_orden_snoc; now apply aplicar_orden_completada.
  - intros obs h c now; rewrite ejecutar_orden_snoc; cbn.
    unfold OrdenTrabajo.completar_trabajo; destruct h, c; reflexivity.
Qed.

Lemma OrdenTrabajo_estado_reachable_witness :
  OrdenTrabajo.estado
    (ejecutar_orden orden_nueva
       [Pausar; Reanudar; AgregarMaterial "Grasa" 2 "kg" (Some 15%Q)])
  = OrdenTrabajo.estado orden_nueva.
Proof.
  apply (OrdenTrabajo_estado_reachable orden_nueva
           [Pausar; Reanudar; AgregarMaterial "Grasa" 2 "kg" (Some 15%Q)]).
  reflexivity.
Defined.

Lemma aplicar_orden_fecha_fin (self : OrdenTrabajo.t) (o : op_orden) :
  OrdenTrabajo.fecha_fin (aplicar_orden self o)
  = match o with
    | Completar _ _ _ now_iso => Some now_iso
    | _ => OrdenTrabajo.fecha_fin self
    end.
Proof.
  destruct self as [? ? ? ? ? ? ? fi ff e ? ? ? ? ? ce ?].
  destruct o as [now| | |obs h c now|n q u c]; cbn.
  - unfold OrdenTrabajo.iniciar_trabajo; cbn.
    destruct e; cbn; auto; destruct (falsy_str fi); cbn; auto.
  - unfold OrdenTrabajo.pausar_trabajo; cbn; destruct e; cbn; auto.
  - unfold OrdenTrabajo.reanudar_trabajo; cbn; destruct e; cbn; auto.
  - unfold OrdenTrabajo.completar_trabajo; cbn.
    destruct h, c; cbn; auto.
  - unfold OrdenTrabajo.agregar_material; cbn.
    destruct c; cbn; auto. destruct ce; cbn; auto.
Qed.

(** A work order that starts with no finish time, or completed, keeps the
    invariant that a finish time implies the status COMPLETADA; and its
    finish time is the clock reading of the last [completar_trabajo], each
    call overwriting the one before. *)
Theorem OrdenTrabajo_fecha_fin_implies_completada
    (self : OrdenTrabajo.t) (ops : list op_orden) :
  ((OrdenTrabajo.fecha_fin self <> None ->
    OrdenTrabajo.estado self = COMPLETADA) ->
   OrdenTrabajo.fecha_fin (ejecutar_orden self ops) <> None ->
   OrdenTrabajo.estado (ejecutar_orden self ops) = COMPLETADA) /\
  OrdenTrabajo.fecha_fin (ejecutar_orden self ops)
  = match ultimo_completar ops with
    | Some now_iso => Some now_iso
    | None => OrdenTrabajo.fecha_fin self
    end.
Proof.
  split.
  - intros H0; induction ops as [|o ops IH] using rev_ind; [exact H0|].
    rewrite ejecutar_orden_snoc, aplicar_orden_fecha_fin.
    destruct o as [now| | |obs h c now|n q u c]; intros H;
      try (apply aplicar_orden_completada; now apply IH).
    cbn; unfold OrdenTrabajo.completar_trabajo; destruct h, c; reflexivity.
  - induction ops as [|o ops IH] using rev_ind; [reflexivity|].
    rewrite ejecutar_orden_snoc, aplicar_orden_fecha_fin.
    unfold ultimo_completar in *; rewrite fold_left_app; cbn [fold_left].
    destruct o; try exact IH; reflexivity.
Qed.

Lemma OrdenTrabajo_fecha_fin_implies_completada_witness :
  OrdenTrabajo.estado
    (ejecutar_orden orden_nueva
       [Iniciar "2024-01-05T08:00:00"; Completar "Sin novedad" None None
          "2024-01-05T10:00:00"; Iniciar "2024-01-06T08:00:00"; Pausar])
  = COMPLETADA.
Proof.
  apply (OrdenTrabajo_fecha_fin_implies_completada orden_nueva
           [Iniciar "2024-01-05T08:00:00"; Completar "Sin novedad" None None
              "2024-01-05T10:00:00"; Iniciar "2024-01-06T08:00:00"; Pausar]);
    [intros H; exfalso; apply H; reflexivity|discriminate].
Defined.

(** Pausing an order in process and resuming it, or resuming a paused
    order and pausing it, gives back the order unchanged; pausing an order
    that is not in process, or resuming one that is not paused, does
    nothing. *)
Theorem OrdenTrabajo_pausar_reanudar (self : OrdenTrabajo.t) :
  (OrdenTrabajo.estado self = EN_PROCESO ->
   OrdenTrabajo.reanudar_trabajo (OrdenTrabajo.pausar_trabajo self) = self) /\
  (OrdenTrabajo.estado self = PAUSADA ->
   OrdenTrabajo.pausar_trabajo (OrdenTrabajo.reanudar_trabajo self) = self) /\
  (OrdenTrabajo.estado self <> EN_PROCESO ->
   OrdenTrabajo.pausar_trabajo self = self) /\
  (OrdenTrabajo.estado self <> PAUSADA ->
   OrdenTrabajo.reanudar_trabajo self = self).
Proof.
  destruct self as [? ? ? ? ? ? ? ? ? e]; cbn.
  unfold OrdenTrabajo.reanudar_trabajo, OrdenTrabajo.pausar_trabajo; cbn.
  split; [|split; [|split]]; intros H; destruct e;
    try discriminate; try reflexivity; congruence.
Qed.

Lemma OrdenTrabajo_pausar_reanudar_witness :
  OrdenTrabajo.reanudar_trabajo
    (OrdenTrabajo.pausar_trabajo
       (OrdenTrabajo.iniciar_trabajo orden_nueva "2024-01-05T08:00:00"))
  = OrdenTrabajo.iniciar_trabajo orden_nueva "2024-01-05T08:00:00".
Proof.
  apply (proj1 (OrdenTrabajo_pausar_reanudar
                  (OrdenTrabajo.iniciar_trabajo orden_nueva
                     "2024-01-05T08:00:00"))).
  reflexivity.
Defined.

Lemma aplicar_orden_fecha_inicio (self : OrdenTrabajo.t) (o : op_orden) :
  OrdenTrabajo.fecha_inicio (aplicar_orden self o)
  = match o with
    | Iniciar now_iso =>
        if estado_por_iniciar (OrdenTrabajo.estado self)
           && falsy_str (OrdenTrabajo.fecha_inicio self)
        then Some now_iso else OrdenTrabajo.fecha_inicio self
    | _ => OrdenTrabajo.fecha_inicio self
    end.
Proof.
  destruct self as [? ? ? ? ? ? ? fi ff e ? ? ? ? ? ce ?].
  destruct o as [now| | |obs h c now|n q u c]; cbn.
  - unfold OrdenTrabajo.iniciar_trabajo; cbn.
    destruct e; cbn; auto; destruct (falsy_str fi); cbn; auto.
  - unfold OrdenTrabajo.pausar_trabajo; cbn; destruct e; cbn; auto.
  - unfold OrdenTrabajo.reanudar_trabajo; cbn; destruct e; cbn; auto.
  - unfold OrdenTrabajo.completar_trabajo; cbn.
    destruct h, c; cbn; auto.
  - unfold OrdenTrabajo.agregar_material; cbn.
    destruct c; cbn; auto. destruct ce; cbn; auto.
Qed.

Lemma ejecutar_orden_fecha_inicio_truthy
    (ops : list op_orden) (self : OrdenTrabajo.t) :
  truthy_str (OrdenTrabajo.fecha_inicio self) = true ->
  OrdenTrabajo.fecha_inicio (ejecutar_orden self ops)
  = OrdenTrabajo.fecha_inicio self.
Proof.
  intros H; induction ops as [|o ops IH] using rev_ind; [reflexivity|].
  rewrite ejecutar_orden_snoc, aplicar_orden_fecha_inicio, IH.
  destruct o; try reflexivity.
  unfold falsy_str; now rewrite H, andb_false_r.
Qed.

Lemma ejecutar_orden_not_started
    (ops : list op_orden) (self : OrdenTrabajo.t) :
  forallb (fun o => negb (es_iniciar o) && negb (es_completar o)) ops = true ->
  estado_por_iniciar (OrdenTrabajo.estado self) = true ->
  OrdenTrabajo.estado (ejecutar_orden self ops) = OrdenTrabajo.estado self /\
  OrdenTrabajo.fecha_inicio (ejecutar_orden self ops)
  = OrdenTrabajo.fecha_inicio self.
Proof.
  intros H He; induction ops as [|o ops IH] using rev_ind; [now split|].
  rewrite forallb_app in H; apply andb_prop in H; destruct H as [Hops Ho].
  destruct (IH Hops) as [IH1 IH2]; clear IH.
  rewrite ejecutar_orden_snoc, aplicar_orden_fecha_inicio.
  cbn [forallb] in Ho; rewrite andb_true_r in Ho.
  split; [|destruct o; try exact IH2; discriminate].
  rewrite <- IH1 in He |- *.
  destruct (ejecutar_orden self ops) as [? ? ? ? ? ? ? fi ff e ? ? ? ? ? ce ?].
  cbn in He |- *.
  destruct o as [now| | |obs h c now|n q u c]; try discriminate; cbn.
  - unfold OrdenTrabajo.pausar_trabajo; cbn; destruct e; try discriminate;
      reflexivity.
  - unfold OrdenTrabajo.reanudar_trabajo; cbn; destruct e; try discriminate;
      reflexivity.
  - unfold OrdenTrabajo.agregar_material; cbn.
    destruct c; cbn; auto. destruct ce; cbn; auto.
Qed.

(** The start time of a work order is the clock reading of the first
    [iniciar_trabajo] made while the order was pending or scheduled; once
    set it is never changed, whatever is called afterwards. *)
Theorem OrdenTrabajo_fecha_inicio_set_once :
  (forall (self : OrdenTrabajo.t) (ops : list op_orden),
     truthy_str (OrdenTrabajo.fecha_inicio self) = true ->
     OrdenTrabajo.fecha_inicio (ejecutar_orden self ops)
     = OrdenTrabajo.fecha_inicio self) /\
  (forall (self : OrdenTrabajo.t) (antes despues : list op_orden)
          (now_iso : string),
     truthy_str (OrdenTrabajo.fecha_inicio self) = false ->
     estado_por_iniciar (OrdenTrabajo.estado self) = true ->
     forallb (fun o => negb (es_iniciar o) && negb (es_completar o)) antes
     = true ->
     now_iso <> EmptyString ->
     OrdenTrabajo.fecha_inicio
       (ejecutar_orden self (antes ++ Iniciar now_iso :: despues))
     = Some now_iso).
Proof.
  split; [intros; now apply ejecutar_orden_fecha_inicio_truthy|].
  intros self antes despues now Hf He Ha Hn.
  destruct (ejecutar_orden_not_started antes self Ha He) as [E1 E2].
  unfold ejecutar_orden; rewrite fold_left_app; cbn [fold_left].
  fold (ejecutar_orden self antes).
  set (self' := ejecutar_orden self antes) in *.
  assert (E : OrdenTrabajo.fecha_inicio (aplicar_orden self' (Iniciar now))
              = Some now).
  { rewrite aplicar_orden_fecha_inicio, E1, E2, He.
    unfold falsy_str; now rewrite Hf. }
  fold (ejecutar_orden (aplicar_orden self' (Iniciar now)) despues).
  rewrite ejecutar_orden_fecha_inicio_truthy; [exact E|].
  rewrite E; cbn; apply negb_true_iff, String.eqb_neq; exact Hn.
Qed.

Lemma OrdenTrabajo_fecha_inicio_set_once_witness :
  OrdenTrabajo.fecha_inicio
    (ejecutar_orden orden_nueva
       ([Pausar; AgregarMaterial "Grasa" 2 "kg" None]
        ++ Iniciar "2024-01-05T08:00:00"
        :: [Pausar; Reanudar; Iniciar "2024-01-06T08:00:00"]))
  = Some "2024-01-05T08:00:00"%string.
Proof.
  destruct OrdenTrabajo_fecha_inicio_set_once as [_ H].
  apply H; try reflexivity; discriminate.
Defined.

(** ** Materials and the estimated cost *)

Lemma aplicar_orden_materiales (self : OrdenTrabajo.t) (o : op_orden) :
  OrdenTrabajo.materiales (aplicar_orden self o)
  = OrdenTrabajo.materiales self ++ materiales_de [o] /\
  OrdenTrabajo.costo_estimado (aplicar_orden self o)
  = match o with
    | AgregarMaterial _ q _ (Some c) =>
        Some (importe (OrdenTrabajo.costo_estimado self) + q * c)%Q
    | _ => OrdenTrabajo.costo_estimado self
    end.
Proof.
  destruct self as [? ? ? ? ? ? ? fi ff e ? ? ? ma ? ce ?].
  destruct o as [now| | |obs h c now|n q u c]; cbn; rewrite ?app_nil_r.
  - unfold OrdenTrabajo.iniciar_trabajo; cbn.
    destruct e; cbn; auto; destruct (falsy_str fi); cbn; auto.
  - unfold OrdenTrabajo.pausar_trabajo; cbn; destruct e; cbn; auto.
  - unfold OrdenTrabajo.reanudar_trabajo; cbn; destruct e; cbn; auto.
  - unfold OrdenTrabajo.completar_trabajo; cbn.
    destruct h, c; cbn; auto.
  - unfold OrdenTrabajo.agregar_material; cbn.
    destruct c; cbn; auto. destruct ce; cbn; auto.
Qed.

(** Over any sequence of calls the materials of a work order are those it
    had followed by those added, in order; its estimated cost is what it
    was (nothing counting for 0) plus quantity times unit cost of every
    material added with a unit cost, and stays absent only if it was absent
    and no material added had a unit cost. *)
Theorem OrdenTrabajo_agregar_material
    (self : OrdenTrabajo.t) (ops : list op_orden) :
  OrdenTrabajo.materiales (ejecutar_orden self ops)
  = OrdenTrabajo.materiales self ++ materiales_de ops /\
  (importe (OrdenTrabajo.costo_estimado (ejecutar_orden self ops))
   == importe (OrdenTrabajo.costo_estimado self)
      + total (map costo_material (materiales_de ops)))%Q /\
  (OrdenTrabajo.costo_estimado (ejecutar_orden self ops) = None <->
   OrdenTrabajo.costo_estimado self = None /\
   existsb tiene_costo (materiales_de ops) = false).
Proof.
  induction ops as [|o ops (IH1 & IH2 & IH3)] using rev_ind.
  - unfold ejecutar_orden, materiales_de; cbn [fold_left flat_map map existsb].
    rewrite app_nil_r, total_nil.
    split; [reflexivity|]. split; [lra|]. split; [auto|now intros [? _]].
  - rewrite ejecutar_orden_snoc.
    destruct (aplicar_orden_materiales (ejecutar_orden self ops) o) as [E1 E2].
    rewrite E1, E2, IH1.
    unfold materiales_de in *; rewrite flat_map_app, map_app, total_app.
    rewrite existsb_app, app_assoc.
    split; [reflexivity|].
    set (T := total (map costo_material (flat_map _ ops))) in *.
    destruct o as [now| | |obs h c now|n q u [c|]];
      cbn [flat_map app map existsb tiene_costo m_costo_unitario];
      rewrite ?total_nil, ?total_cons, ?total_nil, ?orb_false_r;
      try (split; [lra|exact IH3]).
    + unfold costo_material; cbn [m_costo_unitario m_cantidad importe].
      split; [lra|].
      rewrite orb_true_r; split; [discriminate|intros [_ ?]; discriminate].
    + unfold costo_material; cbn [m_costo_unitario m_cantidad].
      split; [lra|exact IH3].
Qed.

Lemma OrdenTrabajo_agregar_material_witness :
  OrdenTrabajo.costo_estimado orden_nueva = None /\
  (importe
     (OrdenTrabajo.costo_estimado
        (ejecutar_orden orden_nueva
           [AgregarMaterial "Grasa" 2 "kg" (Some 15%Q); Iniciar "2024-01-05";
            AgregarMaterial "Trapo" 3 "un" None;
            AgregarMaterial "Sello" 1 "un" (Some 40%Q)]))
   == 70)%Q.
Proof.
  split; [reflexivity|].
  destruct (OrdenTrabajo_agregar_material orden_nueva
              [AgregarMaterial "Grasa" 2 "kg" (Some 15%Q); Iniciar "2024-01-05";
               AgregarMaterial "Trapo" 3 "un" None;
               AgregarMaterial "Sello" 1 "un" (Some 40%Q)]) as (_ & H & _).
  rewrite H; reflexivity.
Defined.

(** ** A completed order before the calculator *)

Lemma vista_completar_trabajo (self : OrdenTrabajo.t) (obs : string)
    (h c : option Q) (now_iso : string) :
  OrdenTrabajo.vista
    (OrdenTrabajo.to_dict
       (OrdenTrabajo.completar_trabajo self obs h c now_iso))
  = {| ot_tipo := Val (TipoOrden_value (OrdenTrabajo.tipo self));
       ot_estado := Val "Completada"%string;
       ot_fecha_programada := Val (OrdenTrabajo.fecha_programada self);
       ot_fecha_fin := Val now_iso;
       ot_costo_real :=
         Falla.option_slot
           match c with
           | Some x => Some x
           | None => OrdenTrabajo.costo_real self
           end |}.
Proof.
  destruct self; unfold OrdenTrabajo.completar_trabajo.
  destruct h, c; reflexivity.
Qed.

(** A preventive order completed with [completar_trabajo] and handed to
    the calculator through [to_dict] is counted on time exactly when the
    clock reading at completion is at most one day after the scheduled
    date: alone, it gives a compliance of 100 or of 0; and its actual cost,
    the one given at completion or else the one it had, is the total
    cost.  This holds when the day after the scheduled date is still a
    [datetime]; when it lies beyond [datetime.max] the call raises
    [OverflowError]. *)
Theorem calcular_kpis_activo_after_completar
    (parse_iso : string -> option datetime) (self : OrdenTrabajo.t)
    (obs : string) (h c : option Q) (now_iso now : string)
    (fin programada : datetime) :
  OrdenTrabajo.tipo self = PREVENTIVO ->
  parse_iso now_iso = Some fin ->
  parse_iso (OrdenTrabajo.fecha_programada self) = Some programada ->
  now_iso <> EmptyString ->
  OrdenTrabajo.fecha_programada self <> EmptyString ->
  datetime_min <= programada + timedelta_days 1 ->
  let ordenes :=
    Some [OrdenTrabajo.vista
            (OrdenTrabajo.to_dict
               (OrdenTrabajo.completar_trabajo self obs h c now_iso))] in
  (programada + timedelta_days 1 <= datetime_max ->
   exists (r : kpis) (p : Q),
     calcular_kpis_activo parse_iso [] ordenes now = Ok r /\
     cumplimiento_preventivo r = Some p /\
     (p == if fin <=? programada + timedelta_days 1 then 100 else 0)%Q /\
     (costo_total_mantenimiento r
      == importe match c with
                 | Some x => Some x
                 | None => OrdenTrabajo.costo_real self
                 end)%Q) /\
  (datetime_max < programada + timedelta_days 1 ->
   calcular_kpis_activo parse_iso [] ordenes now = Raise OverflowError).
Proof.
  intros Ht Hf Hp Hn Hs Hlo ordenes; unfold ordenes; clear ordenes.
  rewrite vista_completar_trabajo, Ht.
  assert (Tn : truthy_str (Some now_iso) = true)
    by (cbn; apply negb_true_iff, String.eqb_neq; exact Hn).
  assert (Ts : truthy_str (Some (OrdenTrabajo.fecha_programada self)) = true)
    by (cbn; apply negb_true_iff, String.eqb_neq; exact Hs).
  set (costo := match c with
                | Some x => Some x
                | None => OrdenTrabajo.costo_real self
                end).
  assert (E : cumplimiento_de parse_iso
                (Some [{| ot_tipo := Val (TipoOrden_value PREVENTIVO);
                          ot_estado := Val "Completada"%string;
                          ot_fecha_programada :=
                            Val (OrdenTrabajo.fecha_programada self);
                          ot_fecha_fin := Val now_iso;
                          ot_costo_real := Falla.option_slot costo |}])
              = (limite <- add_timedelta programada (timedelta_days 1) ;;
                 Ok (Some ((inject_Z (if fin <=? limite then 1 + 0 else 0)
                            / inject_Z 1) * 100)%Q))).
  { unfold cumplimiento_de; cbn [filter].
    change (es_preventivo _) with true; cbn iota.
    cbn [countM]; unfold completado_a_tiempo at 1.
    cbn [ot_estado ot_fecha_fin ot_fecha_programada get getitem].
    change (in_strings (Some "Completada"%string) ESTADOS_COMPLETADA) with true.
    cbn iota; rewrite Tn, Ts; cbn [fromisoformat].
    rewrite Hf, Hp; cbn [bind countM].
    destruct (add_timedelta programada (timedelta_days 1)); reflexivity. }
  unfold calcular_kpis_activo.
  rewrite E; cbn [filter fechas_de mapM bind]; clear E.
  unfold add_timedelta.
  replace (programada + timedelta_days 1 <? datetime_min) with false
    by (symmetry; apply Z.ltb_ge; lia).
  cbn [orb].
  split; intros Hhi.
  - replace (datetime_max <? programada + timedelta_days 1) with false
      by (symmetry; apply Z.ltb_ge; lia).
    cbn [bind].
    eexists; eexists; split; [reflexivity|].
    cbn [cumplimiento_preventivo costo_total_mantenimiento].
    split; [reflexivity|]. split.
    + destruct (fin <=? programada + timedelta_days 1); reflexivity.
    + rewrite costo_de_total; cbn [ordenes_de map].
      rewrite total_cons, total_nil; unfold costo_presente; cbn [ot_costo_real].
      destruct costo; cbn; lra.
  - replace (datetime_max <? programada + timedelta_days 1) with true
      by (symmetry; apply Z.ltb_lt; lia).
    reflexivity.
Qed.

Lemma calcular_kpis_activo_after_completar_witness :
  (exists (r : kpis) (p : Q),
     calcular_kpis_activo iso_parse []
       (Some [OrdenTrabajo.vista
                (OrdenTrabajo.to_dict
                   (OrdenTrabajo.completar_trabajo orden_nueva
                      "Sin novedad" None (Some 80%Q) "2024-01-06T00:00:00"))])
       ahora = Ok r /\
     cumplimiento_preventivo r = Some p /\ (p == 100)%Q /\
     (costo_total_mantenimiento r == 80)%Q) /\
  calcular_kpis_activo iso_parse []
    (Some [OrdenTrabajo.vista
             (OrdenTrabajo.to_dict
                (OrdenTrabajo.completar_trabajo orden_ultimo_dia
                   "Sin novedad" None None "2024-01-06T00:00:00"))])
    ahora = Raise OverflowError.
Proof.
  assert (Hn : "2024-01-06T00:00:00"%string <> EmptyString) by discriminate.
  split.
  - assert (Hs : OrdenTrabajo.fecha_programada orden_nueva <> EmptyString)
      by discriminate.
    assert (Hlo : datetime_min <= 1704412800000000 + timedelta_days 1)
      by (vm_compute; discriminate).
    destruct (calcular_kpis_activo_after_completar
                iso_parse orden_nueva "Sin novedad" None (Some 80%Q)
                "2024-01-06T00:00:00" ahora
                1704499200000000 1704412800000000
                eq_refl eq_refl eq_refl Hn Hs Hlo)
      as [H _].
    destruct H as (r & p & H1 & H2 & H3 & H4); [vm_compute; discriminate|].
    exists r, p; repeat split; assumption.
  - assert (Hs : OrdenTrabajo.fecha_programada orden_ultimo_dia <> EmptyString)
      by discriminate.
    assert (Hlo : datetime_min <= 253402214400000000 + timedelta_days 1)
      by (vm_compute; discriminate).
    destruct (calcular_kpis_activo_after_completar
                iso_parse orden_ultimo_dia "Sin novedad" None None
                "2024-01-06T00:00:00" ahora
                1704499200000000 253402214400000000
                eq_refl eq_refl eq_refl Hn Hs Hlo)
      as [_ H].
    apply H; reflexivity.
Defined.

(** * The statements sent to the database *)

Lemma ocurrencias_app (c : ascii) (a b : string) :
  ocurrencias c (a ++ b) = (ocurrencias c a + ocurrencias c b)%nat.
Proof.
  induction a as [|x a IH]; cbn [append ocurrencias]; [reflexivity|].
  rewrite IH; lia.
Qed.

Lemma marcadores_app (a b : string) :
  marcadores (a ++ b) = (marcadores a + marcadores b)%nat.
Proof. apply ocurrencias_app. Qed.

Lemma marcadores_join (sep : string) (l : list string) :
  marcadores sep = 0%nat ->
  marcadores (DatabaseManager.join sep l)
  = fold_right Nat.add 0%nat (map marcadores l).
Proof.
  intros Hs; unfold DatabaseManager.join, marcadores in *.
  induction l as [|x l IH]; [reflexivity|].
  destruct l as [|y l].
  - cbn; lia.
  - change (String.concat sep (x :: y :: l))
      with ((x ++ sep ++ String.concat sep (y :: l))%string).
    rewrite !ocurrencias_app, Hs, IH; cbn [map fold_right]; lia.
Qed.

Section StatementFacts.
Variable V : Type.

Lemma condiciones_marcadores (items : list (string * option V)) :
  forallb (fun kv => sin_marcador (fst kv)) items = true ->
  fold_right Nat.add 0%nat
    (map marcadores
       (flat_map (fun kv : string * option V =>
                    match snd kv with
                    | Some _ => [(fst kv ++ " = ?")%string]
                    | None => []
                    end) items))
  = List.length
      (flat_map (fun kv : string * option V =>
                   match snd kv with
                   | Some value => [value]
                   | None => []
                   end) items).
Proof.
  induction items as [|[k [v|]] l IH]; cbn [forallb flat_map fst snd];
    intros H; [reflexivity| |];
    apply andb_prop in H; destruct H as [Hk Hl].
  - cbn [app map fold_right List.length]; rewrite (IH Hl), marcadores_app.
    apply Nat.eqb_eq in Hk; rewrite Hk; reflexivity.
  - cbn [app]; now apply IH.
Qed.

(** The statement [get_activos] builds has exactly one placeholder per
    parameter, the parameters being the filter values that are not [None],
    in the order of the filters; a filter whose value is [None] leaves no
    trace in it, and without any effective filter the statement is the
    plain listing. *)
Theorem get_activos_placeholders (items : list (string * option V)) :
  forallb (fun kv => sin_marcador (fst kv)) items = true ->
  marcadores (fst (DatabaseManager.get_activos (Some items)))
  = List.length (snd (DatabaseManager.get_activos (Some items))) /\
  snd (DatabaseManager.get_activos (Some items))
  = flat_map (fun kv : string * option V =>
                match snd kv with
                | Some value => [value]
                | None => []
                end) items /\
  DatabaseManager.get_activos (Some items)
  = DatabaseManager.get_activos
      (Some (filter (fun kv => match snd kv with
                               | Some _ => true
                               | None => false
                               end) items)) /\
  (forallb (fun kv => match snd kv with
                      | Some _ => false
                      | None => true
                      end) items = true ->
   DatabaseManager.get_activos (Some items)
   = @DatabaseManager.get_activos V None).
Proof.
  intros Hk.
  pose proof (condiciones_marcadores items Hk) as Hc.
  assert (Hf : forall g : string * option V -> list string,
             (forall kv, snd kv = None -> g kv = []) ->
             flat_map g
               (filter (fun kv => match snd kv with
                                  | Some _ => true
                                  | None => false
                                  end) items)
             = flat_map g items).
  { intros g Hg; clear Hk Hc.
    induction items as [|[k [v|]] l IH]; cbn [filter flat_map snd];
      [reflexivity|now rewrite IH|].
    rewrite (Hg (k, None) eq_refl); exact IH. }
  assert (Hp : flat_map (fun kv : string * option V =>
                           match snd kv with
                           | Some value => [value]
                           | None => []
                           end)
                 (filter (fun kv => match snd kv with
                                    | Some _ => true
                                    | None => false
                                    end) items)
               = flat_map (fun kv : string * option V =>
                             match snd kv with
                             | Some value => [value]
                             | None => []
                             end) items).
  { clear; induction items as [|[k [v|]] l IH]; cbn [filter flat_map snd];
      [reflexivity|now rewrite IH|exact IH]. }
  unfold DatabaseManager.get_activos.
  split; [|split; [|split]].
  - destruct items as [|i l] eqn:Ei; [reflexivity|]; rewrite <- Ei in *.
    set (conds := flat_map _ items) in *.
    destruct conds as [|c cs] eqn:Ec; cbn [fst snd];
      rewrite !marcadores_app.
    + rewrite <- Hc; reflexivity.
    + rewrite (marcadores_join " AND " (c :: cs) eq_refl), Hc.
      change (marcadores "SELECT * FROM activos") with 0%nat.
      change (marcadores " WHERE ") with 0%nat.
      change (marcadores " ORDER BY nombre") with 0%nat.
      lia.
  - destruct items as [|i l] eqn:Ei; [reflexivity|]; rewrite <- Ei in *.
    destruct (flat_map _ items); reflexivity.
  - rewrite <- (Hf (fun kv => match snd kv with
                              | Some _ => [(fst kv ++ " = ?")%string]
                              | None => []
                              end)) by (intros kv ->; reflexivity).
    rewrite <- Hp.
    destruct items as [|i l] eqn:Ei; [reflexivity|]; rewrite <- Ei in *.
    destruct (filter _ items) as [|j m] eqn:Ef; reflexivity.
  - intros Hn.
    assert (En : flat_map (fun kv : string * option V =>
                             match snd kv with
                             | Some _ => [(fst kv ++ " = ?")%string]
                             | None => []
                             end) items = []
                 /\ flat_map (fun kv : string * option V =>
                                match snd kv with
                                | Some value => [value]
                                | None => []
                                end) items = []).
    { clear - Hn; induction items as [|[k [v|]] l IH]; cbn in *;
        [split; reflexivity|discriminate|now apply IH]. }
    destruct En as [E1 E2].
    destruct items as [|i l] eqn:Ei; [reflexivity|]; rewrite <- Ei in *.
    rewrite E1, E2; reflexivity.
Qed.
End StatementFacts.

Lemma get_activos_placeholders_witness :
  DatabaseManager.get_activos
    (Some [("estado", Some "Activo"); ("ubicacion", None);
           ("criticidad", Some "Alta")]%string)
  = ("SELECT * FROM activos WHERE estado = ? AND criticidad = ? ORDER BY nombre",
     ["Activo"; "Alta"])%string /\
  marcadores
    (fst (DatabaseManager.get_activos
            (Some [("estado", Some "Activo"); ("ubicacion", None);
                   ("criticidad", Some "Alta")]%string)))
  = List.length
      (snd (DatabaseManager.get_activos
              (Some [("estado", Some "Activo"); ("ubicacion", None);
                     ("criticidad", Some "Alta")]%string))).
Proof.
  split; [reflexivity|].
  apply (get_activos_placeholders string
           [("estado", Some "Activo"); ("ubicacion", None);
            ("criticidad", Some "Alta")]%string).
  reflexivity.
Defined.

(** [update_activo] touches the database only for a non-empty update, and
    then with a statement that has one placeholder per parameter: the new
    values in the order of the dictionary, followed by the identifier. *)
Theorem update_activo_placeholders
    (V : Type) (activo_id : V) (update_data : list (string * V)) :
  forallb (fun kv => sin_marcador (fst kv)) update_data = true ->
  match DatabaseManager.update_activo activo_id update_data with
  | None => update_data = []
  | Some (query, params) =>
      update_data <> [] /\
      marcadores query = List.length params /\
      params = map snd update_data ++ [activo_id]
  end.
Proof.
  intros Hk; unfold DatabaseManager.update_activo.
  destruct update_data as [|kv l] eqn:E; [reflexivity|]; rewrite <- E in *.
  split; [subst; discriminate|]. split; [|reflexivity].
  rewrite !marcadores_app, (marcadores_join ", " _ eq_refl).
  rewrite length_app, length_map; cbn [List.length].
  change (marcadores "UPDATE activos SET ") with 0%nat.
  change (marcadores ", fecha_actualizacion = CURRENT_TIMESTAMP") with 0%nat.
  change (marcadores " WHERE activo_id = ?") with 1%nat.
  assert (Hs : fold_right Nat.add 0%nat
                 (map marcadores
                    (map (fun kv : string * V => (fst kv ++ " = ?")%string)
                         update_data))
               = List.length update_data).
  { clear E; induction update_data as [|[k v] m IH]; [reflexivity|].
    cbn [forallb fst] in Hk; apply andb_prop in Hk; destruct Hk as [Hk Hm].
    cbn [map fold_right List.length fst]; rewrite (IH Hm), marcadores_app.
    apply Nat.eqb_eq in Hk; rewrite Hk; reflexivity. }
  rewrite Hs; lia.
Qed.

Lemma update_activo_placeholders_witness :
  DatabaseManager.update_activo 7
    [("estado", 1); ("horas_operacion", 120)]%string
  = Some ("UPDATE activos SET estado = ?, horas_operacion = ?, fecha_actualizacion = CURRENT_TIMESTAMP WHERE activo_id = ?"%string,
          [1; 120; 7]) /\
  marcadores "UPDATE activos SET estado = ?, horas_operacion = ?, fecha_actualizacion = CURRENT_TIMESTAMP WHERE activo_id = ?"
  = 3%nat.
Proof.
  split; [reflexivity|].
  pose proof (update_activo_placeholders Z 7
                [("estado", 1); ("horas_operacion", 120)]%string eq_refl) as H.
  cbn in H; destruct H as (_ & H & _); exact H.
Defined.

(** * Two more facts about what the calculator reads *)

Lemma cumplimiento_de_preventivos
    (parse_iso : string -> option datetime) (ordenes : list orden) :
  cumplimiento_de parse_iso (Some ordenes)
  = cumplimiento_de parse_iso (Some (filter es_preventivo ordenes)).
Proof.
  unfold cumplimiento_de; rewrite filter_idem.
  destruct ordenes as [|ot l] eqn:E; [reflexivity|]; rewrite <- E.
  destruct (filter es_preventivo ordenes); reflexivity.
Qed.

(** The preventive compliance, and whether the call raises, depend on the
    preventive orders only: dropping every other order from the input
    leaves them as they are, together with MTBF, MTTR, availability and the
    failure counts. *)
Theorem calcular_kpis_activo_only_preventive_orders
    (parse_iso : string -> option datetime) (fallas : list falla)
    (ordenes : list orden) (now : string) :
  let todas := calcular_kpis_activo parse_iso fallas (Some ordenes) now in
  let preventivas :=
    calcular_kpis_activo parse_iso fallas
      (Some (filter es_preventivo ordenes)) now in
  campo cumplimiento_preventivo todas = campo cumplimiento_preventivo preventivas /\
  campo mtbf_horas todas = campo mtbf_horas preventivas /\
  campo mttr_horas todas = campo mttr_horas preventivas /\
  campo disponibilidad todas = campo disponibilidad preventivas /\
  campo num_fallas todas = campo num_fallas preventivas /\
  campo num_intervalos_mtbf todas = campo num_intervalos_mtbf preventivas.
Proof.
  cbv zeta; unfold calcular_kpis_activo.
  rewrite <- cumplimiento_de_preventivos.
  destruct (fechas_de parse_iso (filter es_resuelta fallas)) as [fechas|e];
    cbn [bind campo]; [|repeat split].
  destruct (calcular_mtbf fechas) as [mtbf n].
  destruct (if Qgt_bool mtbf 0 then _ else _) as [d|e];
    cbn [bind campo]; [|repeat split].
  destruct (cumplimiento_de parse_iso (Some ordenes)) as [c|e];
    cbn [bind campo]; repeat split.
Qed.

Lemma flat_map_Forall2 (A B C : Type) (R : A -> B -> Prop)
    (g : A -> list C) (h : B -> list C) (l : list A) (l' : list B) :
  (forall a b, R a b -> g a = h b) -> Forall2 R l l' ->
  flat_map g l = flat_map h l'.
Proof.
  intros Hgh; induction 1 as [|a b l l' Hab Hl IH]; [reflexivity|].
  cbn [flat_map]; now rewrite (Hgh a b Hab), IH.
Qed.

(** Without period bounds the report reads neither the status nor the
    report timestamp of a record: [total_fallas] is the number of all the
    records supplied, whatever their status, and records that differ only
    in those two keys give the same report. *)
Theorem generar_reporte_estadistico_unbounded
    (parse_iso : string -> option datetime) (fallas fallas' : list falla) :
  (forall r : reporte,
     generar_reporte_estadistico parse_iso fallas None None = Ok (Some r) ->
     total_fallas r = len fallas) /\
  (Forall2 misma_salvo_estado_fecha fallas fallas' ->
   generar_reporte_estadistico parse_iso fallas None None
   = generar_reporte_estadistico parse_iso fallas' None None).
Proof.
  split.
  - intros r H; now apply generar_reporte_estadistico_Some in H.
  - intros H.
    assert (E1 : flat_map (fun f => match get (f_tiempo_fuera_servicio_h f) with
                                    | Some h => [h]
                                    | None => []
                                    end) fallas
                 = flat_map (fun f => match get (f_tiempo_fuera_servicio_h f) with
                                      | Some h => [h]
                                      | None => []
                                      end) fallas').
    { apply (flat_map_Forall2 _ _ _ _ _ _ _ _
               (fun a b (Hab : misma_salvo_estado_fecha a b) =>
                  f_equal (fun s => match get s with
                                    | Some h => [h]
                                    | None => []
                                    end) (proj1 Hab)) H). }
    assert (E2 : flat_map (fun f => match get (f_costo_reparacion f) with
                                    | Some c => [c]
                                    | None => []
                                    end) fallas
                 = flat_map (fun f => match get (f_costo_reparacion f) with
                                      | Some c => [c]
                                      | None => []
                                      end) fallas').
    { apply (flat_map_Forall2 _ _ _ _ _ _ _ _
               (fun a b (Hab : misma_salvo_estado_fecha a b) =>
                  f_equal (fun s => match get s with
                                    | Some c => [c]
                                    | None => []
                                    end) (proj2 (proj2 Hab))) H). }
    assert (E3 : map causa_de fallas = map causa_de fallas').
    { clear E1 E2; induction H as [|a b l l' (_ & Hc & _) Hl IH];
        [reflexivity|].
      cbn [map]; unfold causa_de at 1 3; now rewrite Hc, IH. }
    assert (E4 : len fallas = len fallas')
      by (unfold len; now rewrite (Forall2_length H)).
    unfold generar_reporte_estadistico.
    destruct H as [|a b l l' Hab Hl]; [reflexivity|].
    cbn [bind]; now rewrite E1, E2, E3, E4.
Qed.

Lemma generar_reporte_estadistico_unbounded_witness :
  (exists r : reporte,
     generar_reporte_estadistico iso_parse fallas_escenario None None
     = Ok (Some r) /\ total_fallas r = len fallas_escenario) /\
  generar_reporte_estadistico iso_parse fallas_escenario None None
  = generar_reporte_estadistico iso_parse fallas_escenario_invalidas None None.
Proof.
  destruct (generar_reporte_estadistico_unbounded
              iso_parse fallas_escenario fallas_escenario_invalidas)
    as [Htotal Hsame].
  split.
  - destruct (generar_reporte_estadistico iso_parse fallas_escenario None None)
      as [[r|]|e] eqn:E; [|discriminate E|discriminate E].
    exists r; split; [reflexivity|apply Htotal; reflexivity].
  - apply Hsame.
    unfold fallas_escenario_invalidas, fallas_escenario; cbn [map].
    repeat (apply Forall2_cons; [repeat split|]); apply Forall2_nil.
Defined.
